(** * MedicPort stock-in: relocation engine and audit stores

    A shallow embedding of [src/stockin/relocation.py] and of
    [src/stockin/product_archive.py].

    Conventions of the embedding.
    - Python dictionaries that are only looked up and updated by key
      ([items], [virtual_units], the [relocations] / archive [items]
      mappings, the [metadata] dictionaries) are [gmap]s.  The [shelves]
      dictionary is iterated in insertion order by the candidate search,
      so it is an association list.
    - Objects held in [virtual_units] and [items] are mutated in place by
      the source; the embedding identifies an object with its key in the
      dictionary that holds it and writes the mutated value back at that key.
    - The [items] attribute of a slot is a list or null ([option (list Z)]):
      the search and the append read a null list as empty, the membership
      test on the origin raises [TypeError] on it.
    - Millimetre dimensions, volumes and scores are exact integers ([Z]);
      rounding of floating point numbers is outside the model.
    - [datetime.now()] is an input of the functions that read the clock.
    - The disk is the backing file plus one bit telling whether writing
      succeeds; a failing write raises and leaves the file as it was.
    - [print] calls and the texts of error details are dropped. *)

From stdpp Require Import gmap strings list fin_maps.
From Stdlib Require Import ZArith Lia.

Local Open Scope Z_scope.

(** ** Exceptions and results *)

Inductive exception :=
| HTTPException (status_code : Z)   (* fastapi.HTTPException *)
| KeyError                          (* unguarded dictionary subscript *)
| TypeError                         (* membership test on a null occupant list *)
| LoadError                         (* json / int() / validation failure while loading *)
| OSError.                          (* mkdir / open / write failure while saving *)

Inductive result (A : Type) :=
| Ok (a : A)
| Raise (e : exception).
Arguments Ok {A} a.
Arguments Raise {A} e.

Definition is_Ok {A} (r : result A) : Prop :=
  match r with Ok _ => True | Raise _ => False end.

#[global] Instance result_ret : MRet result := fun A a => Ok a.
#[global] Instance result_bind : MBind result :=
  fun A B k r => match r with Ok a => k a | Raise e => Raise e end.

#[global] Instance exception_eq_dec : EqDecision exception.
Proof. solve_decision. Defined.

(** ** Inventory data model (owned by the caller, mutated in place) *)

Definition timestamp := Z.

Record Dimensions := {
  width : Z;
  height : Z;
  depth : Z;
  volume : option Z   (* [Some v] when the object has a [volume] attribute *)
}.

Record Position := { pos_x : Z; pos_y : Z; pos_z : Z }.

Record ItemMetadata := {
  product_id : Z;
  barcode : string;
  dimensions : Dimensions
}.

Record Item := {
  metadata : ItemMetadata;
  vsu_id : option Z;
  stock_index : Z
}.

(** [vsu_items] is the [items] attribute: the ordered occupant list, or
    [None] for a null list, which the source tests for in two places and
    does not expect in a third. *)
Record VSU := {
  vsu_code : string;
  vsu_shelf_id : Z;
  vsu_dimensions : Dimensions;
  vsu_position : Position;
  vsu_items : option (list Z);
  vsu_occupied : bool
}.

Record Shelf := {
  shelf_name : string;
  shelf_rack_id : option Z;
  shelf_virtual_units : list Z
}.

(** [shelves.get(shelf_id)] on the insertion-ordered dictionary. *)
Fixpoint shelves_get (shelves : list (Z * Shelf)) (shelf_id : Z) : option Shelf :=
  match shelves with
  | [] => None
  | (sid, shelf) :: rest =>
      if bool_decide (sid = shelf_id) then Some shelf else shelves_get rest shelf_id
  end.

(** ** FitEvaluator *)

Definition _item_fits_vsu (item : Item) (vsu : VSU) : bool :=
  let item_width := width (dimensions (metadata item)) in
  let item_height := height (dimensions (metadata item)) in
  let item_depth := depth (dimensions (metadata item)) in
  let vsu_width := width (vsu_dimensions vsu) in
  let vsu_height := height (vsu_dimensions vsu) in
  let vsu_depth := depth (vsu_dimensions vsu) in
  (item_width <=? vsu_width) && (item_height <=? vsu_height) && (item_depth <=? vsu_depth).

Definition item_volume (item : Item) : Z :=
  width (dimensions (metadata item)) *
  height (dimensions (metadata item)) *
  depth (dimensions (metadata item)).

Definition vsu_volume (vsu : VSU) : Z :=
  match volume (vsu_dimensions vsu) with
  | Some v => v
  | None => width (vsu_dimensions vsu) * height (vsu_dimensions vsu) * depth (vsu_dimensions vsu)
  end.

Definition wasted_space (item : Item) (vsu : VSU) : Z :=
  vsu_volume vsu - item_volume item.

Definition location_bonus (is_same_shelf is_same_rack : bool) : Z :=
  if is_same_shelf then -1000
  else if is_same_rack then -500
  else 0.

Definition _calculate_vsu_fit_score (item : Item) (vsu : VSU)
    (is_same_shelf is_same_rack : bool) : Z :=
  wasted_space item vsu + location_bonus is_same_shelf is_same_rack.

(** ** CandidateSearch *)

(** A collected candidate: (score, vsu_id, vsu_code, vsu). *)
Definition candidate := (Z * Z * string * VSU)%type.

Definition cand_score (c : candidate) : Z := c.1.1.1.
Definition cand_vsu_id (c : candidate) : Z := c.1.1.2.
Definition cand_code (c : candidate) : string := c.1.2.
Definition cand_vsu (c : candidate) : VSU := c.2.

Definition is_empty_list {A} (l : list A) : bool :=
  match l with [] => true | _ => false end.

(** The truth value of an [items] attribute: a null list and an empty list
    are both false. *)
Definition has_items (items : option (list Z)) : bool :=
  match items with
  | Some (_ :: _) => true
  | _ => false
  end.

(** The body of the inner loop for one [vsu_id] of a shelf. *)
Definition scan_vsu (item : Item) (virtual_units : gmap Z VSU)
    (is_same_shelf is_same_rack : bool) (vsu_id : Z) : list candidate :=
  match virtual_units !! vsu_id with
  | None => []
  | Some vsu =>
      if has_items (vsu_items vsu) then []
      else if negb (_item_fits_vsu item vsu) then []
      else [(_calculate_vsu_fit_score item vsu is_same_shelf is_same_rack,
             vsu_id, vsu_code vsu, vsu)]
  end.

(** The body of the outer loop for one [(sid, shelf)] entry. *)
Definition scan_shelf (item : Item) (shelf_id : Z) (current_rack_id : option Z)
    (virtual_units : gmap Z VSU) (entry : Z * Shelf) : list candidate :=
  let is_same_shelf := bool_decide (entry.1 = shelf_id) in
  let is_same_rack := bool_decide (shelf_rack_id entry.2 = current_rack_id) in
  flat_map (scan_vsu item virtual_units is_same_shelf is_same_rack)
           (shelf_virtual_units entry.2).

Definition current_rack (shelves : list (Z * Shelf)) (shelf_id : Z) : option Z :=
  match shelves_get shelves shelf_id with
  | Some current_shelf => shelf_rack_id current_shelf
  | None => None
  end.

Definition collect_candidates (item : Item) (shelf_id : Z)
    (virtual_units : gmap Z VSU) (shelves : list (Z * Shelf)) : list candidate :=
  flat_map (scan_shelf item shelf_id (current_rack shelves shelf_id) virtual_units) shelves.

(** [candidates.sort(key=lambda x: x[0])]: a stable sort on the score. *)
Fixpoint insert_by_score (c : candidate) (l : list candidate) : list candidate :=
  match l with
  | [] => [c]
  | d :: l' =>
      if cand_score c <=? cand_score d then c :: d :: l'
      else d :: insert_by_score c l'
  end.

Fixpoint sort_by_score (l : list candidate) : list candidate :=
  match l with
  | [] => []
  | c :: l' => insert_by_score c (sort_by_score l')
  end.

Definition find_empty_vsu_for_relocate (item_to_relocate : Item) (shelf_id : Z)
    (items : gmap Z Item) (virtual_units : gmap Z VSU) (shelves : list (Z * Shelf))
    : option (Z * string * VSU) :=
  let candidates := collect_candidates item_to_relocate shelf_id virtual_units shelves in
  if is_empty_list candidates then None
  else
    match sort_by_score candidates with
    | best :: _ => Some (cand_vsu_id best, cand_code best, cand_vsu best)
    | [] => None
    end.

(** ** Audit records, aggregates and their backing files *)

(** Values stored in the [metadata] dictionaries.  [MTime t] stands for the
    ISO-8601 string of the instant [t]. *)
Inductive meta_value :=
| MNone
| MInt (n : Z)
| MStr (s : string)
| MTime (t : timestamp).

Record RelocationRecord := {
  r_item_id : Z;
  r_product_id : Z;
  r_barcode : string;
  r_original_vsu_id : Z;
  r_original_vsu_code : string;
  r_new_vsu_id : Z;
  r_new_vsu_code : string;
  r_original_coordinates : Position;
  r_new_coordinates : Position;
  r_relocated_at : timestamp;
  r_reason : string
}.

Record RelocationHistory := {
  relocations : gmap Z RelocationRecord;
  history_metadata : gmap string meta_value
}.

Record ArchivedItem := {
  a_item_id : Z;
  a_product_id : Z;
  a_barcode : string;
  a_batch : string;
  a_expiration : string;
  a_dimensions : Dimensions;
  a_weight : Z;
  a_vsu_id : Z;
  a_vsu_code : string;
  a_shelf_id : Z;
  a_shelf_name : string;
  a_coordinates : Position;
  a_stock_index : Z;
  a_dispensed_at : timestamp;
  a_task_id : string
}.

Record ProductArchive := {
  archive_items : gmap Z ArchivedItem;
  archive_metadata : gmap string meta_value
}.

(** What a loader sees of the [metadata] member of the parsed JSON:
    the key is absent, or its value is not accepted as a dictionary by the
    aggregate's constructor, or it is a dictionary. *)
Inductive raw_metadata :=
| MetaAbsent
| MetaInvalid
| MetaDict (m : gmap string meta_value).

(** A parsed JSON object as the loaders traverse it.  An entry of the record
    mapping is the outcome of [int(key)] ([None]: it raises) paired with the
    outcome of building the record from the value ([None]: it raises).  A
    missing record mapping is the empty list of entries. *)
Record document (R : Type) := {
  doc_entries : list (option Z * option R);
  doc_metadata : raw_metadata
}.
Arguments doc_entries {R} d.
Arguments doc_metadata {R} d.

(** The backing file: absent; present but [json.load] (or the first
    traversal of its top level) raises; present and a JSON object. *)
Inductive file_content (R : Type) :=
| FileMissing
| FileUnreadable
| FileDocument (d : document R).
Arguments FileMissing {R}.
Arguments FileUnreadable {R}.
Arguments FileDocument {R} d.

(** The file together with whether creating the directory, opening the file
    for writing and dumping succeed. *)
Record storage (R : Type) := {
  file : file_content R;
  writable : bool
}.
Arguments file {R} s.
Arguments writable {R} s.

(** The loop that converts the string-keyed JSON mapping to an int-keyed
    dictionary; any failing entry raises out of the loop. *)
Definition convert_entry {R} (acc : result (gmap Z R)) (e : option Z * option R)
    : result (gmap Z R) :=
  d ← acc;
  match e.1, e.2 with
  | Some k, Some r => Ok (<[k := r]> d)
  | _, _ => Raise LoadError
  end.

Definition convert_entries {R} (entries : list (option Z * option R))
    : result (gmap Z R) :=
  foldl convert_entry (Ok ∅) entries.

(** [{str(k): v.dict() for k, v in m.items()}] as it reads back. *)
Definition dump_entries {R} (m : gmap Z R) : list (option Z * option R) :=
  (fun kv => (Some kv.1, Some kv.2)) <$> map_to_list m.

(** [max(m.keys())], defined when [m] is non-empty. *)
Definition max_key {R} (m : gmap Z R) : option Z :=
  match (map_to_list m).*1 with
  | [] => None
  | k :: ks => Some (foldr Z.max k ks)
  end.

(** ** Relocation history store *)

(** Module globals of [relocation.py] and the history file. *)
Record World := {
  relocation_history_state : option RelocationHistory;
  next_relocation_id : Z;
  history_storage : storage RelocationRecord
}.

(** State of a freshly imported module over a given disk. *)
Definition module_init (st : storage RelocationRecord) : World :=
  {| relocation_history_state := None;
     next_relocation_id := 1;
     history_storage := st |}.

Definition default_history_metadata : gmap string meta_value :=
  <["total_relocations"%string := MInt 0]>
    (<["last_updated"%string := MNone]>
      (<["version"%string := MStr "1.0"]> ∅)).

(** [RelocationHistory()] *)
Definition new_RelocationHistory : RelocationHistory :=
  {| relocations := ∅; history_metadata := default_history_metadata |}.

Definition history_document (history : RelocationHistory) : document RelocationRecord :=
  {| doc_entries := dump_entries (relocations history);
     doc_metadata := MetaDict (history_metadata history) |}.

(** [save_relocation_history]: the metadata of the aggregate passed in is
    updated in place before the write is attempted; a failing write raises. *)
Definition save_relocation_history (now : timestamp) (history : RelocationHistory)
    (st : storage RelocationRecord)
    : RelocationHistory * storage RelocationRecord * result unit :=
  let history' :=
    {| relocations := relocations history;
       history_metadata :=
         <["last_updated"%string := MTime now]>
           (<["total_relocations"%string := MInt (Z.of_nat (size (relocations history)))]>
              (history_metadata history)) |} in
  if writable st
  then (history', {| file := FileDocument (history_document history');
                     writable := writable st |}, Ok ())
  else (history', st, Raise OSError).

(** The two places where the loader installs and saves a fresh aggregate. *)
Definition install_fresh_history (now : timestamp) (w : World)
    : World * result RelocationHistory :=
  let '(h, st, r) := save_relocation_history now new_RelocationHistory (history_storage w) in
  ({| relocation_history_state := Some h;
      next_relocation_id := next_relocation_id w;
      history_storage := st |},
   _ ← r; Ok h).

(** The body of the [try] block of [load_relocation_history]. *)
Definition try_load_history (w : World) (d : document RelocationRecord)
    : World * result RelocationHistory :=
  match convert_entries (doc_entries d) with
  | Raise e => (w, Raise e)
  | Ok relocations_dict =>
      let next :=
        match max_key relocations_dict with
        | Some m => m + 1
        | None => next_relocation_id w
        end in
      let w1 := {| relocation_history_state := relocation_history_state w;
                   next_relocation_id := next;
                   history_storage := history_storage w |} in
      let build (md : gmap string meta_value) :=
        let h := {| relocations := relocations_dict; history_metadata := md |} in
        ({| relocation_history_state := Some h;
            next_relocation_id := next;
            history_storage := history_storage w |}, Ok h) in
      match doc_metadata d with
      | MetaInvalid => (w1, Raise LoadError)
      | MetaDict md => build md
      | MetaAbsent =>
          build (<["total_relocations"%string := MInt (Z.of_nat (size relocations_dict))]>
                   (<["last_updated"%string := MNone]>
                      (<["version"%string := MStr "1.0"]> ∅)))
      end
  end.

Definition load_relocation_history (now : timestamp) (w : World)
    : World * result RelocationHistory :=
  match file (history_storage w) with
  | FileMissing => install_fresh_history now w
  | FileUnreadable => install_fresh_history now w
  | FileDocument d =>
      match try_load_history w d with
      | (w1, Ok h) => (w1, Ok h)
      | (w1, Raise _) => install_fresh_history now w1
      end
  end.

(** ** Product archive store *)

Record ArchiveWorld := {
  product_archive_state : option ProductArchive;
  archive_storage : storage ArchivedItem
}.

Definition default_archive_metadata : gmap string meta_value :=
  <["total_items"%string := MInt 0]>
    (<["last_updated"%string := MNone]>
      (<["version"%string := MStr "1.0"]> ∅)).

(** [ProductArchive()] *)
Definition new_ProductArchive : ProductArchive :=
  {| archive_items := ∅; archive_metadata := default_archive_metadata |}.

Definition archive_document (archive : ProductArchive) : document ArchivedItem :=
  {| doc_entries := dump_entries (archive_items archive);
     doc_metadata := MetaDict (archive_metadata archive) |}.

Definition save_product_archive (now : timestamp) (archive : ProductArchive)
    (st : storage ArchivedItem)
    : ProductArchive * storage ArchivedItem * result unit :=
  let archive' :=
    {| archive_items := archive_items archive;
       archive_metadata :=
         <["last_updated"%string := MTime now]>
           (<["total_items"%string := MInt (Z.of_nat (size (archive_items archive)))]>
              (archive_metadata archive)) |} in
  if writable st
  then (archive', {| file := FileDocument (archive_document archive');
                     writable := writable st |}, Ok ())
  else (archive', st, Raise OSError).

Definition install_fresh_archive (now : timestamp) (w : ArchiveWorld)
    : ArchiveWorld * result ProductArchive :=
  let '(a, st, r) := save_product_archive now new_ProductArchive (archive_storage w) in
  ({| product_archive_state := Some a; archive_storage := st |},
   _ ← r; Ok a).

(** The body of the [try] block of [load_product_archive]. *)
Definition try_load_archive (w : ArchiveWorld) (d : document ArchivedItem)
    : ArchiveWorld * result ProductArchive :=
  match convert_entries (doc_entries d) with
  | Raise e => (w, Raise e)
  | Ok items_dict =>
      let build (md : gmap string meta_value) :=
        let a := {| archive_items := items_dict; archive_metadata := md |} in
        ({| product_archive_state := Some a; archive_storage := archive_storage w |}, Ok a) in
      match doc_metadata d with
      | MetaInvalid => (w, Raise LoadError)
      | MetaDict md => build md
      | MetaAbsent =>
          build (<["total_items"%string := MInt (Z.of_nat (size items_dict))]>
                   (<["last_updated"%string := MNone]>
                      (<["version"%string := MStr "1.0"]> ∅)))
      end
  end.

Definition load_product_archive (now : timestamp) (w : ArchiveWorld)
    : ArchiveWorld * result ProductArchive :=
  match file (archive_storage w) with
  | FileMissing => install_fresh_archive now w
  | FileUnreadable => install_fresh_archive now w
  | FileDocument d =>
      match try_load_archive w d with
      | (w1, Ok a) => (w1, Ok a)
      | (w1, Raise _) => install_fresh_archive now w1
      end
  end.

(** ** RelocationExecutor *)

(** The dictionary returned by a successful [relocate_item]. *)
Record RelocationResult := {
  res_item_id : Z;
  res_original_vsu_id : Z;
  res_original_vsu_code : string;
  res_new_vsu_id : Z;
  res_new_vsu_code : string;
  res_new_coordinates : Position;
  res_stock_index : Z;
  res_relocated_at : timestamp;
  res_reason : string
}.

(** Everything a call leaves behind: the two dictionaries it mutates in
    place, the module globals with the history file, and what the caller
    gets (a result or an exception).  Mutations made before an exception
    are kept: the source has no rollback. *)
Record Outcome := {
  out_items : gmap Z Item;
  out_virtual_units : gmap Z VSU;
  out_world : World;
  out_result : result RelocationResult
}.

(** [l.remove(x)]: drops the first occurrence. *)
Fixpoint list_remove (x : Z) (l : list Z) : list Z :=
  match l with
  | [] => []
  | y :: l' => if bool_decide (y = x) then l' else y :: list_remove x l'
  end.

Definition set_vsu_items (vsu : VSU) (l : option (list Z)) : VSU :=
  {| vsu_code := vsu_code vsu;
     vsu_shelf_id := vsu_shelf_id vsu;
     vsu_dimensions := vsu_dimensions vsu;
     vsu_position := vsu_position vsu;
     vsu_items := l;
     vsu_occupied := vsu_occupied vsu |}.

Definition set_vsu_occupied (vsu : VSU) (b : bool) : VSU :=
  {| vsu_code := vsu_code vsu;
     vsu_shelf_id := vsu_shelf_id vsu;
     vsu_dimensions := vsu_dimensions vsu;
     vsu_position := vsu_position vsu;
     vsu_items := vsu_items vsu;
     vsu_occupied := b |}.

(** The lazy load at the top of [relocate_item]. *)
Definition ensure_history_loaded (now : timestamp) (w : World)
    : World * result RelocationHistory :=
  match relocation_history_state w with
  | Some history => (w, Ok history)
  | None => load_relocation_history now w
  end.

Definition relocate_item (now : timestamp) (item_id : Z)
    (items : gmap Z Item) (virtual_units : gmap Z VSU) (shelves : list (Z * Shelf))
    (reason : string) (w : World) : Outcome :=
  let '(w1, loaded) := ensure_history_loaded now w in
  let raise (e : exception) :=
    {| out_items := items; out_virtual_units := virtual_units;
       out_world := w1; out_result := Raise e |} in
  match loaded with
  | Raise e => raise e
  | Ok history =>
  match items !! item_id with
  | None => raise (HTTPException 404)
  | Some item =>
  match vsu_id item with
  | None => raise (HTTPException 400)
  | Some original_vsu_id =>
  match virtual_units !! original_vsu_id with
  | None => raise KeyError
  | Some original_vsu =>
  let shelf_id := vsu_shelf_id original_vsu in
  match find_empty_vsu_for_relocate item shelf_id items virtual_units shelves with
  | None => raise (HTTPException 503)
  | Some (new_vsu_id, new_vsu_code, new_vsu) =>
      (* Remove item from original VSU; [item_id in None] raises *)
      match vsu_items original_vsu with
      | None => raise TypeError
      | Some original_items =>
      let original_items1 :=
        if bool_decide (item_id ∈ original_items)
        then list_remove item_id original_items
        else original_items in
      let original_vsu1 := set_vsu_items original_vsu (Some original_items1) in
      let original_vsu2 :=
        if is_empty_list original_items1
        then set_vsu_occupied original_vsu1 false
        else original_vsu1 in
      let virtual_units1 := <[original_vsu_id := original_vsu2]> virtual_units in
      (* [new_vsu] is the object stored under [new_vsu_id]; when that is the
         origin's key it is the object just mutated *)
      let new_vsu0 :=
        if bool_decide (new_vsu_id = original_vsu_id) then original_vsu2 else new_vsu in
      (* Add item to new VSU: a null or empty list is replaced by a new list *)
      let new_items0 :=
        match vsu_items new_vsu0 with
        | Some (x :: l) => x :: l
        | _ => []
        end in
      let new_items := new_items0 ++ [item_id] in
      let new_vsu2 := set_vsu_items new_vsu0 (Some new_items) in
      let new_vsu3 := set_vsu_occupied new_vsu2 true in
      let virtual_units2 := <[new_vsu_id := new_vsu3]> virtual_units1 in
      let stock_index' := Z.of_nat (length new_items) - 1 in
      (* Update item's VSU reference *)
      let item' := {| metadata := metadata item;
                      vsu_id := Some new_vsu_id;
                      stock_index := stock_index' |} in
      let items' := <[item_id := item']> items in
      (* Add to relocation history *)
      let relocation_record :=
        {| r_item_id := item_id;
           r_product_id := product_id (metadata item);
           r_barcode := barcode (metadata item);
           r_original_vsu_id := original_vsu_id;
           r_original_vsu_code := vsu_code original_vsu;
           r_new_vsu_id := new_vsu_id;
           r_new_vsu_code := new_vsu_code;
           r_original_coordinates := vsu_position original_vsu;
           r_new_coordinates := vsu_position new_vsu;
           r_relocated_at := now;
           r_reason := reason |} in
      let history1 :=
        {| relocations := <[next_relocation_id w1 := relocation_record]> (relocations history);
           history_metadata := history_metadata history |} in
      let '(history2, st, saved) :=
        save_relocation_history now history1 (history_storage w1) in
      {| out_items := items';
         out_virtual_units := virtual_units2;
         out_world := {| relocation_history_state := Some history2;
                         next_relocation_id := next_relocation_id w1 + 1;
                         history_storage := st |};
         out_result :=
           _ ← saved;
           Ok {| res_item_id := item_id;
                 res_original_vsu_id := original_vsu_id;
                 res_original_vsu_code := vsu_code original_vsu;
                 res_new_vsu_id := new_vsu_id;
                 res_new_vsu_code := new_vsu_code;
                 res_new_coordinates := vsu_position new_vsu;
                 res_stock_index := stock_index';
                 res_relocated_at := now;
                 res_reason := reason |} |}
  end end end end end end.

(** ** Auxiliary definitions used by the statements *)

(** The occupants of a slot as a list, a null list standing for no
    occupant. *)
Definition occupants (vsu : VSU) : list Z := default [] (vsu_items vsu).

(** The first candidate of minimum score, in scan order. *)
Fixpoint first_min (l : list candidate) : option candidate :=
  match l with
  | [] => None
  | c :: l' =>
      match first_min l' with
      | None => Some c
      | Some d => if cand_score c <=? cand_score d then Some c else Some d
      end
  end.

(** One step of the conversion loop on an entry that is valid. *)
Definition insert_entry {R} (d : gmap Z R) (kv : Z * R) : gmap Z R :=
  <[kv.1 := kv.2]> d.

(** The id the loader computes from the stored records in a fresh process. *)
Definition next_id_after_load {R} (m : gmap Z R) : Z :=
  match max_key m with
  | Some k => k + 1
  | None => 1
  end.

(** ** Sample data *)

Definition dims (w h d : Z) : Dimensions :=
  {| width := w; height := h; depth := d; volume := None |}.

Definition origin_pos : Position := {| pos_x := 0; pos_y := 0; pos_z := 0 |}.

Definition mk_item (w h d : Z) (home : option Z) : Item :=
  {| metadata := {| product_id := 7; barcode := "X1"; dimensions := dims w h d |};
     vsu_id := home;
     stock_index := 0 |}.

Definition mk_vsu (code : string) (shelf : Z) (w h d : Z) (occupants : list Z)
    (occ : bool) : VSU :=
  {| vsu_code := code; vsu_shelf_id := shelf; vsu_dimensions := dims w h d;
     vsu_position := origin_pos; vsu_items := Some occupants; vsu_occupied := occ |}.

(** A 100 x 50 x 30 box, a roomy slot (120 x 60 x 40) and a snug slot
    (100 x 50 x 30), both empty. *)
Definition box_item : Item := mk_item 100 50 30 (Some 3).
Definition roomy_slot : VSU := mk_vsu "A-01-07" 1 120 60 40 [] false.
Definition snug_slot : VSU := mk_vsu "A-02-01" 2 100 50 30 [] false.

(** The box's home is VSU 3 on shelf 1 (rack 1); the roomy slot is VSU 7
    on the same shelf, the snug slot VSU 8 on shelf 2 of the same rack. *)
Definition rank_items : gmap Z Item := <[1 := box_item]> ∅.

Definition rank_virtual_units : gmap Z VSU :=
  <[3 := mk_vsu "A-01-03" 1 100 50 30 [1] true]>
    (<[7 := roomy_slot]> (<[8 := snug_slot]> ∅)).

Definition rank_shelves : list (Z * Shelf) :=
  [(1, {| shelf_name := "A-01"; shelf_rack_id := Some 1; shelf_virtual_units := [3; 7] |});
   (2, {| shelf_name := "A-02"; shelf_rack_id := Some 1; shelf_virtual_units := [8] |})].

(** Two identical empty slots on the box's shelf, listed as 9 then 7. *)
Definition tie_virtual_units : gmap Z VSU :=
  <[3 := mk_vsu "A-01-03" 1 100 50 30 [1] true]>
    (<[7 := roomy_slot]> (<[9 := roomy_slot]> ∅)).

Definition tie_shelves : list (Z * Shelf) :=
  [(1, {| shelf_name := "A-01"; shelf_rack_id := Some 1; shelf_virtual_units := [3; 9; 7] |})].

(** The inventory of the walkthrough: item 42 (10 x 10 x 10) sits in VSU 3
    on shelf 1 (rack 1); VSU 7 on the same shelf is empty and wastes 1000;
    VSU 21 on shelf 5 (rack 2) is empty and wastes 100. *)
Definition sample_items : gmap Z Item :=
  <[42 := mk_item 10 10 10 (Some 3)]> ∅.

Definition sample_virtual_units : gmap Z VSU :=
  <[3 := mk_vsu "A-01-03" 1 10 10 10 [42] true]>
    (<[7 := mk_vsu "A-01-07" 1 10 10 20 [] false]>
      (<[21 := mk_vsu "B-02-01" 5 10 10 11 [] false]> ∅)).

Definition sample_shelves : list (Z * Shelf) :=
  [(1, {| shelf_name := "A-01"; shelf_rack_id := Some 1; shelf_virtual_units := [3; 7] |});
   (5, {| shelf_name := "B-02"; shelf_rack_id := Some 2; shelf_virtual_units := [21] |})].

Definition sample_world : World :=
  module_init {| file := FileMissing; writable := true |}.

Definition sample_outcome : Outcome :=
  relocate_item 5 42 sample_items sample_virtual_units sample_shelves
    "obstruction_removal" sample_world.

(** Item 1 names VSU 99 as its home, in a warehouse without any slot; the
    history aggregate is already in memory. *)
Definition orphan_items : gmap Z Item :=
  <[1 := mk_item 1 1 1 (Some 99)]> ∅.

Definition loaded_world : World :=
  {| relocation_history_state := Some new_RelocationHistory;
     next_relocation_id := 1;
     history_storage := {| file := FileMissing; writable := true |} |}.

Definition orphan_outcome : Outcome :=
  relocate_item 5 1 orphan_items ∅ [] "obstruction_removal" loaded_world.

(** Item 1 exists but has no home VSU, in a warehouse without any slot. *)
Definition unplaced_items : gmap Z Item :=
  <[1 := mk_item 1 1 1 None]> ∅.

Definition unplaced_outcome : Outcome :=
  relocate_item 5 1 unplaced_items ∅ [] "obstruction_removal" loaded_world.

(** The data model's invariant on a slot: the [occupied] flag is true
    exactly when the occupant list is non-empty. *)
Definition occupied_consistent (vsu : VSU) : Prop :=
  vsu_occupied vsu = has_items (vsu_items vsu).

(** Item 42 shares VSU 3 with item 43, and the slot's [occupied] flag is
    stale: it is false although the slot holds two items. *)
Definition stale_virtual_units : gmap Z VSU :=
  <[3 := mk_vsu "A-01-03" 1 10 10 10 [42; 43] false]>
    (<[7 := mk_vsu "A-01-07" 1 10 10 20 [] false]> ∅).

Definition stale_outcome : Outcome :=
  relocate_item 5 42 sample_items stale_virtual_units sample_shelves
    "obstruction_removal" sample_world.

(** A backing file that exists but does not load: [json.load] raises, or
    an entry has a key that is not an integer or a value that is not a valid
    record, or the metadata is not accepted by the aggregate. *)
Definition corrupt {R} (f : file_content R) : Prop :=
  match f with
  | FileMissing => False
  | FileUnreadable => True
  | FileDocument d =>
      (∃ e, e ∈ doc_entries d ∧ (e.1 = None ∨ e.2 = None)) ∨
      doc_metadata d = MetaInvalid
  end.

(** A history file with a record that does not validate, on a writable
    disk, and an archive file that is not JSON. *)
Definition broken_history_world : World :=
  module_init
    {| file := FileDocument {| doc_entries := [(Some 1, None)];
                               doc_metadata := MetaAbsent |};
       writable := true |}.

Definition broken_archive_world : ArchiveWorld :=
  {| product_archive_state := None;
     archive_storage := {| file := FileUnreadable; writable := true |} |}.

(** The same two files on a disk that refuses writes. *)
Definition locked_history_world : World :=
  module_init
    {| file := FileDocument {| doc_entries := [(Some 1, None)];
                               doc_metadata := MetaAbsent |};
       writable := false |}.

Definition locked_archive_world : ArchiveWorld :=
  {| product_archive_state := None;
     archive_storage := {| file := FileUnreadable; writable := false |} |}.

(** The orphan item relocated by a fresh process whose history file is
    missing and cannot be created, and by one whose history file is
    corrupt. *)
Definition orphan_locked_outcome : Outcome :=
  relocate_item 5 1 orphan_items ∅ [] "obstruction_removal"
    (module_init {| file := FileMissing; writable := false |}).

Definition orphan_broken_outcome : Outcome :=
  relocate_item 5 1 orphan_items ∅ [] "obstruction_removal" broken_history_world.

(** A history holding records 1 and 2, saved to an empty disk at time 1,
    then a relocation of item 42 attempted by a fresh process at time 5. *)
Definition sample_record : RelocationRecord :=
  {| r_item_id := 42; r_product_id := 7; r_barcode := "X1";
     r_original_vsu_id := 21; r_original_vsu_code := "B-02-01";
     r_new_vsu_id := 3; r_new_vsu_code := "A-01-03";
     r_original_coordinates := origin_pos; r_new_coordinates := origin_pos;
     r_relocated_at := 0; r_reason := "obstruction_removal" |}.

Definition two_record_history : RelocationHistory :=
  {| relocations := <[1 := sample_record]> (<[2 := sample_record]> ∅);
     history_metadata := default_history_metadata |}.

Definition empty_disk : storage RelocationRecord :=
  {| file := FileMissing; writable := true |}.

Definition saved_history : RelocationHistory :=
  (save_relocation_history 1 two_record_history empty_disk).1.1.

Definition saved_disk : storage RelocationRecord :=
  (save_relocation_history 1 two_record_history empty_disk).1.2.

Definition reload_outcome : Outcome :=
  relocate_item 5 42 sample_items sample_virtual_units sample_shelves
    "obstruction_removal" (module_init saved_disk).

(** ** Invariants of the inventory and of the id counter *)

(** Two slot values that differ at most in occupant list and flag. *)
Definition same_slot (a b : VSU) : Prop :=
  vsu_code a = vsu_code b ∧
  vsu_shelf_id a = vsu_shelf_id b ∧
  vsu_dimensions a = vsu_dimensions b ∧
  vsu_position a = vsu_position b.

(** Every item with a home is listed by that home; no slot lists an id
    twice; and every listed id is an item whose home is that slot. *)
Definition placement_wf (items : gmap Z Item) (virtual_units : gmap Z VSU) : Prop :=
  (∀ i item v, items !! i = Some item → vsu_id item = Some v →
     ∃ vsu l, virtual_units !! v = Some vsu ∧ vsu_items vsu = Some l ∧ i ∈ l) ∧
  (∀ v vsu l, virtual_units !! v = Some vsu → vsu_items vsu = Some l → NoDup l) ∧
  (∀ i v vsu l, virtual_units !! v = Some vsu → vsu_items vsu = Some l → i ∈ l →
     ∃ item, items !! i = Some item ∧ vsu_id item = Some v).

(** Every id in the aggregate held in memory is below the counter. *)
Definition ids_below_next (w : World) : Prop :=
  ∀ history k, relocation_history_state w = Some history →
    is_Some (relocations history !! k) → k < next_relocation_id w.

(** The history is in memory but the disk refuses writes. *)
Definition readonly_world : World :=
  {| relocation_history_state := Some new_RelocationHistory;
     next_relocation_id := 1;
     history_storage := {| file := FileMissing; writable := false |} |}.

Definition readonly_outcome : Outcome :=
  relocate_item 5 42 sample_items sample_virtual_units sample_shelves
    "obstruction_removal" readonly_world.

(** Items 41, 42 and 43 share VSU 3, in that order; VSU 7 is empty. *)
Definition crowded_items : gmap Z Item :=
  <[41 := {| metadata := metadata (mk_item 10 10 10 None);
             vsu_id := Some 3; stock_index := 0 |}]>
    (<[42 := {| metadata := metadata (mk_item 10 10 10 None);
                vsu_id := Some 3; stock_index := 1 |}]>
      (<[43 := {| metadata := metadata (mk_item 10 10 10 None);
                  vsu_id := Some 3; stock_index := 2 |}]> ∅)).

Definition crowded_virtual_units : gmap Z VSU :=
  <[3 := mk_vsu "A-01-03" 1 30 10 10 [41; 42; 43] true]>
    (<[7 := mk_vsu "A-01-07" 1 10 10 20 [] false]> ∅).

Definition crowded_outcome : Outcome :=
  relocate_item 5 42 crowded_items crowded_virtual_units sample_shelves
    "obstruction_removal" sample_world.

(** ** Read-only views of the history *)

(** The dictionary returned by [get_relocation_stats];
    [metadata.get("last_updated")] is [None] when the key is missing. *)
Record RelocationStats := {
  stats_total_relocations : Z;
  stats_last_updated : meta_value
}.

Definition get_relocation_stats (now : timestamp) (w : World)
    : World * result RelocationStats :=
  let '(w1, loaded) := ensure_history_loaded now w in
  (w1,
   history ← loaded;
   Ok {| stats_total_relocations := Z.of_nat (size (relocations history));
         stats_last_updated :=
           default MNone (history_metadata history !! "last_updated"%string) |}).

(** [sorted(records, key=lambda x: x["relocated_at"], reverse=True)]: a
    stable sort on the time stamp, latest first.  ISO-8601 strings of one
    format compare as the instants do. *)
Fixpoint insert_by_time_desc (x : Z * RelocationRecord) (l : list (Z * RelocationRecord))
    : list (Z * RelocationRecord) :=
  match l with
  | [] => [x]
  | y :: l' =>
      if r_relocated_at y.2 <=? r_relocated_at x.2 then x :: y :: l'
      else y :: insert_by_time_desc x l'
  end.

Fixpoint sort_by_time_desc (l : list (Z * RelocationRecord))
    : list (Z * RelocationRecord) :=
  match l with
  | [] => []
  | x :: l' => insert_by_time_desc x (sort_by_time_desc l')
  end.

(** [get_relocation_history]: each returned dictionary is the record with
    its [relocation_id], here a pair.  The [relocations] dictionary is a
    [gmap], so records are visited in an order fixed by their keys, not in insertion
    order;
    this can only change the order among records of equal time stamp. *)
Definition get_relocation_history (now : timestamp) (w : World)
    : World * result (list (Z * RelocationRecord)) :=
  let '(w1, loaded) := ensure_history_loaded now w in
  (w1,
   history ← loaded;
   Ok (sort_by_time_desc (map_to_list (relocations history)))).

(** ** Archiving a dispensed item *)

(** The item as [archive_dispensed_item] reads it: the inventory item plus
    the attributes that only the archive looks at.  [d_weight] is [None]
    when the dimensions have no [weight] attribute. *)
Inductive expiration :=
| ExpirationStr (s : string)
| ExpirationTime (t : timestamp).

Record DispensedItem := {
  d_item : Item;
  d_batch : string;
  d_expiration : expiration;
  d_weight : option Z
}.

(** The slot as [archive_dispensed_item] reads it: with its [id] attribute. *)
Record StoredVSU := {
  sv_id : Z;
  sv_vsu : VSU
}.

(** The lazy load at the top of the archive's functions. *)
Definition ensure_archive_loaded (now : timestamp) (w : ArchiveWorld)
    : ArchiveWorld * result ProductArchive :=
  match product_archive_state w with
  | Some archive => (w, Ok archive)
  | None => load_product_archive now w
  end.

(** [isoformat] stands for [datetime.isoformat]. *)
Definition archive_dispensed_item (isoformat : timestamp → string) (now : timestamp)
    (item_id : Z) (item : DispensedItem) (vsu : StoredVSU)
    (shelf_id : Z) (shelf_name : string) (task_id : string) (w : ArchiveWorld)
    : ArchiveWorld * result unit :=
  let '(w1, loaded) := ensure_archive_loaded now w in
  match loaded with
  | Raise e => (w1, Raise e)
  | Ok archive =>
      let expiration_str :=
        match d_expiration item with
        | ExpirationStr s => s
        | ExpirationTime t => isoformat t
        end in
      let archived_item :=
        {| a_item_id := item_id;
           a_product_id := product_id (metadata (d_item item));
           a_barcode := barcode (metadata (d_item item));
           a_batch := d_batch item;
           a_expiration := expiration_str;
           a_dimensions :=
             {| width := width (dimensions (metadata (d_item item)));
                height := height (dimensions (metadata (d_item item)));
                depth := depth (dimensions (metadata (d_item item)));
                volume := None |};
           a_weight := default 0 (d_weight item);
           a_vsu_id := sv_id vsu;
           a_vsu_code := vsu_code (sv_vsu vsu);
           a_shelf_id := shelf_id;
           a_shelf_name := shelf_name;
           a_coordinates := vsu_position (sv_vsu vsu);
           a_stock_index := stock_index (d_item item);
           a_dispensed_at := now;
           a_task_id := task_id |} in
      let archive1 :=
        {| archive_items := <[item_id := archived_item]> (archive_items archive);
           archive_metadata := archive_metadata archive |} in
      let '(archive2, st, saved) :=
        save_product_archive now archive1 (archive_storage w1) in
      ({| product_archive_state := Some archive2; archive_storage := st |}, saved)
  end.

(** An entry of [product_counts]. *)
Record ProductCount := {
  pc_product_id : Z;
  pc_barcode : string;
  pc_count : Z
}.

(** The body of the grouping loop of [get_archive_stats]. *)
Definition count_product (product_counts : gmap Z ProductCount) (item : ArchivedItem)
    : gmap Z ProductCount :=
  let product_id := a_product_id item in
  let product_counts1 :=
    match product_counts !! product_id with
    | None =>
        <[product_id := {| pc_product_id := product_id;
                           pc_barcode := a_barcode item;
                           pc_count := 0 |}]> product_counts
    | Some _ => product_counts
    end in
  alter (fun c => {| pc_product_id := pc_product_id c;
                     pc_barcode := pc_barcode c;
                     pc_count := pc_count c + 1 |})
        product_id product_counts1.

Record ArchiveStats := {
  as_total_items : Z;
  as_total_products : Z;
  as_products : list ProductCount;
  as_last_updated : meta_value
}.

(** [get_archive_stats].  The archive's [items] dictionary is a [gmap], so
    the loop visits the items in an order fixed by their keys, not in
    insertion order;
    this can only change which barcode stands for a product whose items
    carry different barcodes, and the order of [products]. *)
Definition get_archive_stats (now : timestamp) (w : ArchiveWorld)
    : ArchiveWorld * result ArchiveStats :=
  let '(w1, loaded) := ensure_archive_loaded now w in
  (w1,
   archive ← loaded;
   let product_counts :=
     foldl count_product ∅ (map_to_list (archive_items archive)).*2 in
   Ok {| as_total_items := Z.of_nat (size (archive_items archive));
         as_total_products := Z.of_nat (size product_counts);
         as_products := (map_to_list product_counts).*2;
         as_last_updated :=
           default MNone (archive_metadata archive !! "last_updated"%string) |}).





(** A history file with two entries whose keys both convert to 1. *)
Definition later_record : RelocationRecord :=
  {| r_item_id := 42; r_product_id := 7; r_barcode := "X1";
     r_original_vsu_id := 3; r_original_vsu_code := "A-01-03";
     r_new_vsu_id := 7; r_new_vsu_code := "A-01-07";
     r_original_coordinates := origin_pos; r_new_coordinates := origin_pos;
     r_relocated_at := 4; r_reason := "obstruction_removal" |}.

Definition duplicate_key_document : document RelocationRecord :=
  {| doc_entries := [(Some 1, Some sample_record); (Some 1, Some later_record)];
     doc_metadata := MetaAbsent |}.

Definition duplicate_key_world : World :=
  module_init {| file := FileDocument duplicate_key_document; writable := true |}.


(** A history in memory with a record stamped 0 under id 1 and a record
    stamped 4 under id 2. *)
Definition listing_history : RelocationHistory :=
  {| relocations := <[1 := sample_record]> (<[2 := later_record]> ∅);
     history_metadata := default_history_metadata |}.

Definition listing_world : World :=
  {| relocation_history_state := Some listing_history;
     next_relocation_id := 3;
     history_storage := {| file := FileMissing; writable := true |} |}.

(** A dispensed box and the slot it was taken from. *)
Definition dispensed_box : DispensedItem :=
  {| d_item := mk_item 10 10 10 (Some 3);
     d_batch := "B-77";
     d_expiration := ExpirationStr "2027-01-31";
     d_weight := None |}.

(** The same box with its expiration held as a [datetime]. *)
Definition dated_box : DispensedItem :=
  {| d_item := mk_item 10 10 10 (Some 3);
     d_batch := "B-77";
     d_expiration := ExpirationTime 100;
     d_weight := Some 250 |}.

Definition box_slot : StoredVSU :=
  {| sv_id := 3; sv_vsu := mk_vsu "A-01-03" 1 10 10 10 [42] true |}.

Definition fresh_archive_world : ArchiveWorld :=
  {| product_archive_state := None;
     archive_storage := {| file := FileMissing; writable := true |} |}.

Definition iso_stub (t : timestamp) : string := "2027-01-31T00:00:00".

(** The archive after item 42, then item 43 of the same product, were
    dispensed. *)
Definition archive_after_one : ArchiveWorld :=
  (archive_dispensed_item iso_stub 5 42 dispensed_box box_slot 1 "A-01" "task-1"
     fresh_archive_world).1.

Definition archive_after_two : ArchiveWorld :=
  (archive_dispensed_item iso_stub 6 43 dispensed_box box_slot 1 "A-01" "task-2"
     archive_after_one).1.


(** A shelf without a rack holding the roomy slot; shelf 1 is unknown. *)
Definition rackless_shelves : list (Z * Shelf) :=
  [(5, {| shelf_name := "Z-01"; shelf_rack_id := None; shelf_virtual_units := [7] |})].

Definition rackless_virtual_units : gmap Z VSU := <[7 := roomy_slot]> ∅.

(** Item 42 names VSU 3 as its home, but VSU 3 lists only item 41. *)
Definition unlisted_virtual_units : gmap Z VSU :=
  <[3 := mk_vsu "A-01-03" 1 10 10 10 [41] true]>
    (<[7 := mk_vsu "A-01-07" 1 10 10 20 [] false]> ∅).

Definition unlisted_outcome : Outcome :=
  relocate_item 5 42 sample_items unlisted_virtual_units sample_shelves
    "obstruction_removal" sample_world.

(** Item 42 names VSU 3 as its home, and VSU 3 has a null occupant list;
    VSU 7 on the same shelf is empty. *)
Definition null_list_virtual_units : gmap Z VSU :=
  <[3 := {| vsu_code := "A-01-03"; vsu_shelf_id := 1; vsu_dimensions := dims 10 10 10;
            vsu_position := origin_pos; vsu_items := None; vsu_occupied := true |}]>
    (<[7 := mk_vsu "A-01-07" 1 10 10 20 [] false]> ∅).

Definition null_list_outcome : Outcome :=
  relocate_item 5 42 sample_items null_list_virtual_units sample_shelves
    "obstruction_removal" loaded_world.

(** Item 42 sits in VSU 3; the only other slot, VSU 7, has a null occupant
    list. *)
Definition null_destination_virtual_units : gmap Z VSU :=
  <[3 := mk_vsu "A-01-03" 1 10 10 10 [42] true]>
    (<[7 := {| vsu_code := "A-01-07"; vsu_shelf_id := 1; vsu_dimensions := dims 10 10 20;
               vsu_position := origin_pos; vsu_items := None; vsu_occupied := false |}]> ∅).

(** An archive saved to an empty disk. *)
Definition archive_disk : storage ArchivedItem :=
  {| file := FileMissing; writable := true |}.

Definition saved_archive : ProductArchive :=
  (save_product_archive 1 new_ProductArchive archive_disk).1.1.

Definition saved_archive_disk : storage ArchivedItem :=
  (save_product_archive 1 new_ProductArchive archive_disk).1.2.

(** * Verified properties *)

(** ** Fit predicate and score *)

(** C5: the fit predicate holds exactly when the item's width, height and
    depth are each at most the slot's corresponding dimension (no rotation
    is tried), and the fit score is the slot's volume (its [volume]
    attribute when it has one, else width * height * depth) minus the
    item's volume, plus -1000 on the item's current shelf, -500 when only
    on its current rack, and 0 otherwise. *)
Theorem fit_predicate_and_score (item : Item) (vsu : VSU)
    (is_same_shelf is_same_rack : bool) :
  (_item_fits_vsu item vsu = true ↔
     width (dimensions (metadata item)) ≤ width (vsu_dimensions vsu) ∧
     height (dimensions (metadata item)) ≤ height (vsu_dimensions vsu) ∧
     depth (dimensions (metadata item)) ≤ depth (vsu_dimensions vsu)) ∧
  _calculate_vsu_fit_score item vsu is_same_shelf is_same_rack =
    match volume (vsu_dimensions vsu) with
    | Some v => v
    | None => width (vsu_dimensions vsu) * height (vsu_dimensions vsu)
              * depth (vsu_dimensions vsu)
    end
    - width (dimensions (metadata item)) * height (dimensions (metadata item))
      * depth (dimensions (metadata item))
    + (if is_same_shelf then -1000 else if is_same_rack then -500 else 0).
Proof.
  split.
  - unfold _item_fits_vsu. rewrite !andb_true_iff, !Z.leb_le. tauto.
  - reflexivity.
Qed.

(** The comparison is axis by axis: a 2 x 1 x 1 item is rejected by a
    1 x 2 x 1 slot that would hold it turned. *)
Example no_rotation :
  _item_fits_vsu (mk_item 2 1 1 None) (mk_vsu "A-01-01" 1 1 2 1 [] false) = false.
Proof. reflexivity. Qed.

(** ** Locality tiers against wasted space *)

(** C2: the code does not keep the locality tiers apart.  The box fits both
    empty slots; on the roomy slot of its own shelf it scores 137000
    (wasted space 138000, bonus -1000), on the snug slot of another shelf of
    its rack it scores -500, so the same-shelf slot does not score lower and
    the search returns the same-rack slot. *)
Theorem same_shelf_loses_to_same_rack :
  _item_fits_vsu box_item roomy_slot = true ∧
  _item_fits_vsu box_item snug_slot = true ∧
  _calculate_vsu_fit_score box_item roomy_slot true true = 137000 ∧
  _calculate_vsu_fit_score box_item snug_slot false true = -500 ∧
  ¬ (_calculate_vsu_fit_score box_item roomy_slot true true
       < _calculate_vsu_fit_score box_item snug_slot false true) ∧
  find_empty_vsu_for_relocate box_item 1 rank_items rank_virtual_units rank_shelves
    = Some (8, "A-02-01"%string, snug_slot).
Proof.
  vm_compute. repeat split; try reflexivity. intros H; discriminate H.
Qed.

(** The margin within which the locality bonus decides.  A same-shelf
    candidate scores strictly lower than a candidate that is only on the
    same rack exactly when its wasted space exceeds the other's by less than
    500, and strictly lower than a candidate elsewhere exactly when by less
    than 1000; a same-rack candidate scores strictly lower than one
    elsewhere exactly when its wasted space exceeds the other's by less than
    500.  Within one locality tier the scores are ordered as the wasted
    space is. *)
Lemma locality_bonus_margin (item : Item) (a b : VSU) (rack_a s r : bool) :
  (_calculate_vsu_fit_score item a true rack_a < _calculate_vsu_fit_score item b false true
     ↔ wasted_space item a - wasted_space item b < 500) ∧
  (_calculate_vsu_fit_score item a true rack_a < _calculate_vsu_fit_score item b false false
     ↔ wasted_space item a - wasted_space item b < 1000) ∧
  (_calculate_vsu_fit_score item a false true < _calculate_vsu_fit_score item b false false
     ↔ wasted_space item a - wasted_space item b < 500) ∧
  (_calculate_vsu_fit_score item a s r < _calculate_vsu_fit_score item b s r
     ↔ wasted_space item a < wasted_space item b) ∧
  (_calculate_vsu_fit_score item a s r ≤ _calculate_vsu_fit_score item b s r
     ↔ wasted_space item a ≤ wasted_space item b).
Proof.
  unfold _calculate_vsu_fit_score, location_bonus.
  destruct rack_a, s, r; repeat split; lia.
Qed.

(** ** Candidate search *)

Lemma is_empty_list_true {A} (l : list A) : is_empty_list l = true ↔ l = [].
Proof. destruct l; simpl; split; congruence. Qed.

Lemma insert_by_score_head (c : candidate) (l : list candidate) :
  head (insert_by_score c l) =
    match head l with
    | None => Some c
    | Some d => if cand_score c <=? cand_score d then Some c else Some d
    end.
Proof. destruct l as [|d l']; simpl; [done|]. by destruct (_ <=? _). Qed.

Lemma sort_by_score_head (l : list candidate) :
  head (sort_by_score l) = first_min l.
Proof.
  induction l as [|c l IH]; simpl; [done|].
  by rewrite insert_by_score_head, IH.
Qed.

Lemma first_min_None (l : list candidate) : first_min l = None ↔ l = [].
Proof.
  destruct l as [|c l]; simpl; [done|].
  split; [|done]. destruct (first_min l); [destruct (_ <=? _)|]; done.
Qed.

(** [first_min] returns an element of minimum score, and no earlier element
    has as low a score. *)
Lemma first_min_spec (l : list candidate) (b : candidate) :
  first_min l = Some b →
  ∃ i : nat, l !! i = Some b ∧
    (∀ (j : nat) c, l !! j = Some c → cand_score b ≤ cand_score c) ∧
    (∀ (j : nat) c, (j < i)%nat → l !! j = Some c → cand_score b < cand_score c).
Proof.
  revert b. induction l as [|c l IH]; intros b; simpl; [done|].
  destruct (first_min l) as [d|] eqn:Hd.
  - destruct (IH d eq_refl) as (i & Hi & Hmin & Hbefore).
    destruct (Z.leb_spec (cand_score c) (cand_score d)); intros [= <-].
    + exists 0%nat. split; [done|]. split; [|lia].
      intros [|j] c'; simpl; [intros [= <-]; lia|].
      intros Hj. specialize (Hmin j c' Hj). lia.
    + exists (S i). split; [done|]. split.
      * intros [|j] c'; simpl; [intros [= <-]; lia|]. apply Hmin.
      * intros [|j] c' Hlt; simpl; [intros [= <-]; lia|].
        apply Hbefore. lia.
  - apply first_min_None in Hd as ->. intros [= <-].
    exists 0%nat. split; [done|]. split; [|lia].
    intros [|j] c'; simpl; [intros [= <-]; lia|done].
Qed.

Lemma has_items_false (items : option (list Z)) :
  has_items items = false ↔ items = None ∨ items = Some [].
Proof.
  destruct items as [[|x l]|]; simpl; split; try done; try (by right); try (by left).
  intros [?|?]; done.
Qed.

Lemma elem_of_scan_vsu item virtual_units ss sr vsu_id (c : candidate) :
  c ∈ scan_vsu item virtual_units ss sr vsu_id ↔
    cand_vsu_id c = vsu_id ∧
    virtual_units !! vsu_id = Some (cand_vsu c) ∧
    has_items (vsu_items (cand_vsu c)) = false ∧
    _item_fits_vsu item (cand_vsu c) = true ∧
    cand_code c = vsu_code (cand_vsu c) ∧
    cand_score c = _calculate_vsu_fit_score item (cand_vsu c) ss sr.
Proof.
  unfold scan_vsu.
  destruct (virtual_units !! vsu_id) as [vsu|] eqn:Hv.
  - destruct (has_items (vsu_items vsu)) eqn:He; simpl.
    + split; [by intros ?%elem_of_nil|].
      intros (_ & [= <-] & Hempty & _). congruence.
    + destruct (_item_fits_vsu item vsu) eqn:Hf; simpl.
      * rewrite list_elem_of_singleton. split.
        -- intros ->. by repeat split.
        -- destruct c as [[[sc i] cd] v]. unfold cand_vsu_id, cand_vsu, cand_code,
             cand_score. simpl. intros (-> & [= ->] & _ & _ & -> & ->). done.
      * split; [by intros ?%elem_of_nil|].
        intros (_ & [= <-] & _ & Hfit & _). congruence.
  - split; [by intros ?%elem_of_nil|]. intros (_ & ? & _). done.
Qed.

Lemma elem_of_collect_candidates item shelf_id virtual_units shelves (c : candidate) :
  c ∈ collect_candidates item shelf_id virtual_units shelves ↔
    ∃ sid shelf,
      (sid, shelf) ∈ shelves ∧
      cand_vsu_id c ∈ shelf_virtual_units shelf ∧
      virtual_units !! cand_vsu_id c = Some (cand_vsu c) ∧
      has_items (vsu_items (cand_vsu c)) = false ∧
      _item_fits_vsu item (cand_vsu c) = true ∧
      cand_code c = vsu_code (cand_vsu c) ∧
      cand_score c =
        _calculate_vsu_fit_score item (cand_vsu c)
          (bool_decide (sid = shelf_id))
          (bool_decide (shelf_rack_id shelf = current_rack shelves shelf_id)).
Proof.
  unfold collect_candidates. rewrite !list_elem_of_In, in_flat_map. split.
  - intros ([sid shelf] & Hin & Hc). exists sid, shelf.
    unfold scan_shelf in Hc. apply in_flat_map in Hc as (v & Hv & Hc).
    apply list_elem_of_In, elem_of_scan_vsu in Hc as (Hid & ?).
    rewrite <- !list_elem_of_In in *. simpl in *. subst v. done.
  - intros (sid & shelf & Hin & Hv & H). exists (sid, shelf).
    rewrite <- list_elem_of_In. split; [done|].
    unfold scan_shelf. apply in_flat_map. exists (cand_vsu_id c).
    rewrite <- !list_elem_of_In. split; [done|].
    apply elem_of_scan_vsu. done.
Qed.

Lemma find_empty_vsu_for_relocate_first_min item shelf_id items virtual_units shelves :
  find_empty_vsu_for_relocate item shelf_id items virtual_units shelves =
    (fun c => (cand_vsu_id c, cand_code c, cand_vsu c)) <$>
      first_min (collect_candidates item shelf_id virtual_units shelves).
Proof.
  unfold find_empty_vsu_for_relocate. rewrite <- sort_by_score_head.
  destruct (collect_candidates _ _ _ _) as [|c l] eqn:Hc; simpl; [done|].
  destruct (insert_by_score c (sort_by_score l)) eqn:Hs; simpl; [|done].
  destruct (sort_by_score l) as [|d ?]; simpl in Hs; [done|].
  destruct (_ <=? _); done.
Qed.

Lemma find_empty_vsu_for_relocate_None item shelf_id items virtual_units shelves :
  find_empty_vsu_for_relocate item shelf_id items virtual_units shelves = None ↔
  collect_candidates item shelf_id virtual_units shelves = [].
Proof.
  rewrite find_empty_vsu_for_relocate_first_min, fmap_None. apply first_min_None.
Qed.

Lemma find_empty_vsu_for_relocate_Some item shelf_id items virtual_units shelves
    new_vsu_id new_vsu_code new_vsu :
  find_empty_vsu_for_relocate item shelf_id items virtual_units shelves
    = Some (new_vsu_id, new_vsu_code, new_vsu) →
  virtual_units !! new_vsu_id = Some new_vsu ∧
  has_items (vsu_items new_vsu) = false ∧
  _item_fits_vsu item new_vsu = true ∧
  new_vsu_code = vsu_code new_vsu.
Proof.
  rewrite find_empty_vsu_for_relocate_first_min.
  intros Hf. apply fmap_Some in Hf as (b & Hb & Heq).
  destruct (first_min_spec _ _ Hb) as (i & Hi & _).
  assert (Hin : b ∈ collect_candidates item shelf_id virtual_units shelves)
    by (apply list_elem_of_lookup; eauto).
  apply elem_of_collect_candidates in Hin as (_ & _ & _ & _ & Hl & He & Hfit & Hcode & _).
  destruct b as [[[sc id] cd] v].
  unfold cand_vsu_id, cand_code, cand_vsu in *. simpl in *.
  injection Heq as <- <- <-. done.
Qed.

(** [shelves.get(shelf_id)] finds the first entry stored under [shelf_id]
    (a dictionary has one), and nothing when no entry has that key. *)
Lemma shelves_get_first (shelves pre post : list (Z * Shelf)) (shelf_id : Z)
    (current_shelf : Shelf) :
  shelves = pre ++ (shelf_id, current_shelf) :: post →
  shelf_id ∉ pre.*1 →
  shelves_get shelves shelf_id = Some current_shelf.
Proof.
  intros ->. induction pre as [|[sid shelf] pre IH]; simpl.
  - intros _. by rewrite bool_decide_eq_true_2.
  - intros Hnotin. apply not_elem_of_cons in Hnotin as [Hne Hnotin].
    rewrite bool_decide_eq_false_2 by done. by apply IH.
Qed.

Lemma shelves_get_unknown (shelves : list (Z * Shelf)) (shelf_id : Z) :
  shelf_id ∉ shelves.*1 → shelves_get shelves shelf_id = None.
Proof.
  induction shelves as [|[sid shelf] shelves IH]; simpl; [done|].
  intros Hnotin. apply not_elem_of_cons in Hnotin as [Hne Hnotin].
  rewrite bool_decide_eq_false_2 by done. by apply IH.
Qed.

(** The candidates are collected in scan order. *)
Lemma collect_candidates_scan_order item shelf_id virtual_units shelves :
  sublist (cand_vsu_id <$> collect_candidates item shelf_id virtual_units shelves)
          (flat_map (fun entry => shelf_virtual_units entry.2) shelves).
Proof.
  unfold collect_candidates. generalize (current_rack shelves shelf_id) as rack.
  intros rack. induction shelves as [|[sid shelf] shelves IH]; simpl; [constructor|].
  rewrite fmap_app. apply sublist_app; [|exact IH].
  unfold scan_shelf. simpl.
  generalize (bool_decide (sid = shelf_id)) as ss.
  generalize (bool_decide (shelf_rack_id shelf = rack)) as sr. intros sr ss.
  induction (shelf_virtual_units shelf) as [|v l IHl]; simpl; [constructor|].
  rewrite fmap_app. change (v :: l) with ([v] ++ l). apply sublist_app; [|exact IHl].
  unfold scan_vsu. destruct (virtual_units !! v) as [vsu|]; [|by constructor].
  destruct (has_items _); simpl; [by constructor|].
  destruct (_item_fits_vsu _ _); simpl; by repeat constructor.
Qed.

(** Equal scores: the slot scanned first is returned, here VSU 9, which the
    shelf lists before VSU 7. *)
Example tie_goes_to_first_scanned :
  find_empty_vsu_for_relocate box_item 1 rank_items tie_virtual_units tie_shelves
    = Some (9, "A-01-07"%string, roomy_slot).
Proof. vm_compute. reflexivity. Qed.

(** The rack of the origin shelf is read off the shelf stored under
    [shelf_id]: with the box's shelf 1 on rack 1, the snug slot on shelf 2 of
    rack 1 is preferred (score -500) to an equally snug slot on shelf 6 of
    rack 2 that is scanned first (score 0). *)
Example same_rack_is_preferred :
  find_empty_vsu_for_relocate box_item 1 rank_items
    (<[9 := mk_vsu "B-06-01" 6 100 50 30 [] false]> rank_virtual_units)
    ((6, {| shelf_name := "B-06"; shelf_rack_id := Some 2; shelf_virtual_units := [9] |})
       :: rank_shelves)
    = Some (8, "A-02-01"%string, snug_slot).
Proof. vm_compute. reflexivity. Qed.

(** C4: the search scans every VSU id listed by every shelf, keeps exactly
    those that are present, have no occupant (an empty or a null occupant
    list) and fit the item, and scores each with the locality of its shelf:
    same shelf when the shelf's key is [shelf_id], same rack when the shelf's
    rack id equals that of the shelf stored under [shelf_id] (null when
    there is no such shelf).  The candidates are kept in scan order (shelf
    after shelf, each shelf's ids in the order it lists them).  The search
    returns the first candidate of minimum score in that order, returns
    nothing exactly when no candidate passes the filters, and what it
    returns is a slot already stored in [virtual_units] (the search is a
    read-only function of the inventory: nothing is created or written). *)
Theorem find_empty_vsu_for_relocate_spec (item : Item) (shelf_id : Z)
    (items : gmap Z Item) (virtual_units : gmap Z VSU) (shelves : list (Z * Shelf)) :
  let candidates := collect_candidates item shelf_id virtual_units shelves in
  let found := find_empty_vsu_for_relocate item shelf_id items virtual_units shelves in
  ∃ current_rack_id : option Z,
    (∀ pre current_shelf post,
       shelves = pre ++ (shelf_id, current_shelf) :: post →
       shelf_id ∉ pre.*1 →
       current_rack_id = shelf_rack_id current_shelf) ∧
    (shelf_id ∉ shelves.*1 → current_rack_id = None) ∧
    (∀ c : candidate, c ∈ candidates ↔
       ∃ sid shelf,
         (sid, shelf) ∈ shelves ∧
         cand_vsu_id c ∈ shelf_virtual_units shelf ∧
         virtual_units !! cand_vsu_id c = Some (cand_vsu c) ∧
         (vsu_items (cand_vsu c) = None ∨ vsu_items (cand_vsu c) = Some []) ∧
         _item_fits_vsu item (cand_vsu c) = true ∧
         cand_code c = vsu_code (cand_vsu c) ∧
         cand_score c =
           _calculate_vsu_fit_score item (cand_vsu c)
             (bool_decide (sid = shelf_id))
             (bool_decide (shelf_rack_id shelf = current_rack_id))) ∧
    sublist (cand_vsu_id <$> candidates)
            (flat_map (fun entry => shelf_virtual_units entry.2) shelves) ∧
    (found = None ↔ candidates = []) ∧
    (∀ new_vsu_id new_vsu_code new_vsu,
       found = Some (new_vsu_id, new_vsu_code, new_vsu) →
       virtual_units !! new_vsu_id = Some new_vsu ∧
       ∃ (i : nat) (score : Z),
         candidates !! i = Some (score, new_vsu_id, new_vsu_code, new_vsu) ∧
         (∀ (j : nat) c, candidates !! j = Some c → score ≤ cand_score c) ∧
         (∀ (j : nat) c, (j < i)%nat → candidates !! j = Some c → score < cand_score c)).
Proof.
  intros candidates found. exists (current_rack shelves shelf_id).
  split_and!.
  - intros pre current_shelf post Hshelves Hfirst. unfold current_rack.
    by rewrite (shelves_get_first _ _ _ _ _ Hshelves Hfirst).
  - intros Hunknown. unfold current_rack. by rewrite shelves_get_unknown.
  - intros c. unfold candidates. rewrite elem_of_collect_candidates.
    by setoid_rewrite has_items_false.
  - apply collect_candidates_scan_order.
  - apply find_empty_vsu_for_relocate_None.
  - intros new_vsu_id new_vsu_code new_vsu. unfold found.
    rewrite find_empty_vsu_for_relocate_first_min. fold candidates.
    intros Hf. apply fmap_Some in Hf as (b & Hb & Heq).
    destruct (first_min_spec _ _ Hb) as (i & Hi & Hmin & Hbefore).
    destruct b as [[[sc id] cd] v].
    unfold cand_vsu_id, cand_code, cand_vsu in Heq. simpl in Heq.
    injection Heq as -> -> ->.
    split.
    + assert (Hin : (sc, id, cd, v) ∈ candidates)
        by (apply list_elem_of_lookup; eauto).
      apply elem_of_collect_candidates in Hin as (_ & _ & _ & _ & Hl & _). exact Hl.
    + exists i, sc. done.
Qed.

(** ** Relocation *)

Lemma list_remove_length (x : Z) (l : list Z) :
  x ∈ l → S (length (list_remove x l)) = length l.
Proof.
  induction l as [|y l IH]; simpl; [by intros ?%elem_of_nil|].
  intros Hin. case_bool_decide; [done|]. simpl. f_equal. apply IH.
  apply elem_of_cons in Hin as [->|]; done.
Qed.

(** C1, as stated, fails on the origin's flag: item 42 shares VSU 3 with
    item 43 and the slot's flag is false on entry; the relocation succeeds
    and leaves the flag false over the occupant list [43], which is not
    empty. *)
Lemma origin_flag_false_with_occupant :
  is_Ok (out_result stale_outcome) ∧
  sample_items !! 42 = Some (mk_item 10 10 10 (Some 3)) ∧
  stale_virtual_units !! 3 = Some (mk_vsu "A-01-03" 1 10 10 10 [42; 43] false) ∧
  42 ∈ [42; 43] ∧
  ∃ origin',
    out_virtual_units stale_outcome !! 3 = Some origin' ∧
    vsu_items origin' = Some [43] ∧
    vsu_occupied origin' = false ∧
    vsu_items origin' ≠ Some [].
Proof.
  split; [vm_compute; exact I|].
  split; [vm_compute; reflexivity|].
  split; [vm_compute; reflexivity|].
  split; [constructor|].
  eexists. split; [vm_compute; reflexivity|]. simpl. by split_and!.
Qed.

(** C1, amended: a successful relocation of an item that exists, has a home
    VSU and is recorded in that VSU's occupant list takes the item id out of
    the origin's list, whose length drops by one; clears the origin's
    [occupied] flag when that list became empty and leaves the flag as it was
    otherwise, so that the flag is false exactly when the list became empty
    provided it was consistent with the list on entry; appends the id to the
    destination's list, whose length grows by one, and sets the
    destination's flag; and gives the item the destination's id and the
    index of the last position of the destination's list. *)
Theorem relocate_item_moves_item (now : timestamp) (item_id : Z)
    (items : gmap Z Item) (virtual_units : gmap Z VSU) (shelves : list (Z * Shelf))
    (reason : string) (w : World) (out : Outcome)
    (item : Item) (original_vsu_id : Z) (original_vsu : VSU) (original_items : list Z)
    (Hout : relocate_item now item_id items virtual_units shelves reason w = out)
    (Hok : is_Ok (out_result out))
    (Hitem : items !! item_id = Some item)
    (Hhome : vsu_id item = Some original_vsu_id)
    (Horigin : virtual_units !! original_vsu_id = Some original_vsu)
    (Hlist : vsu_items original_vsu = Some original_items)
    (Hin : item_id ∈ original_items) :
  ∃ (new_vsu_id : Z) (new_vsu origin' destination' : VSU) (item' : Item),
    new_vsu_id ≠ original_vsu_id ∧
    virtual_units !! new_vsu_id = Some new_vsu ∧
    out_virtual_units out !! original_vsu_id = Some origin' ∧
    out_virtual_units out !! new_vsu_id = Some destination' ∧
    out_items out !! item_id = Some item' ∧
    (* origin *)
    vsu_items origin' = Some (list_remove item_id original_items) ∧
    (length (occupants origin') + 1 = length original_items)%nat ∧
    vsu_occupied origin' =
      (if is_empty_list (occupants origin') then false else vsu_occupied original_vsu) ∧
    (occupied_consistent original_vsu →
     (vsu_occupied origin' = false ↔ vsu_items origin' = Some [])) ∧
    (* destination *)
    vsu_items destination' = Some (occupants new_vsu ++ [item_id]) ∧
    (length (occupants destination') = length (occupants new_vsu) + 1)%nat ∧
    vsu_occupied destination' = true ∧
    (* item *)
    vsu_id item' = Some new_vsu_id ∧
    stock_index item' = Z.of_nat (length (occupants destination')) - 1.
Proof.
  subst out. unfold relocate_item in *.
  destruct (ensure_history_loaded now w) as [w1 [history|e]]; [|done].
  rewrite Hitem, Hhome, Horigin in *.
  destruct (find_empty_vsu_for_relocate _ _ _ _ _) as [[[n code] nv]|] eqn:Hfind; [|done].
  rewrite Hlist in *.
  destruct (save_relocation_history _ _ _) as [[h2 st] saved].
  apply find_empty_vsu_for_relocate_Some in Hfind as (Hnv & Hempty & _ & _).
  assert (Hne : n ≠ original_vsu_id).
  { intros ->. rewrite Horigin in Hnv. injection Hnv as <-.
    rewrite Hlist in Hempty. destruct original_items; [by apply elem_of_nil in Hin|done]. }
  rewrite (bool_decide_eq_true_2 _ Hin), (bool_decide_eq_false_2 _ Hne).
  assert (Hnew : match vsu_items nv with Some (x :: l) => x :: l | _ => [] end = occupants nv).
  { unfold occupants. by destruct (vsu_items nv) as [[|x l]|]. }
  rewrite Hnew. simpl.
  eexists n, nv, _, _, _.
  split; [done|]. split; [done|].
  split; [by rewrite lookup_insert_ne, lookup_insert_eq|].
  split; [by rewrite lookup_insert_eq|].
  split; [by rewrite lookup_insert_eq|].
  assert (Hlen := list_remove_length _ _ Hin).
  unfold occupied_consistent. rewrite Hlist.
  destruct (list_remove item_id original_items) as [|y l'] eqn:Hrm; simpl.
  - unfold occupants; simpl. rewrite length_app. simpl.
    split_and!; try done; simpl in Hlen; lia.
  - unfold occupants; simpl. rewrite length_app. simpl.
    split_and!; try done; try (simpl in Hlen; lia).
    intros Hflag. rewrite Hflag.
    destruct original_items; [by apply elem_of_nil in Hin|]. done.
Qed.

Lemma relocate_item_moves_item_witness :
  ∃ (new_vsu_id : Z) (new_vsu origin' destination' : VSU) (item' : Item),
    new_vsu_id ≠ 3 ∧
    sample_virtual_units !! new_vsu_id = Some new_vsu ∧
    out_virtual_units sample_outcome !! 3 = Some origin' ∧
    out_virtual_units sample_outcome !! new_vsu_id = Some destination' ∧
    out_items sample_outcome !! 42 = Some item' ∧
    vsu_items origin' = Some (list_remove 42 [42]) ∧
    (length (occupants origin') + 1 = length [42])%nat ∧
    (vsu_occupied origin' = false ↔ vsu_items origin' = Some []) ∧
    vsu_items destination' = Some (occupants new_vsu ++ [42]) ∧
    (length (occupants destination') = length (occupants new_vsu) + 1)%nat ∧
    vsu_occupied destination' = true ∧
    vsu_id item' = Some new_vsu_id ∧
    stock_index item' = Z.of_nat (length (occupants destination')) - 1.
Proof.
  assert (Hok : is_Ok (out_result sample_outcome)) by (vm_compute; exact I).
  assert (Hitem : sample_items !! 42 = Some (mk_item 10 10 10 (Some 3)))
    by (vm_compute; reflexivity).
  assert (Horigin : sample_virtual_units !! 3
                      = Some (mk_vsu "A-01-03" 1 10 10 10 [42] true))
    by (vm_compute; reflexivity).
  assert (Hin : 42 ∈ [42]) by constructor.
  destruct (relocate_item_moves_item 5 42 sample_items sample_virtual_units
              sample_shelves "obstruction_removal" sample_world sample_outcome
              (mk_item 10 10 10 (Some 3)) 3 (mk_vsu "A-01-03" 1 10 10 10 [42] true) [42]
              eq_refl Hok Hitem eq_refl Horigin eq_refl Hin)
    as (n & nv & o' & d' & i' & H1 & H2 & H3 & H4 & H5 & H6 & H7 & _ & H8 & H9).
  exists n, nv, o', d', i'.
  repeat (split; [assumption|]).
  split; [apply H8; reflexivity | exact H9].
Defined.

(** The walkthrough: item 42 moves from VSU 3 to the empty slot of its own
    shelf, VSU 7 (score 1000 - 1000 = 0 against 100 elsewhere), at index 0,
    and the first record of the fresh history gets id 1. *)
Example walkthrough :
  (res_new_vsu_id <$> (match out_result sample_outcome with
                       | Ok res => Some res | Raise _ => None end)) = Some 7 ∧
  (res_stock_index <$> (match out_result sample_outcome with
                        | Ok res => Some res | Raise _ => None end)) = Some 0 ∧
  (vsu_items <$> out_virtual_units sample_outcome !! 3) = Some (Some []) ∧
  (vsu_occupied <$> out_virtual_units sample_outcome !! 3) = Some false ∧
  (vsu_items <$> out_virtual_units sample_outcome !! 7) = Some (Some [42]) ∧
  (vsu_id <$> out_items sample_outcome !! 42) = Some (Some 7) ∧
  next_relocation_id (out_world sample_outcome) = 2.
Proof. vm_compute. repeat split; reflexivity. Qed.

(** C9: since only slots with an empty occupant list are candidates, after
    a successful relocation the destination's occupant list is exactly the
    relocated item's id, and the stock index stored in the item and
    returned to the caller is 0. *)
Theorem relocate_item_destination_singleton (now : timestamp) (item_id : Z)
    (items : gmap Z Item) (virtual_units : gmap Z VSU) (shelves : list (Z * Shelf))
    (reason : string) (w : World) (out : Outcome) (res : RelocationResult)
    (Hout : relocate_item now item_id items virtual_units shelves reason w = out)
    (Hok : out_result out = Ok res) :
  ∃ (destination' : VSU) (item' : Item),
    out_virtual_units out !! res_new_vsu_id res = Some destination' ∧
    vsu_items destination' = Some [item_id] ∧
    out_items out !! item_id = Some item' ∧
    vsu_id item' = Some (res_new_vsu_id res) ∧
    stock_index item' = 0 ∧
    res_stock_index res = 0.
Proof.
  subst out. unfold relocate_item in *.
  destruct (ensure_history_loaded now w) as [w1 [history|e]]; [|done].
  destruct (items !! item_id) as [item|]; [|done].
  destruct (vsu_id item) as [o|]; [|done].
  destruct (virtual_units !! o) as [ov|] eqn:Horigin; [|done].
  destruct (find_empty_vsu_for_relocate _ _ _ _ _) as [[[n code] nv]|] eqn:Hfind; [|done].
  destruct (vsu_items ov) as [original_items|] eqn:Hlist; [|done].
  destruct (save_relocation_history _ _ _) as [[h2 st] [[]|e]]; [|done].
  apply find_empty_vsu_for_relocate_Some in Hfind as (Hnv & Hempty & _ & _).
  simpl in Hok. injection Hok as <-. simpl.
  rewrite !lookup_insert_eq.
  case_bool_decide as Hno.
  - subst n. rewrite Horigin in Hnv. injection Hnv as ->.
    rewrite Hlist in Hempty. destruct original_items as [|x l]; [|done].
    rewrite bool_decide_eq_false_2 by apply not_elem_of_nil.
    simpl. eexists _, _. done.
  - apply has_items_false in Hempty as [Hempty|Hempty]; rewrite Hempty;
      simpl; eexists _, _; done.
Qed.

Lemma relocate_item_destination_singleton_witness :
  ∃ (res : RelocationResult) (destination' : VSU) (item' : Item),
    out_result sample_outcome = Ok res ∧
    out_virtual_units sample_outcome !! res_new_vsu_id res = Some destination' ∧
    vsu_items destination' = Some [42] ∧
    out_items sample_outcome !! 42 = Some item' ∧
    vsu_id item' = Some (res_new_vsu_id res) ∧
    stock_index item' = 0 ∧
    res_stock_index res = 0.
Proof.
  assert (Hres : ∃ res, out_result sample_outcome = Ok res)
    by (vm_compute; eexists; reflexivity).
  destruct Hres as [res Hok]. exists res.
  destruct (relocate_item_destination_singleton 5 42 sample_items sample_virtual_units
              sample_shelves "obstruction_removal" sample_world sample_outcome _
              eq_refl Hok) as (d & i & H).
  exists d, i. split; [exact Hok | exact H].
Defined.

(** ** Failure modes of relocation *)

Lemma ensure_history_loaded_already (now : timestamp) (w : World) :
  is_Some (relocation_history_state w) →
  ∃ history, ensure_history_loaded now w = (w, Ok history).
Proof. intros [h Hh]. unfold ensure_history_loaded. rewrite Hh. eauto. Qed.

(** Splits a conjunction of characterisations of the raised exception and
    settles each direction by comparing constructors. *)
Ltac failure_cases :=
  simpl;
  repeat match goal with
         | |- _ ∧ _ => split
         | |- _ ↔ _ => split
         end;
  intros;
  repeat match goal with
         | H : ∃ _, _ |- _ => destruct H
         | H : _ ∧ _ |- _ => destruct H
         end;
  simplify_eq; eauto 10.

(** C3, as stated, fails: item 1 exists with a null [vsu_id] and the
    warehouse has no slot at all, so no fitting empty slot exists anywhere;
    the call ends in the 400-class error, not in the 503-class one. *)
Lemma no_slot_without_503 :
  unplaced_items !! 1 = Some (mk_item 1 1 1 None) ∧
  (∀ vsu_id : Z, (∅ : gmap Z VSU) !! vsu_id = None) ∧
  (∀ shelf_id, collect_candidates (mk_item 1 1 1 None) shelf_id ∅ [] = []) ∧
  out_result unplaced_outcome = Raise (HTTPException 400) ∧
  out_result unplaced_outcome ≠ Raise (HTTPException 503).
Proof.
  split; [reflexivity|]. split; [intros; apply lookup_empty|].
  split; [reflexivity|].
  split; [vm_compute; reflexivity|]. vm_compute. intros H; discriminate H.
Qed.

(** C3, amended: the three checks run in sequence.  Provided the item's home
    VSU id, when it has one, is a key of [virtual_units], and once the
    history aggregate is in memory (it already was, or the lazy load at the
    top of the call succeeded), [relocate_item] fails with the 404-class
    error exactly when the item id is absent from the inventory; with the
    400-class error exactly when the item exists but its [vsu_id] is null;
    and with the 503-class error exactly when the item exists, has a home
    VSU, and no slot listed by any shelf is present, empty and fitting.  In
    each of the three cases the inventory is left as it was and the history
    is left as the lazy load left it, which is untouched when it was already
    in memory. *)
Theorem relocate_item_failures (now : timestamp) (item_id : Z)
    (items : gmap Z Item) (virtual_units : gmap Z VSU) (shelves : list (Z * Shelf))
    (reason : string) (w w1 : World) (history : RelocationHistory) (out : Outcome)
    (Hload : ensure_history_loaded now w = (w1, Ok history))
    (Hout : relocate_item now item_id items virtual_units shelves reason w = out)
    (Hhome : ∀ item original_vsu_id,
               items !! item_id = Some item →
               vsu_id item = Some original_vsu_id →
               is_Some (virtual_units !! original_vsu_id)) :
  (out_result out = Raise (HTTPException 404) ↔ items !! item_id = None) ∧
  (out_result out = Raise (HTTPException 400) ↔
     ∃ item, items !! item_id = Some item ∧ vsu_id item = None) ∧
  (out_result out = Raise (HTTPException 503) ↔
     ∃ item original_vsu_id original_vsu,
       items !! item_id = Some item ∧
       vsu_id item = Some original_vsu_id ∧
       virtual_units !! original_vsu_id = Some original_vsu ∧
       collect_candidates item (vsu_shelf_id original_vsu) virtual_units shelves = []) ∧
  (∀ status_code, out_result out = Raise (HTTPException status_code) →
     out_items out = items ∧
     out_virtual_units out = virtual_units ∧
     out_world out = w1) ∧
  (is_Some (relocation_history_state w) → w1 = w).
Proof.
  subst out. unfold relocate_item. rewrite Hload.
  assert (Hw : is_Some (relocation_history_state w) → w1 = w).
  { intros Hs. destruct (ensure_history_loaded_already now w Hs) as [h Hh].
    congruence. }
  destruct (items !! item_id) as [item|] eqn:Hitem; [|failure_cases].
  destruct (vsu_id item) as [o|] eqn:Hvsu; [|failure_cases].
  destruct (Hhome item o eq_refl Hvsu) as [ov Horigin]. rewrite Horigin.
  pose proof (find_empty_vsu_for_relocate_None item (vsu_shelf_id ov) items
                virtual_units shelves) as Hnone.
  destruct (find_empty_vsu_for_relocate _ _ _ _ _) as [[[n code] nv]|] eqn:Hfind.
  - assert (Hcands : collect_candidates item (vsu_shelf_id ov) virtual_units shelves ≠ [])
      by (intros Hc; apply Hnone in Hc; done).
    destruct (vsu_items ov) as [original_items|]; [|failure_cases].
    unfold save_relocation_history. destruct (writable _); failure_cases.
  - assert (Hcands : collect_candidates item (vsu_shelf_id ov) virtual_units shelves = [])
      by (by apply Hnone).
    failure_cases.
Qed.

Lemma relocate_item_failures_witness :
  (out_result unplaced_outcome = Raise (HTTPException 404) ↔ unplaced_items !! 1 = None) ∧
  (out_result unplaced_outcome = Raise (HTTPException 400) ↔
     ∃ item, unplaced_items !! 1 = Some item ∧ vsu_id item = None) ∧
  (out_result unplaced_outcome = Raise (HTTPException 503) ↔
     ∃ item original_vsu_id original_vsu,
       unplaced_items !! 1 = Some item ∧
       vsu_id item = Some original_vsu_id ∧
       (∅ : gmap Z VSU) !! original_vsu_id = Some original_vsu ∧
       collect_candidates item (vsu_shelf_id original_vsu) ∅ [] = []) ∧
  (∀ status_code, out_result unplaced_outcome = Raise (HTTPException status_code) →
     out_items unplaced_outcome = unplaced_items ∧
     out_virtual_units unplaced_outcome = ∅ ∧
     out_world unplaced_outcome = loaded_world) ∧
  (is_Some (relocation_history_state loaded_world) → loaded_world = loaded_world).
Proof.
  apply (relocate_item_failures 5 1 unplaced_items ∅ [] "obstruction_removal"
           loaded_world loaded_world new_RelocationHistory unplaced_outcome).
  - reflexivity.
  - reflexivity.
  - intros item o Hitem Hvsu.
    assert (Hreal : unplaced_items !! 1 = Some (mk_item 1 1 1 None)) by reflexivity.
    rewrite Hreal in Hitem. injection Hitem as <-. discriminate Hvsu.
Defined.

(** C10, as stated, fails while the history is not in memory: the lazy load
    runs before the lookup.  In a fresh process whose history file is missing
    and cannot be created the call raises the write error, not [KeyError];
    and in a fresh process whose history file is corrupt the call raises
    [KeyError] after having overwritten that file. *)
Lemma unknown_home_behind_lazy_load :
  orphan_items !! 1 = Some (mk_item 1 1 1 (Some 99)) ∧
  (∅ : gmap Z VSU) !! 99 = None ∧
  out_result orphan_locked_outcome = Raise OSError ∧
  out_result orphan_broken_outcome = Raise KeyError ∧
  file (history_storage broken_history_world)
    = FileDocument {| doc_entries := [(Some 1, None)]; doc_metadata := MetaAbsent |} ∧
  ∃ history,
    relocation_history_state (out_world orphan_broken_outcome) = Some history ∧
    file (history_storage (out_world orphan_broken_outcome))
      = FileDocument (history_document history) ∧
    doc_entries (history_document history) = [].
Proof.
  split; [reflexivity|]. split; [reflexivity|].
  split; [vm_compute; reflexivity|]. split; [vm_compute; reflexivity|].
  split; [reflexivity|].
  eexists. split; [vm_compute; reflexivity|]. split; vm_compute; reflexivity.
Qed.

(** C10, amended: once the history aggregate is in memory (it already was,
    or the lazy load at the top of the call succeeded), when the item exists
    and its [vsu_id] is non-null but is not a key of [virtual_units], the
    subscript [virtual_units[original_vsu_id]] raises [KeyError], which is
    none of the HTTP error classes; the search has not run, the inventory is
    as it was, and the history is as the lazy load left it, which is
    untouched when it was already in memory. *)
Theorem relocate_item_unknown_home (now : timestamp) (item_id : Z)
    (items : gmap Z Item) (virtual_units : gmap Z VSU) (shelves : list (Z * Shelf))
    (reason : string) (w w1 : World) (history : RelocationHistory) (out : Outcome)
    (item : Item) (original_vsu_id : Z)
    (Hload : ensure_history_loaded now w = (w1, Ok history))
    (Hout : relocate_item now item_id items virtual_units shelves reason w = out)
    (Hitem : items !! item_id = Some item)
    (Hhome : vsu_id item = Some original_vsu_id)
    (Hmissing : virtual_units !! original_vsu_id = None) :
  out_result out = Raise KeyError ∧
  (∀ status_code, out_result out ≠ Raise (HTTPException status_code)) ∧
  out_items out = items ∧
  out_virtual_units out = virtual_units ∧
  out_world out = w1 ∧
  (is_Some (relocation_history_state w) → w1 = w).
Proof.
  subst out. unfold relocate_item. rewrite Hload, Hitem, Hhome, Hmissing. simpl.
  repeat split; try done.
  intros Hs. destruct (ensure_history_loaded_already now w Hs) as [h Hh]. congruence.
Qed.

Lemma relocate_item_unknown_home_witness :
  out_result orphan_outcome = Raise KeyError ∧
  (∀ status_code, out_result orphan_outcome ≠ Raise (HTTPException status_code)) ∧
  out_items orphan_outcome = orphan_items ∧
  out_virtual_units orphan_outcome = ∅ ∧
  out_world orphan_outcome = loaded_world ∧
  (is_Some (relocation_history_state loaded_world) → loaded_world = loaded_world).
Proof.
  apply (relocate_item_unknown_home 5 1 orphan_items ∅ [] "obstruction_removal"
           loaded_world loaded_world new_RelocationHistory orphan_outcome
           (mk_item 1 1 1 (Some 99)) 99).
  - reflexivity.
  - reflexivity.
  - reflexivity.
  - reflexivity.
  - reflexivity.
Defined.

(** ** Persistence of the two aggregates *)

Lemma dump_entries_length {R} (m : gmap Z R) :
  length (dump_entries m) = size m.
Proof. unfold dump_entries. by rewrite length_fmap, length_map_to_list. Qed.

(** C8: right after a save that succeeds, the count in the metadata is the
    size of the record mapping, in the aggregate held in memory and in the
    document written to the file: [total_items] for the archive,
    [total_relocations] for the history. *)
Theorem metadata_count_after_save (now : timestamp)
    (archive archive' : ProductArchive) (sta sta' : storage ArchivedItem)
    (history history' : RelocationHistory) (sth sth' : storage RelocationRecord)
    (Harchive : save_product_archive now archive sta = (archive', sta', Ok ()))
    (Hhistory : save_relocation_history now history sth = (history', sth', Ok ())) :
  (archive_metadata archive' !! "total_items"%string
     = Some (MInt (Z.of_nat (size (archive_items archive')))) ∧
   archive_items archive' = archive_items archive ∧
   file sta' = FileDocument (archive_document archive') ∧
   length (doc_entries (archive_document archive')) = size (archive_items archive')) ∧
  (history_metadata history' !! "total_relocations"%string
     = Some (MInt (Z.of_nat (size (relocations history')))) ∧
   relocations history' = relocations history ∧
   file sth' = FileDocument (history_document history') ∧
   length (doc_entries (history_document history')) = size (relocations history')).
Proof.
  unfold save_product_archive in Harchive.
  unfold save_relocation_history in Hhistory.
  destruct (writable sta); [|done]. destruct (writable sth); [|done].
  injection Harchive as <- <-. injection Hhistory as <- <-. simpl.
  rewrite !dump_entries_length.
  rewrite lookup_insert_ne by done. rewrite lookup_insert_eq.
  rewrite lookup_insert_ne by done. rewrite lookup_insert_eq.
  done.
Qed.

Lemma metadata_count_after_save_witness :
  ∃ (archive' : ProductArchive) (history' : RelocationHistory),
    archive_metadata archive' !! "total_items"%string
      = Some (MInt (Z.of_nat (size (archive_items archive')))) ∧
    history_metadata history' !! "total_relocations"%string
      = Some (MInt (Z.of_nat (size (relocations history')))).
Proof.
  pose proof (metadata_count_after_save 5
                new_ProductArchive _ {| file := FileMissing; writable := true |} _
                new_RelocationHistory _ {| file := FileUnreadable; writable := true |} _
                eq_refl eq_refl) as [(Ha & _) (Hh & _)].
  eexists _, _. split; [exact Ha | exact Hh].
Defined.

Lemma convert_entries_Raise {R} (acc : result (gmap Z R)) (l : list (option Z * option R)) e :
  acc = Raise e → foldl convert_entry acc l = Raise e.
Proof.
  intros ->. induction l as [|x l IH]; simpl; [done|]. exact IH.
Qed.

Lemma convert_entries_bad {R} (l : list (option Z * option R)) (acc : result (gmap Z R)) :
  (∃ e, e ∈ l ∧ (e.1 = None ∨ e.2 = None)) →
  ∃ e, foldl convert_entry acc l = Raise e.
Proof.
  revert acc. induction l as [|x l IH]; intros acc (e & Hin & Hbad).
  - by apply elem_of_nil in Hin.
  - simpl. apply elem_of_cons in Hin as [->|Hin].
    + destruct acc as [d|e'].
      * exists LoadError. apply convert_entries_Raise. unfold convert_entry. simpl.
        destruct Hbad as [-> | Hb]; [done|]. rewrite Hb. by destruct (x.1).
      * exists e'. by apply convert_entries_Raise.
    + apply IH. eauto.
Qed.

Lemma try_load_history_corrupt (w : World) (d : document RelocationRecord) :
  corrupt (FileDocument d) →
  ∃ w1 e, try_load_history w d = (w1, Raise e) ∧
          history_storage w1 = history_storage w.
Proof.
  intros [Hbad | Hmeta]; unfold try_load_history.
  - destruct (convert_entries_bad (doc_entries d) (Ok ∅) Hbad) as [e He].
    unfold convert_entries. rewrite He. eauto.
  - destruct (convert_entries (doc_entries d)) as [m|e]; [|eauto].
    rewrite Hmeta. eauto.
Qed.

Lemma try_load_archive_corrupt (w : ArchiveWorld) (d : document ArchivedItem) :
  corrupt (FileDocument d) →
  ∃ w1 e, try_load_archive w d = (w1, Raise e) ∧
          archive_storage w1 = archive_storage w.
Proof.
  intros [Hbad | Hmeta]; unfold try_load_archive.
  - destruct (convert_entries_bad (doc_entries d) (Ok ∅) Hbad) as [e He].
    unfold convert_entries. rewrite He. eauto.
  - destruct (convert_entries (doc_entries d)) as [m|e]; [|eauto].
    rewrite Hmeta. eauto.
Qed.

Lemma install_fresh_history_outcome (now : timestamp) (w0 : World) :
  ∃ w' history,
    install_fresh_history now w0 =
      (w', if writable (history_storage w0) then Ok history else Raise OSError) ∧
    relocation_history_state w' = Some history ∧
    relocations history = ∅ ∧
    (writable (history_storage w0) = true →
     file (history_storage w') = FileDocument (history_document history)).
Proof.
  unfold install_fresh_history, save_relocation_history.
  destruct (writable (history_storage w0)); eexists _, _; simpl; done.
Qed.

Lemma install_fresh_archive_outcome (now : timestamp) (w0 : ArchiveWorld) :
  ∃ w' archive,
    install_fresh_archive now w0 =
      (w', if writable (archive_storage w0) then Ok archive else Raise OSError) ∧
    product_archive_state w' = Some archive ∧
    archive_items archive = ∅ ∧
    (writable (archive_storage w0) = true →
     file (archive_storage w') = FileDocument (archive_document archive)).
Proof.
  unfold install_fresh_archive, save_product_archive.
  destruct (writable (archive_storage w0)); eexists _, _; simpl; done.
Qed.

(** C7, as stated, fails on a disk that refuses writes: both backing files
    exist and do not load, and both loaders raise the write error of the
    save of the fresh aggregate instead of returning that aggregate. *)
Lemma corrupt_file_on_locked_disk :
  corrupt (file (archive_storage locked_archive_world)) ∧
  (load_product_archive 5 locked_archive_world).2 = Raise OSError ∧
  corrupt (file (history_storage locked_history_world)) ∧
  (load_relocation_history 5 locked_history_world).2 = Raise OSError.
Proof.
  split; [exact I|]. split; [vm_compute; reflexivity|].
  split; [|vm_compute; reflexivity].
  left. exists (Some 1, None). split; [constructor | right; reflexivity].
Qed.

(** C7, amended: for the archive and for the history, when the backing file
    exists but does not parse or validate, the loader never raises the parse
    error: it installs a fresh aggregate with no record as the module's
    state and saves it.  When the write succeeds, the loader returns that
    aggregate and the file has been overwritten with it; when the write
    fails, the loader raises the write error instead of returning. *)
Theorem corrupt_file_is_reset (now : timestamp) (aw : ArchiveWorld) (w : World)
    (Hacorrupt : corrupt (file (archive_storage aw)))
    (Hcorrupt : corrupt (file (history_storage w))) :
  (∃ aw' archive,
     (load_product_archive now aw).1 = aw' ∧
     product_archive_state aw' = Some archive ∧
     archive_items archive = ∅ ∧
     (load_product_archive now aw).2 ≠ Raise LoadError ∧
     (writable (archive_storage aw) = true →
      (load_product_archive now aw).2 = Ok archive ∧
      file (archive_storage aw') = FileDocument (archive_document archive) ∧
      doc_entries (archive_document archive) = []) ∧
     (writable (archive_storage aw) = false →
      (load_product_archive now aw).2 = Raise OSError)) ∧
  (∃ w' history,
     (load_relocation_history now w).1 = w' ∧
     relocation_history_state w' = Some history ∧
     relocations history = ∅ ∧
     (load_relocation_history now w).2 ≠ Raise LoadError ∧
     (writable (history_storage w) = true →
      (load_relocation_history now w).2 = Ok history ∧
      file (history_storage w') = FileDocument (history_document history) ∧
      doc_entries (history_document history) = []) ∧
     (writable (history_storage w) = false →
      (load_relocation_history now w).2 = Raise OSError)).
Proof.
  split.
  - assert (∃ w0, load_product_archive now aw = install_fresh_archive now w0 ∧
                  archive_storage w0 = archive_storage aw) as (w0 & -> & Hst).
    { unfold load_product_archive.
      destruct (file (archive_storage aw)) as [| |d] eqn:Hf; [done|by exists aw|].
      destruct (try_load_archive_corrupt aw d Hacorrupt) as (w1 & e & -> & Hst).
      by exists w1. }
    destruct (install_fresh_archive_outcome now w0) as (w' & archive & -> & Hs & He & Hfile).
    rewrite Hst in *. exists w', archive. simpl.
    split_and!; try done.
    + by destruct (writable (archive_storage aw)).
    + intros Hw. rewrite Hw. split_and!; [done|by apply Hfile|].
      unfold archive_document, dump_entries. simpl. by rewrite He, map_to_list_empty.
    + by intros ->.
  - assert (∃ w0, load_relocation_history now w = install_fresh_history now w0 ∧
                  history_storage w0 = history_storage w) as (w0 & -> & Hst).
    { unfold load_relocation_history.
      destruct (file (history_storage w)) as [| |d] eqn:Hf; [done|by exists w|].
      destruct (try_load_history_corrupt w d Hcorrupt) as (w1 & e & -> & Hst).
      by exists w1. }
    destruct (install_fresh_history_outcome now w0) as (w' & history & -> & Hs & He & Hfile).
    rewrite Hst in *. exists w', history. simpl.
    split_and!; try done.
    + by destruct (writable (history_storage w)).
    + intros Hw. rewrite Hw. split_and!; [done|by apply Hfile|].
      unfold history_document, dump_entries. simpl. by rewrite He, map_to_list_empty.
    + by intros ->.
Qed.

Lemma corrupt_file_is_reset_witness :
  (∃ aw' archive,
     load_product_archive 5 broken_archive_world = (aw', Ok archive) ∧
     archive_items archive = ∅ ∧
     product_archive_state aw' = Some archive ∧
     file (archive_storage aw') = FileDocument (archive_document archive) ∧
     doc_entries (archive_document archive) = []) ∧
  (∃ w' history,
     load_relocation_history 5 broken_history_world = (w', Ok history) ∧
     relocations history = ∅ ∧
     relocation_history_state w' = Some history ∧
     file (history_storage w') = FileDocument (history_document history) ∧
     doc_entries (history_document history) = []).
Proof.
  assert (Hc : corrupt (file (history_storage broken_history_world))).
  { left. exists (Some 1, None). split; [constructor | right; reflexivity]. }
  destruct (corrupt_file_is_reset 5 broken_archive_world broken_history_world I Hc)
    as [(aw' & archive & Ha1 & Ha2 & Ha3 & _ & Ha4 & _)
        (w' & history & Hh1 & Hh2 & Hh3 & _ & Hh4 & _)].
  destruct (Ha4 eq_refl) as (Ha5 & Ha6 & Ha7).
  destruct (Hh4 eq_refl) as (Hh5 & Hh6 & Hh7).
  split.
  - exists aw', archive. split_and!; try assumption.
    rewrite <- Ha1, <- Ha5. apply surjective_pairing.
  - exists w', history. split_and!; try assumption.
    rewrite <- Hh1, <- Hh5. apply surjective_pairing.
Defined.

(** The loaders turn every failure of the [try] block into the fresh
    aggregate; what can still reach the caller is the failure of the write. *)
Lemma load_relocation_history_not_LoadError (now : timestamp) (w : World) :
  (load_relocation_history now w).2 ≠ Raise LoadError.
Proof.
  assert (Hfresh : ∀ w0, (install_fresh_history now w0).2 ≠ Raise LoadError).
  { intros w0. unfold install_fresh_history, save_relocation_history.
    destruct (writable _); simpl; done. }
  unfold load_relocation_history.
  destruct (file (history_storage w)) as [| |d]; [apply Hfresh..|].
  destruct (try_load_history w d) as [w1 [h|e]]; [done|apply Hfresh].
Qed.

Lemma load_product_archive_not_LoadError (now : timestamp) (w : ArchiveWorld) :
  (load_product_archive now w).2 ≠ Raise LoadError.
Proof.
  assert (Hfresh : ∀ w0, (install_fresh_archive now w0).2 ≠ Raise LoadError).
  { intros w0. unfold install_fresh_archive, save_product_archive.
    destruct (writable _); simpl; done. }
  unfold load_product_archive.
  destruct (file (archive_storage w)) as [| |d]; [apply Hfresh..|].
  destruct (try_load_archive w d) as [w1 [h|e]]; [done|apply Hfresh].
Qed.

(** ** Record ids across a save and a reload *)

Section round_trip.
Context {R : Type}.

Lemma convert_entries_dump_foldl (l : list (Z * R)) (acc : gmap Z R) :
  foldl convert_entry (Ok acc) ((fun kv => (Some kv.1, Some kv.2)) <$> l)
    = Ok (foldl insert_entry acc l).
Proof.
  revert acc. induction l as [|kv l IH]; intros acc; simpl; [done|].
  apply IH.
Qed.

Lemma foldl_insert_entry_lookup (l : list (Z * R)) (acc : gmap Z R) (k : Z) :
  NoDup l.*1 →
  foldl insert_entry acc l !! k =
    match (list_to_map l : gmap Z R) !! k with
    | Some v => Some v
    | None => acc !! k
    end.
Proof.
  revert acc. induction l as [|[k0 v0] l IH]; intros acc Hnd; simpl.
  - by rewrite lookup_empty.
  - apply NoDup_cons in Hnd as [Hk0 Hnd]. rewrite IH by done.
    unfold insert_entry. simpl.
    destruct (decide (k = k0)) as [->|Hne].
    + rewrite lookup_insert_eq.
      rewrite (not_elem_of_list_to_map_1 l k0 Hk0). by rewrite lookup_insert_eq.
    + rewrite (lookup_insert_ne (list_to_map l)) by done.
      destruct (list_to_map l !! k); [done|]. by rewrite lookup_insert_ne.
Qed.

(** What a save writes reads back as the same mapping. *)
Lemma convert_entries_dump (m : gmap Z R) :
  convert_entries (dump_entries m) = Ok m.
Proof.
  unfold convert_entries, dump_entries. rewrite convert_entries_dump_foldl.
  f_equal. apply map_eq. intros k.
  rewrite foldl_insert_entry_lookup by apply NoDup_fst_map_to_list.
  rewrite list_to_map_to_list, lookup_empty. by destruct (m !! k).
Qed.

Lemma foldr_max_ge (k : Z) (ks : list Z) :
  k ≤ foldr Z.max k ks ∧ ∀ j, j ∈ ks → j ≤ foldr Z.max k ks.
Proof.
  induction ks as [|x ks [IH1 IH2]]; simpl.
  - split; [lia|]. by intros j ?%elem_of_nil.
  - split; [lia|]. intros j [->|Hj]%elem_of_cons; [lia|].
    specialize (IH2 j Hj). lia.
Qed.

Lemma foldr_max_elem (k : Z) (ks : list Z) :
  foldr Z.max k ks ∈ k :: ks.
Proof.
  induction ks as [|x ks IH]; simpl; [left|].
  destruct (Z.max_spec x (foldr Z.max k ks)) as [[_ ->]|[_ ->]].
  - apply elem_of_cons in IH as [->|IH]; [left|right; right; done].
  - right; left.
Qed.

Lemma max_key_None (m : gmap Z R) : max_key m = None ↔ m = ∅.
Proof.
  unfold max_key. split.
  - destruct (map_to_list m) as [|kv l] eqn:Hl; simpl; [|done].
    intros _. by apply map_to_list_empty_iff.
  - intros ->. by rewrite map_to_list_empty.
Qed.

Lemma max_key_Some (m : gmap Z R) (k : Z) :
  max_key m = Some k →
  is_Some (m !! k) ∧ ∀ j, is_Some (m !! j) → j ≤ k.
Proof.
  unfold max_key.
  assert (Hkeys : ∀ j, j ∈ (map_to_list m).*1 ↔ is_Some (m !! j)).
  { intros j. rewrite list_elem_of_fmap. split.
    - intros ([j' v] & -> & Hin). apply elem_of_map_to_list in Hin. eauto.
    - intros [v Hv]. exists (j, v). split; [done|]. by apply elem_of_map_to_list. }
  destruct ((map_to_list m).*1) as [|k0 ks]; [done|].
  intros [= <-]. split.
  - apply Hkeys, foldr_max_elem.
  - intros j Hj. apply Hkeys in Hj.
    destruct (foldr_max_ge k0 ks) as [H0 Hks].
    apply elem_of_cons in Hj as [->|Hj]; [done|by apply Hks].
Qed.

(** When the keys are exactly 1..N, the next id computed on load is N+1. *)
Lemma next_after_1_to_N (m : gmap Z R) (N : Z) :
  0 ≤ N →
  (∀ k, is_Some (m !! k) ↔ 1 ≤ k ≤ N) →
  next_id_after_load m = N + 1.
Proof.
  intros HN Hkeys. unfold next_id_after_load. destruct (max_key m) as [k|] eqn:Hmax.
  - apply max_key_Some in Hmax as [Hk Hle]. apply Hkeys in Hk.
    destruct (decide (k = N)) as [->|Hne]; [done|].
    assert (HNin : is_Some (m !! N)) by (apply Hkeys; lia).
    specialize (Hle N HNin). lia.
  - apply max_key_None in Hmax as ->.
    destruct (decide (N = 0)) as [->|Hne]; [done|].
    assert (H1 : is_Some ((∅ : gmap Z R) !! 1)) by (apply Hkeys; lia).
    rewrite lookup_empty in H1. by destruct H1.
Qed.
End round_trip.

Lemma keys_below_next_id {R} (m : gmap Z R) (k : Z) :
  is_Some (m !! k) → k < next_id_after_load m.
Proof.
  intros Hk. unfold next_id_after_load. destruct (max_key m) as [j|] eqn:Hmax.
  - apply max_key_Some in Hmax as [_ Hle]. specialize (Hle k Hk). lia.
  - apply max_key_None in Hmax as ->. rewrite lookup_empty in Hk. by destruct Hk.
Qed.

(** A successful relocation files its record under the current next id and
    moves the counter one up. *)
Lemma relocate_item_consumes_next_id (now : timestamp) (item_id : Z)
    (items : gmap Z Item) (virtual_units : gmap Z VSU) (shelves : list (Z * Shelf))
    (reason : string) (w : World) (res : RelocationResult) :
  out_result (relocate_item now item_id items virtual_units shelves reason w) = Ok res →
  ∃ w1 loaded record history',
    ensure_history_loaded now w = (w1, Ok loaded) ∧
    relocation_history_state
      (out_world (relocate_item now item_id items virtual_units shelves reason w))
      = Some history' ∧
    relocations history' = <[next_relocation_id w1 := record]> (relocations loaded) ∧
    r_item_id record = item_id ∧
    next_relocation_id
      (out_world (relocate_item now item_id items virtual_units shelves reason w))
      = next_relocation_id w1 + 1.
Proof.
  unfold relocate_item.
  destruct (ensure_history_loaded now w) as [w1 [loaded|e]]; [|done].
  destruct (items !! item_id) as [item|]; [|done].
  destruct (vsu_id item) as [o|]; [|done].
  destruct (virtual_units !! o) as [ov|]; [|done].
  destruct (find_empty_vsu_for_relocate _ _ _ _ _) as [[[n code] nv]|]; [|done].
  destruct (vsu_items ov) as [original_items|]; [|done].
  unfold save_relocation_history. destruct (writable _); [|done].
  simpl. intros _. eexists _, _, _, _. split; [done|]. split; [done|]. simpl. done.
Qed.

(** The reload of what a successful save wrote, in a fresh process. *)
Lemma load_after_save (now0 now : timestamp) (history saved : RelocationHistory)
    (st0 st1 : storage RelocationRecord) :
  save_relocation_history now0 history st0 = (saved, st1, Ok ()) →
  ∃ w1 loaded,
    load_relocation_history now (module_init st1) = (w1, Ok loaded) ∧
    relocation_history_state w1 = Some loaded ∧
    relocations loaded = relocations history ∧
    next_relocation_id w1 = next_id_after_load (relocations history).
Proof.
  unfold save_relocation_history. destruct (writable st0); [|done].
  intros [= <- <-]. unfold load_relocation_history, try_load_history. simpl.
  rewrite convert_entries_dump. eexists _, _. split; [done|]. simpl. done.
Qed.

(** C6: record ids are never reused across a save and a reload.  After a
    save that succeeded, a fresh process that loads the file computes as
    next id the largest stored id plus 1 (1 when nothing is stored), which
    is above every stored id; a successful relocation files its record under
    that id and moves the counter one further.  In particular, with ids 1..N
    on file, the record of the next relocation gets id N+1. *)
Theorem record_ids_survive_reload (now0 now : timestamp)
    (history saved : RelocationHistory) (st0 st1 : storage RelocationRecord)
    (N : Z) (item_id : Z) (items : gmap Z Item) (virtual_units : gmap Z VSU)
    (shelves : list (Z * Shelf)) (reason : string)
    (out : Outcome) (res : RelocationResult)
    (Hsave : save_relocation_history now0 history st0 = (saved, st1, Ok ()))
    (Hout : relocate_item now item_id items virtual_units shelves reason
              (module_init st1) = out)
    (Hok : out_result out = Ok res) :
  (∃ w1 loaded,
     load_relocation_history now (module_init st1) = (w1, Ok loaded) ∧
     relocations loaded = relocations history ∧
     next_relocation_id w1 = next_id_after_load (relocations history)) ∧
  (∀ k, is_Some (relocations history !! k) →
        k < next_id_after_load (relocations history)) ∧
  (∃ record history',
     relocation_history_state (out_world out) = Some history' ∧
     relocations history' =
       <[next_id_after_load (relocations history) := record]> (relocations history) ∧
     r_item_id record = item_id ∧
     next_relocation_id (out_world out) = next_id_after_load (relocations history) + 1) ∧
  (0 ≤ N → (∀ k, is_Some (relocations history !! k) ↔ 1 ≤ k ≤ N) →
   next_id_after_load (relocations history) = N + 1).
Proof.
  destruct (load_after_save now0 now _ _ _ _ Hsave) as (w1 & loaded & Hload & _ & Hrel & Hnext).
  subst out.
  destruct (relocate_item_consumes_next_id _ _ _ _ _ _ _ _ Hok)
    as (w1' & loaded' & record & history' & Hens & Hstate & Hins & Hid & Hcnt).
  unfold ensure_history_loaded in Hens. simpl in Hens.
  rewrite Hload in Hens. injection Hens as <- <-.
  split; [eauto|]. split; [intros k; apply keys_below_next_id|].
  split.
  - exists record, history'. rewrite Hstate, Hins, Hcnt, Hrel, Hnext. done.
  - intros HN Hkeys. by apply next_after_1_to_N.
Qed.

Lemma record_ids_survive_reload_witness :
  ∃ record history',
    relocation_history_state (out_world reload_outcome) = Some history' ∧
    relocations history' = <[3 := record]> (relocations two_record_history) ∧
    r_item_id record = 42 ∧
    next_relocation_id (out_world reload_outcome) = 4.
Proof.
  assert (Hres : ∃ res, out_result reload_outcome = Ok res)
    by (vm_compute; eexists; reflexivity).
  destruct Hres as [res Hok].
  assert (Hsave : save_relocation_history 1 two_record_history empty_disk
                    = (saved_history, saved_disk, Ok ()))
    by (vm_compute; reflexivity).
  destruct (record_ids_survive_reload 1 5 two_record_history saved_history
              empty_disk saved_disk 2 42 sample_items sample_virtual_units
              sample_shelves "obstruction_removal" reload_outcome res
              Hsave eq_refl Hok)
    as (_ & _ & (record & history' & Hstate & Hrel & Hid & Hnext) & HN).
  assert (Hthree : next_id_after_load (relocations two_record_history) = 2 + 1).
  { apply HN; [lia|]. intros k. simpl.
    destruct (decide (k = 1)) as [->|H1].
    - rewrite lookup_insert_eq. split; [lia|eauto].
    - rewrite lookup_insert_ne by done.
      destruct (decide (k = 2)) as [->|H2].
      + rewrite lookup_insert_eq. split; [lia|eauto].
      + rewrite lookup_insert_ne by done. rewrite lookup_empty.
        split; [by intros [? ?]|lia]. }
  rewrite Hthree in Hrel, Hnext.
  exists record, history'. done.
Defined.

(** * Further properties of the relocation executor *)

Lemma list_remove_subseteq (x : Z) (l : list Z) (y : Z) :
  y ∈ list_remove x l → y ∈ l.
Proof.
  induction l as [|z l IH]; simpl; [done|].
  case_bool_decide; intros Hy; [by right|].
  apply elem_of_cons in Hy as [->|Hy]; [left|right; auto].
Qed.

Lemma list_remove_other (x : Z) (l : list Z) (y : Z) :
  y ≠ x → y ∈ l → y ∈ list_remove x l.
Proof.
  intros Hne. induction l as [|z l IH]; simpl; [done|].
  intros [->|Hy]%elem_of_cons.
  - rewrite bool_decide_eq_false_2 by done. left.
  - case_bool_decide; [done|]. right. auto.
Qed.

Lemma list_remove_NoDup (x : Z) (l : list Z) :
  NoDup l → NoDup (list_remove x l) ∧ x ∉ list_remove x l.
Proof.
  induction l as [|z l IH]; simpl; [intros _; split; [constructor|apply not_elem_of_nil]|].
  intros [Hz Hl]%NoDup_cons. case_bool_decide as Hzx.
  - subst z. done.
  - destruct (IH Hl) as [Hnd Hx]. split.
    + apply NoDup_cons. split; [|done]. intros Hin. by apply list_remove_subseteq in Hin.
    + intros [->|Hin]%elem_of_cons; done.
Qed.

Lemma list_remove_middle (x : Z) (pre post : list Z) :
  x ∉ pre → list_remove x (pre ++ x :: post) = pre ++ post.
Proof.
  induction pre as [|y pre IH]; simpl; intros Hx.
  - by rewrite bool_decide_eq_true_2.
  - apply not_elem_of_cons in Hx as [Hne Hx].
    rewrite bool_decide_eq_false_2 by done. f_equal. auto.
Qed.

(** The only exception a loader lets through is the failure of its write. *)
Lemma load_relocation_history_Raise (now : timestamp) (w : World) (e : exception) :
  (load_relocation_history now w).2 = Raise e → e = OSError.
Proof.
  assert (Hfresh : ∀ w0, (install_fresh_history now w0).2 = Raise e → e = OSError).
  { intros w0. unfold install_fresh_history, save_relocation_history.
    destruct (writable _); simpl; congruence. }
  unfold load_relocation_history.
  destruct (file (history_storage w)) as [| |d]; [apply Hfresh..|].
  destruct (try_load_history w d) as [w1 [h|e']]; [done|apply Hfresh].
Qed.

Lemma load_product_archive_Raise (now : timestamp) (w : ArchiveWorld) (e : exception) :
  (load_product_archive now w).2 = Raise e → e = OSError.
Proof.
  assert (Hfresh : ∀ w0, (install_fresh_archive now w0).2 = Raise e → e = OSError).
  { intros w0. unfold install_fresh_archive, save_product_archive.
    destruct (writable _); simpl; congruence. }
  unfold load_product_archive.
  destruct (file (archive_storage w)) as [| |d]; [apply Hfresh..|].
  destruct (try_load_archive w d) as [w1 [h|e']]; [done|apply Hfresh].
Qed.

(** Walks through the checks of [relocate_item] once the history is known;
    the failing checks leave the first disjunct, the move the second. *)
Ltac relocate_steps :=
  destruct (_ !! _) as [item|] eqn:Hitem in |- *;
    [|left; left; simpl; split_and!; try done; tauto];
  destruct (vsu_id item) as [o|] eqn:Hhome;
    [|left; left; simpl; split_and!; try done; tauto];
  destruct (_ !! o) as [ov|] eqn:Horigin in |- *;
    [|left; left; simpl; split_and!; try done; tauto];
  destruct (find_empty_vsu_for_relocate _ _ _ _ _) as [[[n code] nv]|] eqn:Hfind;
    [|left; left; simpl; split_and!; try done; tauto];
  destruct (vsu_items ov) as [ol|] eqn:Hol;
    [|left; left; simpl; split_and!; try done; tauto];
  destruct (find_empty_vsu_for_relocate_Some _ _ _ _ _ _ _ _ Hfind)
    as (Hnv & Hempty & Hfits & ->);
  right; unfold save_relocation_history;
  exists item, o, ov, ol, n, nv;
  destruct (writable _); simpl;
  (case_bool_decide as Hno;
   [ subst n; rewrite Horigin in Hnv; injection Hnv as ->;
     pose proof Hempty as Hempty';
     rewrite Hol in Hempty'; destruct ol as [|? ?]; [|done];
     rewrite bool_decide_eq_false_2 by apply not_elem_of_nil; simpl
   | pose proof Hempty as Hempty';
     apply has_items_false in Hempty' as [Hempty'|Hempty']; rewrite Hempty'; simpl ]);
  eexists _, _, _; unfold same_slot, occupants; simpl; split_and!; try done; auto;
  repeat case_match; simpl in *; try done; try congruence.

(** What a call does to the two dictionaries: nothing, or the move. *)
Lemma relocate_item_mutation (now : timestamp) (item_id : Z)
    (items : gmap Z Item) (virtual_units : gmap Z VSU) (shelves : list (Z * Shelf))
    (reason : string) (w : World) :
  let out := relocate_item now item_id items virtual_units shelves reason w in
  (out_items out = items ∧ out_virtual_units out = virtual_units ∧
   ¬ is_Ok (out_result out) ∧ out_result out ≠ Raise OSError
   ∨ out_items out = items ∧ out_virtual_units out = virtual_units ∧
     (∃ w1, ensure_history_loaded now w = (w1, Raise OSError)) ∧
     out_result out = Raise OSError) ∨
  ∃ item o ov ol n nv ov' nv' item',
    items !! item_id = Some item ∧ vsu_id item = Some o ∧
    virtual_units !! o = Some ov ∧ vsu_items ov = Some ol ∧
    find_empty_vsu_for_relocate item (vsu_shelf_id ov) items virtual_units shelves
      = Some (n, vsu_code nv, nv) ∧
    virtual_units !! n = Some nv ∧ has_items (vsu_items nv) = false ∧
    _item_fits_vsu item nv = true ∧
    out_virtual_units out = <[n := nv']> (<[o := ov']> virtual_units) ∧
    out_items out = <[item_id := item']> items ∧
    same_slot ov' ov ∧ same_slot nv' nv ∧
    vsu_items ov' =
      Some (if bool_decide (item_id ∈ ol) then list_remove item_id ol else ol) ∧
    vsu_occupied ov' = (if is_empty_list (occupants ov') then false else vsu_occupied ov) ∧
    vsu_items nv' = Some [item_id] ∧ vsu_occupied nv' = true ∧
    metadata item' = metadata item ∧ vsu_id item' = Some n ∧ stock_index item' = 0 ∧
    (out_result out = Raise OSError ∨ is_Ok (out_result out)).
Proof.
  intros out. subst out. unfold relocate_item.
  destruct (ensure_history_loaded now w) as [w1 [history|e]] eqn:Hens.
  - relocate_steps.
  - assert (e = OSError) as ->.
    { unfold ensure_history_loaded in Hens.
      destruct (relocation_history_state w); [congruence|].
      eapply load_relocation_history_Raise. by rewrite Hens. }
    left. right. simpl. split_and!; eauto.
Qed.

(** X1: whatever the outcome, a call neither adds nor removes a key of
    [items] or [virtual_units]; it leaves every item but the relocated one
    as it was and keeps that item's metadata; it never changes the code,
    shelf, dimensions or position of a slot; and a slot whose entry changed
    is the relocated item's home before or after the call. *)
Theorem relocate_item_frame (now : timestamp) (item_id : Z)
    (items : gmap Z Item) (virtual_units : gmap Z VSU) (shelves : list (Z * Shelf))
    (reason : string) (w : World) :
  let out := relocate_item now item_id items virtual_units shelves reason w in
  dom (out_items out) = dom items ∧
  dom (out_virtual_units out) = dom virtual_units ∧
  (∀ j, j ≠ item_id → out_items out !! j = items !! j) ∧
  (∀ item', out_items out !! item_id = Some item' →
     ∃ item, items !! item_id = Some item ∧ metadata item' = metadata item) ∧
  (∀ v vsu', out_virtual_units out !! v = Some vsu' →
     ∃ vsu, virtual_units !! v = Some vsu ∧ same_slot vsu' vsu) ∧
  (∀ v, out_virtual_units out !! v ≠ virtual_units !! v →
     ∃ item item', items !! item_id = Some item ∧
       out_items out !! item_id = Some item' ∧
       (vsu_id item = Some v ∨ vsu_id item' = Some v)).
Proof.
  intros out. subst out.
  destruct (relocate_item_mutation now item_id items virtual_units shelves reason w)
    as [Hsame | Hmove].
  - destruct Hsame as [(Hi & Hv & _)|(Hi & Hv & _)];
      rewrite Hi, Hv; (split_and!; try done).
    all: try (intros item' Hl; by eauto).
    all: intros v vsu' Hl; exists vsu'; unfold same_slot; done.
  - destruct Hmove as (item & o & ov & ol & n & nv & ov' & nv' & item' & Hitem & Hhome &
      Horigin & _ & _ & Hnv & _ & _ & Hvu & Hit & Hso & Hsn & _ & _ & _ & _ & Hmeta & Hid & _).
    rewrite Hvu, Hit. split_and!.
    + apply dom_insert_lookup_L. eauto.
    + rewrite dom_insert_lookup_L.
      * apply dom_insert_lookup_L. eauto.
      * destruct (decide (o = n)) as [->|Hne].
        -- rewrite lookup_insert_eq. eauto.
        -- rewrite lookup_insert_ne by done. eauto.
    + intros j Hj. by rewrite lookup_insert_ne.
    + intros i'. rewrite lookup_insert_eq. intros [= <-]. eauto.
    + intros v vsu'. destruct (decide (n = v)) as [->|Hn].
      * rewrite lookup_insert_eq. intros [= <-]. eauto.
      * rewrite lookup_insert_ne by done. destruct (decide (o = v)) as [->|Ho].
        -- rewrite lookup_insert_eq. intros [= <-]. eauto.
        -- rewrite lookup_insert_ne by done. intros H. exists vsu'.
           unfold same_slot. done.
    + intros v Hv. exists item, item'. rewrite lookup_insert_eq.
      split; [done|]. split; [done|].
      destruct (decide (n = v)) as [->|Hn]; [by right|].
      destruct (decide (o = v)) as [->|Ho]; [by left|].
      rewrite !lookup_insert_ne in Hv by done. done.
Qed.

(** X2: if every slot's [occupied] flag agrees with its occupant list before
    the call, every slot's flag agrees with its list after it, whatever the
    outcome. *)
Theorem relocate_item_keeps_flags_consistent (now : timestamp) (item_id : Z)
    (items : gmap Z Item) (virtual_units : gmap Z VSU) (shelves : list (Z * Shelf))
    (reason : string) (w : World)
    (Hflags : ∀ v vsu, virtual_units !! v = Some vsu → occupied_consistent vsu) :
  ∀ v vsu,
    out_virtual_units (relocate_item now item_id items virtual_units shelves reason w)
      !! v = Some vsu →
    occupied_consistent vsu.
Proof.
  destruct (relocate_item_mutation now item_id items virtual_units shelves reason w)
    as [Hsame | Hmove].
  - assert (Hv : out_virtual_units
                   (relocate_item now item_id items virtual_units shelves reason w)
                 = virtual_units)
      by (destruct Hsame as [(_ & ? & _)|(_ & ? & _)]; done).
    rewrite Hv. exact Hflags.
  - destruct Hmove as (item & o & ov & ol & n & nv & ov' & nv' & item' & _ & _ &
      Horigin & Hol & _ & _ & _ & _ & Hvu & _ & _ & _ & Hoi & Hoo & Hni & Hno & _).
    rewrite Hvu. intros v vsu. destruct (decide (n = v)) as [->|Hn].
    + rewrite lookup_insert_eq. intros [= <-]. unfold occupied_consistent.
      by rewrite Hni, Hno.
    + rewrite lookup_insert_ne by done. destruct (decide (o = v)) as [->|Ho].
      * rewrite lookup_insert_eq. intros [= <-]. unfold occupied_consistent.
        rewrite Hoo. unfold occupants. rewrite Hoi. simpl.
        specialize (Hflags _ _ Horigin). unfold occupied_consistent in Hflags.
        rewrite Hflags, Hol.
        destruct ol as [|y l]; simpl; [done|].
        by destruct (if bool_decide (item_id ∈ y :: l) then _ else _).
      * rewrite lookup_insert_ne by done. apply Hflags.
Qed.

Lemma sample_flags_consistent :
  ∀ v vsu, sample_virtual_units !! v = Some vsu → occupied_consistent vsu.
Proof.
  intros v vsu. unfold sample_virtual_units.
  destruct (decide (v = 3)) as [->|H3];
    [rewrite lookup_insert_eq; by intros [= <-]|rewrite lookup_insert_ne by done].
  destruct (decide (v = 7)) as [->|H7];
    [rewrite lookup_insert_eq; by intros [= <-]|rewrite lookup_insert_ne by done].
  destruct (decide (v = 21)) as [->|H21];
    [rewrite lookup_insert_eq; by intros [= <-]|rewrite lookup_insert_ne by done].
  by rewrite lookup_empty.
Qed.

Lemma relocate_item_keeps_flags_consistent_witness :
  ∃ vsu, out_virtual_units sample_outcome !! 3 = Some vsu ∧ occupied_consistent vsu.
Proof.
  assert (Hl : ∃ vsu, out_virtual_units sample_outcome !! 3 = Some vsu)
    by (vm_compute; eexists; reflexivity).
  destruct Hl as [vsu Hl]. exists vsu. split; [exact Hl|].
  exact (relocate_item_keeps_flags_consistent 5 42 sample_items sample_virtual_units
           sample_shelves "obstruction_removal" sample_world sample_flags_consistent
           3 vsu Hl).
Defined.

(** X3: a call keeps the placement of the inventory well formed: if before
    it every item with a home is listed by that home, no slot lists an id
    twice and every listed id is an item whose home is that slot, then the
    same holds after it, whatever the outcome.  In particular the relocated
    item is listed by its new home and by no other slot. *)
Theorem relocate_item_keeps_placement (now : timestamp) (item_id : Z)
    (items : gmap Z Item) (virtual_units : gmap Z VSU) (shelves : list (Z * Shelf))
    (reason : string) (w : World)
    (Hwf : placement_wf items virtual_units) :
  placement_wf
    (out_items (relocate_item now item_id items virtual_units shelves reason w))
    (out_virtual_units (relocate_item now item_id items virtual_units shelves reason w)).
Proof.
  destruct (relocate_item_mutation now item_id items virtual_units shelves reason w)
    as [Hsame | Hmove].
  - destruct Hsame as [(Hi & Hv & _)|(Hi & Hv & _)]; by rewrite Hi, Hv.
  - destruct Hmove as (item & o & ov & ol & n & nv & ov' & nv' & item' & Hitem & Hhome &
      Horigin & Hol & _ & Hnv & Hempty & _ & Hvu & Hit & _ & _ & Hoi & _ & Hni & _ & _ &
      Hid & _).
    destruct Hwf as (Ha & Hb & Hc). rewrite Hvu, Hit.
    assert (Hin : item_id ∈ ol).
    { destruct (Ha _ _ _ Hitem Hhome) as (vsu & l & Hl & Hvl & Hm). congruence. }
    assert (Hne : n ≠ o).
    { intros ->. rewrite Horigin in Hnv. injection Hnv as ->.
      rewrite Hol in Hempty. destruct ol; [by apply elem_of_nil in Hin|done]. }
    rewrite bool_decide_eq_true_2 in Hoi by done.
    destruct (list_remove_NoDup item_id ol (Hb _ _ _ Horigin Hol)) as [Hnd Hgone].
    split_and!.
    + intros i it v Hi Hv. destruct (decide (i = item_id)) as [->|Hi_ne].
      * rewrite lookup_insert_eq in Hi. injection Hi as <-.
        rewrite Hid in Hv. injection Hv as <-.
        exists nv', [item_id]. rewrite lookup_insert_eq. split_and!; [done..|left].
      * rewrite lookup_insert_ne in Hi by done.
        destruct (Ha i it v Hi Hv) as (vsu & l & Hl & Hvl & Hm).
        destruct (decide (n = v)) as [->|Hn].
        { rewrite Hnv in Hl. injection Hl as <-. rewrite Hvl in Hempty.
          destruct l; [by apply elem_of_nil in Hm|done]. }
        rewrite lookup_insert_ne by done.
        destruct (decide (o = v)) as [->|Ho].
        { rewrite Horigin in Hl. injection Hl as <-.
          rewrite Hol in Hvl. injection Hvl as <-.
          exists ov', (list_remove item_id ol). rewrite lookup_insert_eq.
          split_and!; [done..|]. by apply list_remove_other. }
        rewrite lookup_insert_ne by done. eauto.
    + intros v vsu l. destruct (decide (n = v)) as [->|Hn].
      { rewrite lookup_insert_eq. intros [= <-]. rewrite Hni. intros [= <-].
        apply NoDup_singleton. }
      rewrite lookup_insert_ne by done.
      destruct (decide (o = v)) as [->|Ho].
      { rewrite lookup_insert_eq. intros [= <-]. rewrite Hoi. by intros [= <-]. }
      rewrite lookup_insert_ne by done. apply Hb.
    + intros i v vsu l. destruct (decide (n = v)) as [->|Hn].
      { rewrite lookup_insert_eq. intros [= <-]. rewrite Hni. intros [= <-].
        intros ->%list_elem_of_singleton. exists item'.
        by rewrite lookup_insert_eq. }
      rewrite lookup_insert_ne by done.
      destruct (decide (o = v)) as [->|Ho].
      { rewrite lookup_insert_eq. intros [= <-]. rewrite Hoi. intros [= <-] Hi.
        assert (i ≠ item_id) by (intros ->; done).
        rewrite lookup_insert_ne by done.
        apply (Hc i v ov ol Horigin Hol). by apply list_remove_subseteq in Hi. }
      rewrite lookup_insert_ne by done. intros Hl Hvl Hi.
      destruct (Hc i v vsu l Hl Hvl Hi) as (it & Hit' & Hv).
      assert (i ≠ item_id) by (intros ->; congruence).
      rewrite lookup_insert_ne by done. eauto.
Qed.

Lemma sample_placement_wf : placement_wf sample_items sample_virtual_units.
Proof.
  assert (Hitems : ∀ i it, sample_items !! i = Some it →
                     i = 42 ∧ it = mk_item 10 10 10 (Some 3)).
  { intros i it. unfold sample_items.
    destruct (decide (i = 42)) as [->|H42];
      [rewrite lookup_insert_eq; by intros [= <-]|rewrite lookup_insert_ne by done].
    by rewrite lookup_empty. }
  assert (Hvus : ∀ v vsu, sample_virtual_units !! v = Some vsu →
                   v = 3 ∧ vsu_items vsu = Some [42] ∨ vsu_items vsu = Some []).
  { intros v vsu. unfold sample_virtual_units.
    destruct (decide (v = 3)) as [->|H3];
      [rewrite lookup_insert_eq; intros [= <-]; by left
      |rewrite lookup_insert_ne by done].
    destruct (decide (v = 7)) as [->|H7];
      [rewrite lookup_insert_eq; intros [= <-]; by right
      |rewrite lookup_insert_ne by done].
    destruct (decide (v = 21)) as [->|H21];
      [rewrite lookup_insert_eq; intros [= <-]; by right
      |rewrite lookup_insert_ne by done].
    by rewrite lookup_empty. }
  split_and!.
  - intros i it v Hi Hv. apply Hitems in Hi as [-> ->]. injection Hv as <-.
    eexists _, _. split; [reflexivity|]. simpl. split; [reflexivity|left].
  - intros v vsu l Hl. destruct (Hvus v vsu Hl) as [[_ ->] | ->]; intros [= <-].
    + apply NoDup_singleton.
    + apply NoDup_nil_2.
  - intros i v vsu l Hl. destruct (Hvus v vsu Hl) as [[-> Hm] | Hm]; rewrite Hm;
      intros [= <-] Hi.
    + apply list_elem_of_singleton in Hi as ->. eexists. split; reflexivity.
    + by apply elem_of_nil in Hi.
Qed.

Lemma relocate_item_keeps_placement_witness :
  placement_wf (out_items sample_outcome) (out_virtual_units sample_outcome).
Proof.
  apply (relocate_item_keeps_placement 5 42 sample_items sample_virtual_units
           sample_shelves "obstruction_removal" sample_world).
  exact sample_placement_wf.
Defined.

(** What a call does to the history once the aggregate is in memory:
    nothing when a check fails; otherwise it files the record, moves the
    counter, stamps the metadata and attempts the write. *)
Lemma relocate_item_history (now : timestamp) (item_id : Z)
    (items : gmap Z Item) (virtual_units : gmap Z VSU) (shelves : list (Z * Shelf))
    (reason : string) (w w1 : World) (history : RelocationHistory) :
  ensure_history_loaded now w = (w1, Ok history) →
  let out := relocate_item now item_id items virtual_units shelves reason w in
  (out_world out = w1 ∧ out_items out = items ∧ out_virtual_units out = virtual_units ∧
   ∃ e, out_result out = Raise e ∧ e ≠ OSError ∧
     (items !! item_id = None ∨
      (∃ item, items !! item_id = Some item ∧ vsu_id item = None) ∨
      (∃ item o, items !! item_id = Some item ∧ vsu_id item = Some o ∧
         (virtual_units !! o = None ∨
          ∃ ov, virtual_units !! o = Some ov ∧
            (collect_candidates item (vsu_shelf_id ov) virtual_units shelves = [] ∨
             vsu_items ov = None))))) ∨
  ∃ item o ov n nv record h2,
    items !! item_id = Some item ∧ vsu_id item = Some o ∧
    virtual_units !! o = Some ov ∧ is_Some (vsu_items ov) ∧
    virtual_units !! n = Some nv ∧
    find_empty_vsu_for_relocate item (vsu_shelf_id ov) items virtual_units shelves
      = Some (n, vsu_code nv, nv) ∧
    record =
      {| r_item_id := item_id;
         r_product_id := product_id (metadata item);
         r_barcode := barcode (metadata item);
         r_original_vsu_id := o;
         r_original_vsu_code := vsu_code ov;
         r_new_vsu_id := n;
         r_new_vsu_code := vsu_code nv;
         r_original_coordinates := vsu_position ov;
         r_new_coordinates := vsu_position nv;
         r_relocated_at := now;
         r_reason := reason |} ∧
    relocation_history_state (out_world out) = Some h2 ∧
    relocations h2 = <[next_relocation_id w1 := record]> (relocations history) ∧
    history_metadata h2 =
      <["last_updated"%string := MTime now]>
        (<["total_relocations"%string := MInt (Z.of_nat (size (relocations h2)))]>
           (history_metadata history)) ∧
    next_relocation_id (out_world out) = next_relocation_id w1 + 1 ∧
    writable (history_storage (out_world out)) = writable (history_storage w1) ∧
    (writable (history_storage w1) = true ∧
       file (history_storage (out_world out)) = FileDocument (history_document h2) ∧
       out_result out =
         Ok {| res_item_id := item_id;
               res_original_vsu_id := o;
               res_original_vsu_code := vsu_code ov;
               res_new_vsu_id := n;
               res_new_vsu_code := vsu_code nv;
               res_new_coordinates := vsu_position nv;
               res_stock_index := 0;
               res_relocated_at := now;
               res_reason := reason |}
     ∨ writable (history_storage w1) = false ∧
       history_storage (out_world out) = history_storage w1 ∧
       out_result out = Raise OSError).
Proof.
  intros Hload out. subst out. unfold relocate_item. rewrite Hload.
  destruct (items !! item_id) as [item|] eqn:Hitem;
    [|left; simpl; split_and!; try done; eexists; split_and!; eauto; done].
  destruct (vsu_id item) as [o|] eqn:Hhome;
    [|left; simpl; split_and!; try done; eexists; split_and!; eauto 6; done].
  destruct (virtual_units !! o) as [ov|] eqn:Horigin;
    [|left; simpl; split_and!; try done; eexists; split_and!; eauto 8; done].
  destruct (find_empty_vsu_for_relocate _ _ _ _ _) as [[[n code] nv]|] eqn:Hfind.
  2: { apply find_empty_vsu_for_relocate_None in Hfind.
       left; simpl; split_and!; try done; eexists; split_and!; eauto 12; done. }
  destruct (vsu_items ov) as [ol|] eqn:Hol;
    [|left; simpl; split_and!; try done; eexists; split_and!; eauto 12; done].
  destruct (find_empty_vsu_for_relocate_Some _ _ _ _ _ _ _ _ Hfind)
    as (Hnv & Hempty & Hfits & ->).
  right. exists item, o, ov, n, nv. unfold save_relocation_history.
  destruct (writable (history_storage w1)) eqn:Hw; simpl.
  - destruct (decide (n = o)) as [Hno|Hno];
      [ rewrite (bool_decide_eq_true_2 _ Hno);
        subst n; rewrite Horigin in Hnv; injection Hnv as ->;
        rewrite Hol in Hempty; destruct ol as [|? ?]; [|done];
        rewrite bool_decide_eq_false_2 by apply not_elem_of_nil
      | rewrite (bool_decide_eq_false_2 _ Hno);
        apply has_items_false in Hempty as [Hempty|Hempty]; rewrite Hempty ];
      simpl; eexists _, _; (split_and!; try done; eauto).
  - eexists _, _; (split_and!; try done; eauto).
Qed.

(** X4: there is no rollback.  When the history is in memory and the call
    ends in the write failure, the move has been made all the same: the item
    points to its new home, which lists exactly it; the record sits in the
    aggregate in memory under the id that was next and the counter has moved
    on, although the write did not happen. *)
Theorem relocate_item_no_rollback (now : timestamp) (item_id : Z)
    (items : gmap Z Item) (virtual_units : gmap Z VSU) (shelves : list (Z * Shelf))
    (reason : string) (w w1 : World) (history : RelocationHistory) (out : Outcome)
    (Hload : ensure_history_loaded now w = (w1, Ok history))
    (Hout : relocate_item now item_id items virtual_units shelves reason w = out)
    (Hfail : out_result out = Raise OSError) :
  ∃ item' destination' record history' n,
    out_items out !! item_id = Some item' ∧
    vsu_id item' = Some n ∧
    out_virtual_units out !! n = Some destination' ∧
    vsu_items destination' = Some [item_id] ∧
    relocation_history_state (out_world out) = Some history' ∧
    relocations history' !! next_relocation_id w1 = Some record ∧
    r_item_id record = item_id ∧
    r_new_vsu_id record = n ∧
    next_relocation_id (out_world out) = next_relocation_id w1 + 1 ∧
    writable (history_storage w1) = false.
Proof.
  subst out.
  destruct (relocate_item_history now item_id items virtual_units shelves reason
              w w1 history Hload) as [Hnone | Hrec].
  - destruct Hnone as (_ & _ & _ & e & He & Hne & _). congruence.
  - destruct Hrec as (item & o & ov & n & nv & record & h2 & Hitem & Hhome & Horigin &
      _ & Hnv & Hfind & -> & Hstate & Hrel & _ & Hnext & _ &
      [(_ & _ & Hok) | (Hw & Hst & _)]);
      [congruence|].
    destruct (relocate_item_mutation now item_id items virtual_units shelves reason w)
      as [Hsame | Hmove].
    + destruct Hsame as [(_ & _ & _ & Hno)|(_ & _ & (w2 & Hens) & _)]; congruence.
    + destruct Hmove as (item0 & o0 & ov0 & ol0 & n0 & nv0 & ov' & nv' & item' & Hitem0 &
        Hhome0 & Horigin0 & _ & Hfind0 & _ & _ & _ & Hvu & Hit & _ & _ & _ & _ & Hni & _ &
        _ & Hid & _ & _).
      assert (item0 = item) by congruence. subst item0.
      assert (o0 = o) by congruence. subst o0.
      assert (ov0 = ov) by congruence. subst ov0.
      assert (n0 = n) by congruence. subst n0.
      eexists item', nv', _, h2, n.
      rewrite Hit, Hvu, !lookup_insert_eq, Hrel, lookup_insert_eq.
      split_and!; done.
Qed.

Lemma relocate_item_no_rollback_witness :
  ∃ item' destination' record history' n,
    out_items readonly_outcome !! 42 = Some item' ∧
    vsu_id item' = Some n ∧
    out_virtual_units readonly_outcome !! n = Some destination' ∧
    vsu_items destination' = Some [42] ∧
    relocation_history_state (out_world readonly_outcome) = Some history' ∧
    relocations history' !! 1 = Some record ∧
    r_item_id record = 42 ∧
    r_new_vsu_id record = n ∧
    next_relocation_id (out_world readonly_outcome) = 1 + 1 ∧
    writable (history_storage readonly_world) = false.
Proof.
  apply (relocate_item_no_rollback 5 42 sample_items sample_virtual_units sample_shelves
           "obstruction_removal" readonly_world readonly_world new_RelocationHistory
           readonly_outcome).
  - reflexivity.
  - reflexivity.
  - vm_compute. reflexivity.
Defined.

(** X5: once the history is in memory, the call succeeds exactly when the
    item exists, its home VSU id is non-null and a key of [virtual_units],
    the home's occupant list is not null, some slot listed by a shelf is
    present, without occupant and fitting, and the history file can be
    written. *)
Theorem relocate_item_succeeds_iff (now : timestamp) (item_id : Z)
    (items : gmap Z Item) (virtual_units : gmap Z VSU) (shelves : list (Z * Shelf))
    (reason : string) (w w1 : World) (history : RelocationHistory)
    (Hload : ensure_history_loaded now w = (w1, Ok history)) :
  is_Ok (out_result (relocate_item now item_id items virtual_units shelves reason w)) ↔
  ∃ item original_vsu_id original_vsu original_items,
    items !! item_id = Some item ∧
    vsu_id item = Some original_vsu_id ∧
    virtual_units !! original_vsu_id = Some original_vsu ∧
    vsu_items original_vsu = Some original_items ∧
    collect_candidates item (vsu_shelf_id original_vsu) virtual_units shelves ≠ [] ∧
    writable (history_storage w1) = true.
Proof.
  destruct (relocate_item_history now item_id items virtual_units shelves reason
              w w1 history Hload) as [Hnone | Hrec].
  - destruct Hnone as (_ & _ & _ & e & -> & _ & Hwhy). simpl. split; [done|].
    intros (item & o & ov & ol & Hitem & Hhome & Horigin & Hol & Hcands & _).
    destruct Hwhy as [Hno | [(i & Hi & Hv) |
      (i & o' & Hi & Hv & [Hm | (ov' & Ho & [Hc | Hnull])])]];
      simplify_eq.
  - destruct Hrec as (item & o & ov & n & nv & record & h2 & Hitem & Hhome & Horigin &
      [ol Hol] & Hnv & Hfind & _ & _ & _ & _ & _ & _ & Hwrite).
    assert (Hcands : collect_candidates item (vsu_shelf_id ov) virtual_units shelves ≠ []).
    { intros Hc.
      pose proof (proj2 (find_empty_vsu_for_relocate_None item (vsu_shelf_id ov) items
                           virtual_units shelves) Hc). congruence. }
    destruct Hwrite as [(Hw & _ & ->) | (Hw & _ & ->)]; simpl.
    + split; [|done]. intros _. exists item, o, ov, ol. done.
    + split; [done|]. intros (i & o' & ov' & ol' & _ & _ & _ & _ & _ & Hw'). congruence.
Qed.

Lemma relocate_item_succeeds_iff_witness :
  is_Ok (out_result sample_outcome) ↔
  ∃ item original_vsu_id original_vsu original_items,
    sample_items !! 42 = Some item ∧
    vsu_id item = Some original_vsu_id ∧
    sample_virtual_units !! original_vsu_id = Some original_vsu ∧
    vsu_items original_vsu = Some original_items ∧
    collect_candidates item (vsu_shelf_id original_vsu) sample_virtual_units
      sample_shelves ≠ [] ∧
    writable (history_storage
                (load_relocation_history 5 sample_world).1) = true.
Proof.
  apply (relocate_item_succeeds_iff 5 42 sample_items sample_virtual_units sample_shelves
           "obstruction_removal" sample_world
           (load_relocation_history 5 sample_world).1
           (save_relocation_history 5 new_RelocationHistory
              (history_storage sample_world)).1.1).
  reflexivity.
Defined.

(** X6: removing the item closes the gap in the origin's list and touches
    nothing else: when the origin listed [pre ++ item_id :: post] it lists
    [pre ++ post] afterwards, so every occupant behind the item sits one
    position lower, while the records of those occupants, [stock_index]
    included, are exactly what they were. *)
Theorem relocate_item_shifts_later_occupants (now : timestamp) (item_id : Z)
    (items : gmap Z Item) (virtual_units : gmap Z VSU) (shelves : list (Z * Shelf))
    (reason : string) (w : World) (out : Outcome)
    (item : Item) (original_vsu_id : Z) (original_vsu : VSU) (pre post : list Z)
    (Hout : relocate_item now item_id items virtual_units shelves reason w = out)
    (Hok : is_Ok (out_result out))
    (Hitem : items !! item_id = Some item)
    (Hhome : vsu_id item = Some original_vsu_id)
    (Horigin : virtual_units !! original_vsu_id = Some original_vsu)
    (Hlist : vsu_items original_vsu = Some (pre ++ item_id :: post))
    (Hfirst : item_id ∉ pre) :
  ∃ origin',
    out_virtual_units out !! original_vsu_id = Some origin' ∧
    vsu_items origin' = Some (pre ++ post) ∧
    (∀ (k : nat) j, post !! k = Some j →
       occupants original_vsu !! (length pre + 1 + k)%nat = Some j ∧
       occupants origin' !! (length pre + k)%nat = Some j ∧
       (j ≠ item_id → out_items out !! j = items !! j)).
Proof.
  subst out.
  destruct (relocate_item_mutation now item_id items virtual_units shelves reason w)
    as [Hsame | Hmove].
  - destruct Hsame as [(_ & _ & Hno & _)|(_ & _ & _ & Hr)]; [done|].
    rewrite Hr in Hok. done.
  - destruct Hmove as (item0 & o & ov & ol & n & nv & ov' & nv' & item' & Hitem0 & Hhome0 &
      Horigin0 & Hol & _ & Hnv & Hempty & _ & Hvu & Hit & _ & _ & Hoi & _).
    assert (item0 = item) by congruence. subst item0.
    assert (o = original_vsu_id) by congruence. subst o.
    assert (ov = original_vsu) by congruence. subst ov.
    assert (ol = pre ++ item_id :: post) by congruence. subst ol.
    assert (Hin : item_id ∈ pre ++ item_id :: post).
    { apply elem_of_app. right. left. }
    assert (Hne : n ≠ original_vsu_id).
    { intros ->. rewrite Horigin in Hnv. injection Hnv as ->.
      rewrite Hlist in Hempty. by destruct pre. }
    rewrite bool_decide_eq_true_2 in Hoi by done.
    rewrite list_remove_middle in Hoi by done.
    exists ov'. rewrite Hvu, Hit, lookup_insert_ne, lookup_insert_eq by done.
    split; [done|]. split; [done|].
    intros k j Hk. unfold occupants. rewrite Hlist, Hoi. simpl. split_and!.
    + rewrite lookup_app_r by lia.
      replace (length pre + 1 + k - length pre)%nat with (S k) by lia. done.
    + rewrite lookup_app_r by lia.
      replace (length pre + k - length pre)%nat with k by lia. done.
    + intros Hj. by rewrite lookup_insert_ne.
Qed.

Lemma relocate_item_shifts_later_occupants_witness :
  ∃ origin',
    out_virtual_units crowded_outcome !! 3 = Some origin' ∧
    vsu_items origin' = Some ([41] ++ [43]) ∧
    (∀ (k : nat) j, [43] !! k = Some j →
       [41; 42; 43] !! (length [41] + 1 + k)%nat = Some j ∧
       occupants origin' !! (length [41] + k)%nat = Some j ∧
       (j ≠ 42 → out_items crowded_outcome !! j = crowded_items !! j)).
Proof.
  apply (relocate_item_shifts_later_occupants 5 42 crowded_items crowded_virtual_units
           sample_shelves "obstruction_removal" sample_world crowded_outcome
           {| metadata := metadata (mk_item 10 10 10 None);
              vsu_id := Some 3; stock_index := 1 |}
           3 (mk_vsu "A-01-03" 1 30 10 10 [41; 42; 43] true) [41] [43]).
  - reflexivity.
  - vm_compute. exact I.
  - vm_compute. reflexivity.
  - reflexivity.
  - vm_compute. reflexivity.
  - reflexivity.
  - intros Hin. apply list_elem_of_singleton in Hin. discriminate Hin.
Defined.

Lemma find_empty_vsu_for_relocate_listed item shelf_id items virtual_units shelves
    new_vsu_id new_vsu_code new_vsu :
  find_empty_vsu_for_relocate item shelf_id items virtual_units shelves
    = Some (new_vsu_id, new_vsu_code, new_vsu) →
  ∃ sid shelf, (sid, shelf) ∈ shelves ∧ new_vsu_id ∈ shelf_virtual_units shelf.
Proof.
  rewrite find_empty_vsu_for_relocate_first_min.
  intros Hf. apply fmap_Some in Hf as (b & Hb & Heq).
  destruct (first_min_spec _ _ Hb) as (i & Hi & _).
  assert (Hin : b ∈ collect_candidates item shelf_id virtual_units shelves)
    by (apply list_elem_of_lookup; eauto).
  apply elem_of_collect_candidates in Hin as (sid & shelf & Hs & Hv & _).
  destruct b as [[[sc id] cd] v]. unfold cand_vsu_id in *. simpl in *.
  injection Heq as <- _ _. eauto.
Qed.

Lemma relocate_item_result_home (now : timestamp) (item_id : Z)
    (items : gmap Z Item) (virtual_units : gmap Z VSU) (shelves : list (Z * Shelf))
    (reason : string) (w : World) (res : RelocationResult) :
  out_result (relocate_item now item_id items virtual_units shelves reason w) = Ok res →
  ∃ item',
    out_items (relocate_item now item_id items virtual_units shelves reason w)
      !! item_id = Some item' ∧
    vsu_id item' = Some (res_new_vsu_id res).
Proof.
  unfold relocate_item.
  destruct (ensure_history_loaded now w) as [w1 [history|e]]; [|done].
  destruct (items !! item_id) as [item|]; [|done].
  destruct (vsu_id item) as [o|]; [|done].
  destruct (virtual_units !! o) as [ov|]; [|done].
  destruct (find_empty_vsu_for_relocate _ _ _ _ _) as [[[n code] nv]|]; [|done].
  destruct (vsu_items ov) as [ol|]; [|done].
  destruct (save_relocation_history _ _ _) as [[h2 st] [[]|e]]; [|done].
  simpl. intros [= <-]. simpl. rewrite lookup_insert_eq. eauto.
Qed.

(** X7: a relocated item always fits where it was put: after a successful
    call the item's new home is a slot that some shelf lists, that was
    stored in [virtual_units] before the call, and whose dimensions, which
    the call did not change, hold the item axis by axis. *)
Theorem relocate_item_destination_fits (now : timestamp) (item_id : Z)
    (items : gmap Z Item) (virtual_units : gmap Z VSU) (shelves : list (Z * Shelf))
    (reason : string) (w : World) (out : Outcome) (res : RelocationResult)
    (Hout : relocate_item now item_id items virtual_units shelves reason w = out)
    (Hok : out_result out = Ok res) :
  ∃ item' destination destination' sid shelf,
    out_items out !! item_id = Some item' ∧
    vsu_id item' = Some (res_new_vsu_id res) ∧
    virtual_units !! res_new_vsu_id res = Some destination ∧
    out_virtual_units out !! res_new_vsu_id res = Some destination' ∧
    vsu_dimensions destination' = vsu_dimensions destination ∧
    _item_fits_vsu item' destination' = true ∧
    (sid, shelf) ∈ shelves ∧
    res_new_vsu_id res ∈ shelf_virtual_units shelf.
Proof.
  subst out.
  destruct (relocate_item_result_home now item_id items virtual_units shelves
              reason w res Hok) as (item0 & Hi0 & Hid0).
  destruct (relocate_item_mutation now item_id items virtual_units shelves reason w)
    as [Hsame | Hmove].
  - destruct Hsame as [(_ & _ & Hno & _)|(_ & _ & _ & Hr)]; [|congruence].
    rewrite Hok in Hno. by destruct Hno.
  - destruct Hmove as (item & o & ov & ol & n & nv & ov' & nv' & item' & Hitem & Hhome &
      Horigin & _ & Hfind & Hnv & _ & Hfits & Hvu & Hit & _ & (_ & _ & Hdims & _) & _ & _ &
      _ & _ & Hmeta & Hid & _).
    rewrite Hit, lookup_insert_eq in Hi0. injection Hi0 as <-.
    assert (res_new_vsu_id res = n) as -> by congruence.
    destruct (find_empty_vsu_for_relocate_listed _ _ _ _ _ _ _ _ Hfind)
      as (sid & shelf & Hs & Hl).
    exists item', nv, nv', sid, shelf. rewrite Hit, Hvu, !lookup_insert_eq.
    split_and!; try done.
    unfold _item_fits_vsu in *. by rewrite Hmeta, Hdims.
Qed.

Lemma relocate_item_destination_fits_witness :
  ∃ res item' destination destination' sid shelf,
    out_result sample_outcome = Ok res ∧
    out_items sample_outcome !! 42 = Some item' ∧
    vsu_id item' = Some (res_new_vsu_id res) ∧
    sample_virtual_units !! res_new_vsu_id res = Some destination ∧
    out_virtual_units sample_outcome !! res_new_vsu_id res = Some destination' ∧
    vsu_dimensions destination' = vsu_dimensions destination ∧
    _item_fits_vsu item' destination' = true ∧
    (sid, shelf) ∈ sample_shelves ∧
    res_new_vsu_id res ∈ shelf_virtual_units shelf.
Proof.
  assert (Hres : ∃ res, out_result sample_outcome = Ok res)
    by (vm_compute; eexists; reflexivity).
  destruct Hres as [res Hok].
  destruct (relocate_item_destination_fits 5 42 sample_items sample_virtual_units
              sample_shelves "obstruction_removal" sample_world sample_outcome res
              eq_refl Hok) as (i & d & d' & sid & shelf & H).
  exists res, i, d, d', sid, shelf. split; [exact Hok | exact H].
Defined.

(** * Further properties of the two stores *)

(** Loading a file that holds what [save_relocation_history] writes. *)
Lemma load_history_document (now : timestamp) (w : World) (history : RelocationHistory) :
  file (history_storage w) = FileDocument (history_document history) →
  load_relocation_history now w =
    ({| relocation_history_state := Some history;
        next_relocation_id :=
          match max_key (relocations history) with
          | Some k => k + 1
          | None => next_relocation_id w
          end;
        history_storage := history_storage w |}, Ok history).
Proof.
  intros Hfile. unfold load_relocation_history, try_load_history. rewrite Hfile. simpl.
  rewrite convert_entries_dump. by destruct history.
Qed.

Lemma load_archive_document (now : timestamp) (w : ArchiveWorld) (archive : ProductArchive) :
  file (archive_storage w) = FileDocument (archive_document archive) →
  load_product_archive now w =
    ({| product_archive_state := Some archive;
        archive_storage := archive_storage w |}, Ok archive).
Proof.
  intros Hfile. unfold load_product_archive, try_load_archive. rewrite Hfile. simpl.
  rewrite convert_entries_dump. by destruct archive.
Qed.

(** X8: round trip of the history.  What a successful save wrote loads
    back, from any module state, as the very aggregate that was saved:
    every record field for field and the metadata as stamped by the save.
    The load installs it as the module's state and does not write. *)
Theorem history_save_load_round_trip (now0 now : timestamp)
    (history saved : RelocationHistory) (st0 st1 : storage RelocationRecord) (w : World)
    (Hsave : save_relocation_history now0 history st0 = (saved, st1, Ok ()))
    (Hdisk : history_storage w = st1) :
  ∃ w',
    load_relocation_history now w = (w', Ok saved) ∧
    relocations saved = relocations history ∧
    relocation_history_state w' = Some saved ∧
    history_storage w' = st1.
Proof.
  unfold save_relocation_history in Hsave. destruct (writable st0); [|done].
  injection Hsave as <- <-.
  eexists. erewrite load_history_document; [|by rewrite Hdisk].
  split; [reflexivity|]. simpl. done.
Qed.

Lemma history_save_load_round_trip_witness :
  ∃ w',
    load_relocation_history 5 (module_init saved_disk) = (w', Ok saved_history) ∧
    relocations saved_history = relocations two_record_history ∧
    relocation_history_state w' = Some saved_history ∧
    history_storage w' = saved_disk.
Proof.
  apply (history_save_load_round_trip 1 5 two_record_history saved_history
           empty_disk saved_disk (module_init saved_disk)).
  - vm_compute. reflexivity.
  - reflexivity.
Defined.

(** X9: round trip of the archive, as for the history. *)
Theorem archive_save_load_round_trip (now0 now : timestamp)
    (archive saved : ProductArchive) (st0 st1 : storage ArchivedItem) (w : ArchiveWorld)
    (Hsave : save_product_archive now0 archive st0 = (saved, st1, Ok ()))
    (Hdisk : archive_storage w = st1) :
  ∃ w',
    load_product_archive now w = (w', Ok saved) ∧
    archive_items saved = archive_items archive ∧
    product_archive_state w' = Some saved ∧
    archive_storage w' = st1.
Proof.
  unfold save_product_archive in Hsave. destruct (writable st0); [|done].
  injection Hsave as <- <-.
  eexists. erewrite load_archive_document; [|by rewrite Hdisk].
  split; [reflexivity|]. simpl. done.
Qed.

(** X10: first use.  When the backing file does not exist and the disk can
    be written, either loader returns an aggregate without records and
    creates the file from it, with count 0, the load time as [last_updated]
    and version "1.0"; the history's id counter is left alone. *)
Theorem missing_file_is_created (now : timestamp) (aw : ArchiveWorld) (w : World)
    (Hamissing : file (archive_storage aw) = FileMissing)
    (Hawritable : writable (archive_storage aw) = true)
    (Hmissing : file (history_storage w) = FileMissing)
    (Hwritable : writable (history_storage w) = true) :
  (∃ aw' archive,
     load_product_archive now aw = (aw', Ok archive) ∧
     archive_items archive = ∅ ∧
     archive_metadata archive !! "total_items"%string = Some (MInt 0) ∧
     archive_metadata archive !! "last_updated"%string = Some (MTime now) ∧
     archive_metadata archive !! "version"%string = Some (MStr "1.0") ∧
     product_archive_state aw' = Some archive ∧
     file (archive_storage aw') = FileDocument (archive_document archive)) ∧
  (∃ w' history,
     load_relocation_history now w = (w', Ok history) ∧
     relocations history = ∅ ∧
     history_metadata history !! "total_relocations"%string = Some (MInt 0) ∧
     history_metadata history !! "last_updated"%string = Some (MTime now) ∧
     history_metadata history !! "version"%string = Some (MStr "1.0") ∧
     relocation_history_state w' = Some history ∧
     next_relocation_id w' = next_relocation_id w ∧
     file (history_storage w') = FileDocument (history_document history)).
Proof.
  split.
  - unfold load_product_archive, install_fresh_archive, save_product_archive.
    rewrite Hamissing, Hawritable. eexists _, _. simpl. split_and!; done.
  - unfold load_relocation_history, install_fresh_history, save_relocation_history.
    rewrite Hmissing, Hwritable. eexists _, _. simpl. split_and!; done.
Qed.

Lemma missing_file_is_created_witness :
  (∃ aw' archive,
     load_product_archive 5
       {| product_archive_state := None;
          archive_storage := {| file := FileMissing; writable := true |} |}
       = (aw', Ok archive) ∧
     archive_items archive = ∅) ∧
  (∃ w' history,
     load_relocation_history 5 sample_world = (w', Ok history) ∧
     relocations history = ∅ ∧
     next_relocation_id w' = 1).
Proof.
  destruct (missing_file_is_created 5
              {| product_archive_state := None;
                 archive_storage := {| file := FileMissing; writable := true |} |}
              sample_world eq_refl eq_refl eq_refl eq_refl)
    as [(aw' & a & Ha & Hae & _) (w' & h & Hh & Hhe & _ & _ & _ & _ & Hn & _)].
  split; [exists aw', a | exists w', h]; split_and!; assumption.
Defined.

(** X11: a save that cannot write raises the write error, yet it has
    already stamped the aggregate it was given: the count in its metadata
    equals the size of its mapping and [last_updated] is the time of the
    attempt.  Records are untouched. *)
Theorem failed_save_still_stamps (now : timestamp)
    (archive : ProductArchive) (sta : storage ArchivedItem)
    (history : RelocationHistory) (sth : storage RelocationRecord)
    (Harchive : writable sta = false)
    (Hhistory : writable sth = false) :
  (∃ archive' sta',
     save_product_archive now archive sta = (archive', sta', Raise OSError) ∧
     archive_items archive' = archive_items archive ∧
     archive_metadata archive' !! "total_items"%string
       = Some (MInt (Z.of_nat (size (archive_items archive)))) ∧
     archive_metadata archive' !! "last_updated"%string = Some (MTime now)) ∧
  (∃ history' sth',
     save_relocation_history now history sth = (history', sth', Raise OSError) ∧
     relocations history' = relocations history ∧
     history_metadata history' !! "total_relocations"%string
       = Some (MInt (Z.of_nat (size (relocations history)))) ∧
     history_metadata history' !! "last_updated"%string = Some (MTime now)).
Proof.
  unfold save_product_archive, save_relocation_history.
  rewrite Harchive, Hhistory. split; eexists _, _; simpl; split_and!; try done.
  all: simpl; first [by rewrite lookup_insert_eq | by rewrite lookup_insert_ne, lookup_insert_eq].
Qed.

Lemma failed_save_still_stamps_witness :
  (∃ archive' sta',
     save_product_archive 5 new_ProductArchive
       {| file := FileMissing; writable := false |}
       = (archive', sta', Raise OSError) ∧
     archive_metadata archive' !! "last_updated"%string = Some (MTime 5)) ∧
  (∃ history' sth',
     save_relocation_history 5 two_record_history
       {| file := FileMissing; writable := false |}
       = (history', sth', Raise OSError) ∧
     history_metadata history' !! "total_relocations"%string
       = Some (MInt (Z.of_nat (size (relocations two_record_history))))).
Proof.
  destruct (failed_save_still_stamps 5 new_ProductArchive
              {| file := FileMissing; writable := false |}
              two_record_history {| file := FileMissing; writable := false |}
              eq_refl eq_refl)
    as [(a & sa & Ha & _ & _ & Hat) (h & sh & Hh & _ & Hhc & _)].
  split; [exists a, sa | exists h, sh]; split; assumption.
Defined.

Lemma world_eta (w : World) :
  {| relocation_history_state := relocation_history_state w;
     next_relocation_id := next_relocation_id w;
     history_storage := history_storage w |} = w.
Proof. by destruct w. Qed.

(** X12: loading is idempotent.  Once a load of the history has returned
    an aggregate, loading again, at any time, returns the same aggregate and
    leaves the module state, the id counter and the file exactly as the
    first load left them; the same holds for the archive. *)
Theorem reload_is_idempotent (now now' : timestamp)
    (aw aw1 : ArchiveWorld) (archive : ProductArchive)
    (w w1 : World) (history : RelocationHistory)
    (Haload : load_product_archive now aw = (aw1, Ok archive))
    (Hload : load_relocation_history now w = (w1, Ok history)) :
  load_product_archive now' aw1 = (aw1, Ok archive) ∧
  load_relocation_history now' w1 = (w1, Ok history).
Proof.
  split.
  - clear Hload. unfold load_product_archive in Haload.
    assert (Hfresh : ∀ w0, install_fresh_archive now w0 = (aw1, Ok archive) →
              load_product_archive now' aw1 = (aw1, Ok archive)).
    { intros w0. unfold install_fresh_archive, save_product_archive.
      destruct (writable (archive_storage w0)); [|done]. simpl.
      intros [= <- <-]. by erewrite load_archive_document. }
    destruct (file (archive_storage aw)) as [| |d] eqn:Hf; [by eapply Hfresh..|].
    destruct (try_load_archive aw d) as [w2 [a|e]] eqn:Htry; [|by eapply Hfresh].
    injection Haload as <- <-.
    unfold try_load_archive in Htry.
    destruct (convert_entries (doc_entries d)) as [m|e] eqn:Hconv; [|done].
    unfold load_product_archive.
    destruct (doc_metadata d) eqn:Hmeta; [| done |];
      injection Htry as <- <-; simpl; rewrite Hf;
      unfold try_load_archive; rewrite Hconv, Hmeta; done.
  - clear Haload. unfold load_relocation_history in Hload.
    assert (Hfresh : ∀ w0, install_fresh_history now w0 = (w1, Ok history) →
              load_relocation_history now' w1 = (w1, Ok history)).
    { intros w0. unfold install_fresh_history, save_relocation_history.
      destruct (writable (history_storage w0)); [|done]. simpl.
      intros [= <- <-]. erewrite load_history_document by done. simpl.
      by rewrite (proj2 (max_key_None (∅ : gmap Z RelocationRecord)) eq_refl). }
    destruct (file (history_storage w)) as [| |d] eqn:Hf; [by eapply Hfresh..|].
    destruct (try_load_history w d) as [w2 [h|e]] eqn:Htry; [|by eapply Hfresh].
    injection Hload as <- <-.
    unfold try_load_history in Htry.
    destruct (convert_entries (doc_entries d)) as [m|e] eqn:Hconv; [|done].
    unfold load_relocation_history.
    destruct (doc_metadata d) eqn:Hmeta; [| done |];
      injection Htry as <- <-; simpl; rewrite Hf;
      unfold try_load_history; rewrite Hconv, Hmeta; simpl;
      by destruct (max_key m).
Qed.

Lemma reload_is_idempotent_witness :
  load_product_archive 9 (load_product_archive 5 broken_archive_world).1
    = load_product_archive 5 broken_archive_world ∧
  load_relocation_history 9 (load_relocation_history 5 (module_init saved_disk)).1
    = load_relocation_history 5 (module_init saved_disk).
Proof.
  destruct (load_product_archive 5 broken_archive_world) as [aw1 [archive|e]] eqn:Ha;
    [|vm_compute in Ha; discriminate Ha].
  destruct (load_relocation_history 5 (module_init saved_disk)) as [w1 [history|e]] eqn:Hh;
    [|vm_compute in Hh; discriminate Hh].
  exact (reload_is_idempotent 5 9 broken_archive_world aw1 archive
           (module_init saved_disk) w1 history Ha Hh).
Defined.

(** The conversion loop on one more entry. *)
Lemma convert_entries_snoc {R} (l : list (option Z * option R)) (e : option Z * option R) :
  convert_entries (l ++ [e]) = convert_entry (convert_entries l) e.
Proof. unfold convert_entries. by rewrite foldl_app. Qed.

(** What the conversion loop yields: under each id, the record of the last
    entry whose key converts to that id. *)
Lemma convert_entries_lookup {R} (l : list (option Z * option R)) (m : gmap Z R) :
  convert_entries l = Ok m →
  ∀ k r, m !! k = Some r ↔
    ∃ before after, l = before ++ (Some k, Some r) :: after ∧
                    ∀ e, e ∈ after → e.1 ≠ Some k.
Proof.
  revert m. induction l as [|e l IH] using rev_ind; intros m Hm k r.
  - injection Hm as <-. rewrite lookup_empty. split; [done|].
    intros (b & a & Hl & _). by destruct b.
  - rewrite convert_entries_snoc in Hm.
    destruct (convert_entries l) as [m'|err] eqn:Hl; [|done].
    unfold convert_entry in Hm. simpl in Hm.
    destruct e as [[k'|] [r'|]]; simpl in Hm; try done.
    injection Hm as <-. specialize (IH m' eq_refl k r). split.
    + destruct (decide (k' = k)) as [->|Hne].
      * rewrite lookup_insert_eq. intros [= ->]. exists l, []. split; [done|].
        by intros e ?%elem_of_nil.
      * rewrite lookup_insert_ne by done. intros Hk.
        apply IH in Hk as (b & a & -> & Ha).
        exists b, (a ++ [(Some k', Some r')]). split; [by rewrite <- app_assoc|].
        intros e [He | ->%list_elem_of_singleton]%elem_of_app; [by apply Ha|].
        simpl. congruence.
    + intros (b & a & Heq & Ha).
      destruct a as [|x a _] using rev_ind.
      * apply app_inj_tail in Heq as [-> [= -> ->]]. by rewrite lookup_insert_eq.
      * rewrite app_comm_cons, app_assoc in Heq.
        apply app_inj_tail in Heq as [-> <-].
        assert (k' ≠ k).
        { intros ->. apply (Ha (Some k, Some r')); [|done].
          apply elem_of_app. right. left. }
        rewrite lookup_insert_ne by done. apply IH. exists b, a. split; [done|].
        intros e He. apply Ha. apply elem_of_app. by left.
Qed.

(** X13: what a loader takes from a file that loads.  When the history file
    is a document without a faulty entry or metadata, the load returns an
    aggregate that holds, under each id, the record of the last entry whose
    key converts to that id (so of two entries keyed "1" and "01" the later
    one wins) and nothing else; it does not write; and it sets the counter
    to the largest id plus 1, or leaves it alone when there is no record. *)
Theorem load_valid_history_document (now : timestamp) (w : World)
    (d : document RelocationRecord)
    (Hfile : file (history_storage w) = FileDocument d)
    (Hvalid : ¬ corrupt (FileDocument d)) :
  ∃ w' history,
    load_relocation_history now w = (w', Ok history) ∧
    (∀ k r, relocations history !! k = Some r ↔
       ∃ before after, doc_entries d = before ++ (Some k, Some r) :: after ∧
                       ∀ e, e ∈ after → e.1 ≠ Some k) ∧
    relocation_history_state w' = Some history ∧
    history_storage w' = history_storage w ∧
    next_relocation_id w' =
      match max_key (relocations history) with
      | Some k => k + 1
      | None => next_relocation_id w
      end ∧
    ids_below_next w'.
Proof.
  unfold load_relocation_history, try_load_history. rewrite Hfile.
  destruct (convert_entries (doc_entries d)) as [m|e] eqn:Hconv.
  - assert (Hmeta : doc_metadata d ≠ MetaInvalid).
    { intros Hm. apply Hvalid. simpl. by right. }
    assert (Hids : ∀ (md : gmap string meta_value),
              ids_below_next
                {| relocation_history_state :=
                     Some {| relocations := m; history_metadata := md |};
                   next_relocation_id :=
                     match max_key m with
                     | Some k => k + 1
                     | None => next_relocation_id w
                     end;
                   history_storage := history_storage w |}).
    { intros md h k [= <-] Hk. simpl in *.
      destruct (max_key m) as [j|] eqn:Hmax.
      - apply max_key_Some in Hmax as [_ Hle]. specialize (Hle k Hk). lia.
      - apply max_key_None in Hmax as ->. rewrite lookup_empty in Hk. by destruct Hk. }
    pose proof (convert_entries_lookup _ _ Hconv) as Hlook.
    destruct (doc_metadata d); [|done|]; eexists _, _; simpl; split_and!; try done.
  - exfalso. apply Hvalid. simpl. left.
    clear Hfile Hvalid. unfold convert_entries in Hconv.
    assert (Hgen : ∀ (l : list (option Z * option RelocationRecord)) acc,
              foldl convert_entry (Ok acc) l = Raise e →
              ∃ x, x ∈ l ∧ (x.1 = None ∨ x.2 = None)).
    { induction l as [|x l IH]; intros acc; simpl; [done|].
      destruct x as [[k|] [r|]]; simpl.
      - intros H. destruct (IH _ H) as (y & Hy & Hbad). exists y. split; [by right|done].
      - intros _. eexists. split; [left|]. by right.
      - intros _. eexists. split; [left|]. by left.
      - intros _. eexists. split; [left|]. by left. }
    eapply Hgen. exact Hconv.
Qed.

Lemma load_valid_history_document_witness :
  ∃ w' history,
    load_relocation_history 5 duplicate_key_world = (w', Ok history) ∧
    relocations history !! 1 = Some later_record ∧
    history_storage w' = history_storage duplicate_key_world ∧
    ids_below_next w'.
Proof.
  assert (Hvalid : ¬ corrupt (FileDocument duplicate_key_document)).
  { intros [(e & Hin & Hbad) | Hmeta]; [|discriminate Hmeta].
    simpl in Hin.
    apply elem_of_cons in Hin as [-> | Hin]; [by destruct Hbad|].
    apply list_elem_of_singleton in Hin as ->. by destruct Hbad. }
  destruct (load_valid_history_document 5 duplicate_key_world duplicate_key_document
              eq_refl Hvalid) as (w' & h & Hload & Hlook & _ & Hst & _ & Hids).
  exists w', h. split_and!; try assumption.
  apply Hlook. exists [(Some 1, Some sample_record)], []. split; [reflexivity|].
  intros e He. by apply elem_of_nil in He.
Defined.

Lemma install_fresh_history_ids (now : timestamp) (w0 : World) :
  ids_below_next (install_fresh_history now w0).1.
Proof.
  intros h k. unfold install_fresh_history, save_relocation_history.
  destruct (writable _); simpl; intros [= <-]; simpl;
    rewrite lookup_empty; by intros [? ?].
Qed.

Lemma try_load_history_ids (w w1 : World) (d : document RelocationRecord)
    (history : RelocationHistory) :
  try_load_history w d = (w1, Ok history) → ids_below_next w1.
Proof.
  unfold try_load_history.
  destruct (convert_entries (doc_entries d)) as [m|e]; [|done].
  assert (Hids : ∀ (md : gmap string meta_value),
            ids_below_next
              {| relocation_history_state :=
                   Some {| relocations := m; history_metadata := md |};
                 next_relocation_id :=
                   match max_key m with
                   | Some k => k + 1
                   | None => next_relocation_id w
                   end;
                 history_storage := history_storage w |}).
  { intros md h' k [= <-] Hk. simpl in *.
    destruct (max_key m) as [j|] eqn:Hmax.
    - apply max_key_Some in Hmax as [_ Hle]. specialize (Hle k Hk). lia.
    - apply max_key_None in Hmax as ->. rewrite lookup_empty in Hk. by destruct Hk. }
  destruct (doc_metadata d); [|done|]; intros [= <- <-]; apply Hids.
Qed.

(** X14: after a load, whatever the file held and whether or not the load
    raised, every id of the aggregate in memory is below the id counter. *)
Theorem load_establishes_ids_below_next (now : timestamp) (w : World) :
  ids_below_next (load_relocation_history now w).1.
Proof.
  unfold load_relocation_history.
  destruct (file (history_storage w)) as [| |d];
    [apply install_fresh_history_ids..|].
  destruct (try_load_history w d) as [w1 [h|e]] eqn:Htry.
  - simpl. by eapply try_load_history_ids.
  - apply install_fresh_history_ids.
Qed.

Lemma load_establishes_ids_below_next_witness :
  ∃ history,
    relocation_history_state (load_relocation_history 5 duplicate_key_world).1
      = Some history ∧
    is_Some (relocations history !! 1) ∧
    1 < next_relocation_id (load_relocation_history 5 duplicate_key_world).1.
Proof.
  assert (Hl : ∃ history,
            relocation_history_state (load_relocation_history 5 duplicate_key_world).1
              = Some history ∧
            is_Some (relocations history !! 1)).
  { vm_compute. eexists. split; [reflexivity|]. eexists. reflexivity. }
  destruct Hl as (history & Hstate & Hk). exists history.
  split; [exact Hstate|]. split; [exact Hk|].
  exact (load_establishes_ids_below_next 5 duplicate_key_world history 1 Hstate Hk).
Defined.

(** A load that returns an aggregate has installed it as the module state. *)
Lemma load_relocation_history_state (now : timestamp) (w w1 : World)
    (history : RelocationHistory) :
  load_relocation_history now w = (w1, Ok history) →
  relocation_history_state w1 = Some history.
Proof.
  assert (Hfresh : ∀ w0, install_fresh_history now w0 = (w1, Ok history) →
            relocation_history_state w1 = Some history).
  { intros w0. unfold install_fresh_history, save_relocation_history.
    destruct (writable _); [|done]. simpl. by intros [= <- <-]. }
  unfold load_relocation_history.
  destruct (file (history_storage w)) as [| |d]; [apply Hfresh..|].
  destruct (try_load_history w d) as [w2 [h|e]] eqn:Htry; [|apply Hfresh].
  intros [= <- <-]. unfold try_load_history in Htry.
  destruct (convert_entries (doc_entries d)) as [m|e]; [|done].
  destruct (doc_metadata d); [|done|]; by injection Htry as <- <-.
Qed.

Lemma ensure_history_loaded_state (now : timestamp) (w w1 : World)
    (history : RelocationHistory) :
  ensure_history_loaded now w = (w1, Ok history) →
  relocation_history_state w1 = Some history.
Proof.
  unfold ensure_history_loaded.
  destruct (relocation_history_state w) eqn:Hs; [by intros [= <- <-]|].
  apply load_relocation_history_state.
Qed.

Lemma ensure_history_loaded_ids (now : timestamp) (w : World) :
  ids_below_next w → ids_below_next (ensure_history_loaded now w).1.
Proof.
  intros Hinv. unfold ensure_history_loaded.
  destruct (relocation_history_state w); [done|].
  unfold load_relocation_history.
  destruct (file (history_storage w)) as [| |d];
    [apply install_fresh_history_ids..|].
  destruct (try_load_history w d) as [w1 [h|e]] eqn:Htry.
  - simpl. by eapply try_load_history_ids.
  - apply install_fresh_history_ids.
Qed.

(** X15: a call keeps every id of the aggregate in memory below the id
    counter, whatever the outcome. *)
Theorem relocate_item_keeps_ids_below_next (now : timestamp) (item_id : Z)
    (items : gmap Z Item) (virtual_units : gmap Z VSU) (shelves : list (Z * Shelf))
    (reason : string) (w : World)
    (Hinv : ids_below_next w) :
  ids_below_next (out_world (relocate_item now item_id items virtual_units shelves reason w)).
Proof.
  pose proof (ensure_history_loaded_ids now w Hinv) as Hinv1.
  destruct (ensure_history_loaded now w) as [w1 [history|e]] eqn:Hload.
  - destruct (relocate_item_history now item_id items virtual_units shelves reason
                w w1 history Hload) as [Hnone | Hrec].
    + destruct Hnone as (-> & _). exact Hinv1.
    + destruct Hrec as (item & o & ov & n & nv & record & h2 & _ & _ & _ & _ & _ & _ & _ &
        Hstate & Hrel & _ & Hnext & _).
      assert (Hst1 : relocation_history_state w1 = Some history).
      { unfold ensure_history_loaded in Hload.
        destruct (relocation_history_state w) eqn:Hs; [by simplify_eq|].
        by apply load_relocation_history_state in Hload. }
      intros h k Hh Hk. rewrite Hstate in Hh. injection Hh as <-.
      rewrite Hnext. rewrite Hrel in Hk.
      destruct (decide (k = next_relocation_id w1)) as [->|Hne]; [lia|].
      rewrite lookup_insert_ne in Hk by done.
      specialize (Hinv1 history k Hst1 Hk). simpl in Hinv1. lia.
  - unfold relocate_item. rewrite Hload. simpl. exact Hinv1.
Qed.

Lemma relocate_item_keeps_ids_below_next_witness :
  ∃ history,
    relocation_history_state (out_world reload_outcome) = Some history ∧
    is_Some (relocations history !! 3) ∧
    3 < next_relocation_id (out_world reload_outcome).
Proof.
  assert (Hl : ∃ history,
            relocation_history_state (out_world reload_outcome) = Some history ∧
            is_Some (relocations history !! 3)).
  { vm_compute. eexists. split; [reflexivity|]. eexists. reflexivity. }
  destruct Hl as (history & Hstate & Hk). exists history.
  split; [exact Hstate|]. split; [exact Hk|].
  assert (Hinv : ids_below_next (module_init saved_disk))
    by (intros h k Hh; discriminate Hh).
  exact (relocate_item_keeps_ids_below_next 5 42 sample_items sample_virtual_units
           sample_shelves "obstruction_removal" (module_init saved_disk) Hinv
           history 3 Hstate Hk).
Defined.

(** X16: the history is append-only.  When every id in memory is below the
    counter, a successful call adds exactly one record, under an id that was
    not in use, and keeps every earlier record under its id. *)
Theorem relocate_item_appends_record (now : timestamp) (item_id : Z)
    (items : gmap Z Item) (virtual_units : gmap Z VSU) (shelves : list (Z * Shelf))
    (reason : string) (w w1 : World) (history : RelocationHistory)
    (out : Outcome) (res : RelocationResult)
    (Hinv : ids_below_next w)
    (Hload : ensure_history_loaded now w = (w1, Ok history))
    (Hout : relocate_item now item_id items virtual_units shelves reason w = out)
    (Hok : out_result out = Ok res) :
  ∃ record history',
    relocation_history_state (out_world out) = Some history' ∧
    relocations history !! next_relocation_id w1 = None ∧
    relocations history' !! next_relocation_id w1 = Some record ∧
    r_item_id record = item_id ∧
    (∀ k r, relocations history !! k = Some r → relocations history' !! k = Some r) ∧
    (∀ k, k ≠ next_relocation_id w1 →
          relocations history' !! k = relocations history !! k) ∧
    size (relocations history') = S (size (relocations history)).
Proof.
  subst out.
  pose proof (ensure_history_loaded_ids now w Hinv) as Hinv1. rewrite Hload in Hinv1.
  pose proof (ensure_history_loaded_state now w w1 history Hload) as Hst1.
  assert (Hfresh : relocations history !! next_relocation_id w1 = None).
  { destruct (relocations history !! next_relocation_id w1) as [r|] eqn:Hr; [|done].
    assert (Hlt := Hinv1 history (next_relocation_id w1) Hst1 (mk_is_Some _ _ Hr)).
    simpl in Hlt. lia. }
  destruct (relocate_item_history now item_id items virtual_units shelves reason
              w w1 history Hload) as [Hnone | Hrec].
  - destruct Hnone as (_ & _ & _ & e & He & _). congruence.
  - destruct Hrec as (item & o & ov & n & nv & record & h2 & _ & _ & _ & _ & _ & _ & -> &
      Hstate & Hrel & _).
    eexists _, h2. rewrite Hrel. split_and!; try done.
    + by rewrite lookup_insert_eq.
    + done.
    + intros k r Hk. rewrite lookup_insert_ne; [done|]. congruence.
    + intros k Hk. by rewrite lookup_insert_ne.
    + by apply map_size_insert_None.
Qed.

Lemma relocate_item_appends_record_witness :
  ∃ record history',
    relocation_history_state (out_world reload_outcome) = Some history' ∧
    relocations history' !! 3 = Some record ∧
    r_item_id record = 42 ∧
    (∀ k r, relocations two_record_history !! k = Some r →
            relocations history' !! k = Some r) ∧
    size (relocations history') = S (size (relocations two_record_history)).
Proof.
  assert (Hres : ∃ res, out_result reload_outcome = Ok res)
    by (vm_compute; eexists; reflexivity).
  destruct Hres as [res Hok].
  assert (Hinv : ids_below_next (module_init saved_disk))
    by (intros h k Hh; discriminate Hh).
  assert (Hload : ensure_history_loaded 5 (module_init saved_disk)
                  = ({| relocation_history_state := Some saved_history;
                        next_relocation_id := 3;
                        history_storage := saved_disk |}, Ok saved_history))
    by (vm_compute; reflexivity).
  destruct (relocate_item_appends_record 5 42 sample_items sample_virtual_units
              sample_shelves "obstruction_removal" (module_init saved_disk) _
              saved_history reload_outcome res Hinv Hload eq_refl Hok)
    as (record & h' & Hstate & _ & Hrec & Hid & Hkeep & _ & Hsize).
  exists record, h'. split_and!; assumption.
Defined.






(** ** The history listing *)







Example listing_latest_first :
  (get_relocation_history 9 listing_world).2
    = Ok [(2, later_record); (1, sample_record)].
Proof. vm_compute. reflexivity. Qed.


(** * Further properties of the product archive *)

(** X20: archiving files a snapshot under the item's id.  Once the archive
    is in memory, the call stores under [item_id] a snapshot that carries
    the item's product data (product id, barcode, batch, expiration as a
    string, which is the ISO form of an expiration held as a [datetime],
    the three dimensions, and the weight, 0 when it has none), the slot and
    shelf it was taken from, its stock index, the time of the call and the
    task id, replacing whatever was
    archived under that id and touching no other entry; the number of
    entries grows by one unless the id was already archived; the metadata
    count is the new number of entries; and the call returns after the file
    was written with the new aggregate, or raises the write error with the
    entry in memory only. *)
Theorem archive_dispensed_item_files_snapshot (isoformat : timestamp → string)
    (now : timestamp) (item_id : Z) (item : DispensedItem) (vsu : StoredVSU)
    (shelf_id : Z) (shelf_name task_id : string)
    (w w1 w' : ArchiveWorld) (archive : ProductArchive) (r : result unit)
    (Hload : ensure_archive_loaded now w = (w1, Ok archive))
    (Hrun : archive_dispensed_item isoformat now item_id item vsu shelf_id shelf_name
              task_id w = (w', r)) :
  ∃ snapshot archive',
    product_archive_state w' = Some archive' ∧
    archive_items archive' = <[item_id := snapshot]> (archive_items archive) ∧
    (∀ j, j ≠ item_id → archive_items archive' !! j = archive_items archive !! j) ∧
    a_item_id snapshot = item_id ∧
    a_product_id snapshot = product_id (metadata (d_item item)) ∧
    a_barcode snapshot = barcode (metadata (d_item item)) ∧
    a_batch snapshot = d_batch item ∧
    a_expiration snapshot =
      match d_expiration item with
      | ExpirationStr s => s
      | ExpirationTime t => isoformat t
      end ∧
    a_dimensions snapshot =
      {| width := width (dimensions (metadata (d_item item)));
         height := height (dimensions (metadata (d_item item)));
         depth := depth (dimensions (metadata (d_item item)));
         volume := None |} ∧
    a_weight snapshot = default 0 (d_weight item) ∧
    a_vsu_id snapshot = sv_id vsu ∧
    a_vsu_code snapshot = vsu_code (sv_vsu vsu) ∧
    a_coordinates snapshot = vsu_position (sv_vsu vsu) ∧
    a_shelf_id snapshot = shelf_id ∧
    a_shelf_name snapshot = shelf_name ∧
    a_stock_index snapshot = stock_index (d_item item) ∧
    a_dispensed_at snapshot = now ∧
    a_task_id snapshot = task_id ∧
    size (archive_items archive') =
      (if archive_items archive !! item_id is Some _
       then size (archive_items archive)
       else S (size (archive_items archive))) ∧
    archive_metadata archive' !! "total_items"%string
      = Some (MInt (Z.of_nat (size (archive_items archive')))) ∧
    (r = Ok () ∧ writable (archive_storage w1) = true ∧
       file (archive_storage w') = FileDocument (archive_document archive')
     ∨ r = Raise OSError ∧ writable (archive_storage w1) = false).
Proof.
  unfold archive_dispensed_item in Hrun. rewrite Hload in Hrun.
  unfold save_product_archive in Hrun.
  assert (Hsize : ∀ x : ArchivedItem,
            size (<[item_id := x]> (archive_items archive)) =
              (if archive_items archive !! item_id is Some _
               then size (archive_items archive)
               else S (size (archive_items archive)))).
  { intros x. destruct (archive_items archive !! item_id) as [y|] eqn:Hy.
    - rewrite <- (insert_delete_eq (archive_items archive) item_id x).
      rewrite <- (insert_delete_id (archive_items archive) item_id y Hy) at 2.
      rewrite !map_size_insert_None by apply lookup_delete_eq. done.
    - by apply map_size_insert_None. }
  destruct (writable (archive_storage w1)) eqn:Hw; injection Hrun as <- <-;
    eexists _, _; simpl; (split_and!; try done).
  all: simpl.
  all: try (intros j Hj; by rewrite lookup_insert_ne).
  all: try apply Hsize.
  all: try (by rewrite lookup_insert_ne, lookup_insert_eq).
  all: auto.
Qed.

Lemma archive_dispensed_item_files_snapshot_witness :
  ∃ snapshot archive',
    product_archive_state
      (archive_dispensed_item iso_stub 9 42 dated_box box_slot 1 "A-01" "task-9"
         archive_after_one).1 = Some archive' ∧
    archive_items archive' !! 42 = Some snapshot ∧
    a_expiration snapshot = iso_stub 100 ∧
    a_dimensions snapshot = dims 10 10 10 ∧
    a_weight snapshot = 250 ∧
    a_task_id snapshot = "task-9"%string ∧
    a_dispensed_at snapshot = 9 ∧
    size (archive_items archive') = 1%nat.
Proof.
  assert (Hload : ∃ archive,
            ensure_archive_loaded 9 archive_after_one = (archive_after_one, Ok archive) ∧
            is_Some (archive_items archive !! 42) ∧
            size (archive_items archive) = 1%nat).
  { eexists. split; [vm_compute; reflexivity|]. split; [|reflexivity].
    vm_compute. eexists. reflexivity. }
  destruct Hload as (archive & Hload & [old Hold] & Hone).
  destruct (archive_dispensed_item iso_stub 9 42 dated_box box_slot 1 "A-01" "task-9"
              archive_after_one) as [w' r] eqn:Hrun.
  destruct (archive_dispensed_item_files_snapshot iso_stub 9 42 dated_box box_slot
              1 "A-01" "task-9" archive_after_one archive_after_one w' archive r
              Hload Hrun)
    as (snap & a' & Hstate & Hitems & _ & _ & _ & _ & _ & Hexp & Hdims & Hweight &
        _ & _ & _ & _ & _ & _ & Hat & Htask & Hsize & _).
  exists snap, a'. simpl. rewrite Hold in Hsize.
  split_and!; try assumption.
  - rewrite Hitems. apply lookup_insert_eq.
  - by rewrite Hsize.
Defined.

(** ** Archive statistics *)










Example stats_of_two_items_of_one_product :
  (get_archive_stats 9 archive_after_two).2
    = Ok {| as_total_items := 2;
            as_total_products := 1;
            as_products := [{| pc_product_id := 7; pc_barcode := "X1"; pc_count := 2 |}];
            as_last_updated := MTime 6 |}.
Proof. vm_compute. reflexivity. Qed.


(** * Further properties of the fit evaluator and the search *)

(** X22: a slot that holds an item of non-negative dimensions, and whose
    volume is computed from its own dimensions, never has negative wasted
    space; so a candidate's score is never below the bonus of its tier, and
    never below -1000. *)
Theorem fitting_slot_score_bound (item : Item) (vsu : VSU)
    (is_same_shelf is_same_rack : bool)
    (Hfit : _item_fits_vsu item vsu = true)
    (Hvolume : volume (vsu_dimensions vsu) = None)
    (Hwidth : 0 ≤ width (dimensions (metadata item)))
    (Hheight : 0 ≤ height (dimensions (metadata item)))
    (Hdepth : 0 ≤ depth (dimensions (metadata item))) :
  0 ≤ wasted_space item vsu ∧
  location_bonus is_same_shelf is_same_rack
    ≤ _calculate_vsu_fit_score item vsu is_same_shelf is_same_rack ∧
  -1000 ≤ _calculate_vsu_fit_score item vsu is_same_shelf is_same_rack.
Proof.
  unfold _item_fits_vsu in Hfit. rewrite !andb_true_iff, !Z.leb_le in Hfit.
  destruct Hfit as [[Hw Hh] Hd].
  assert (Hwaste : 0 ≤ wasted_space item vsu).
  { unfold wasted_space, vsu_volume, item_volume. rewrite Hvolume.
    assert (width (dimensions (metadata item)) * height (dimensions (metadata item))
            ≤ width (vsu_dimensions vsu) * height (vsu_dimensions vsu))
      by (apply Z.mul_le_mono_nonneg; lia).
    assert (width (dimensions (metadata item)) * height (dimensions (metadata item))
              * depth (dimensions (metadata item))
            ≤ width (vsu_dimensions vsu) * height (vsu_dimensions vsu)
              * depth (vsu_dimensions vsu))
      by (apply Z.mul_le_mono_nonneg; [apply Z.mul_nonneg_nonneg| | |]; lia).
    lia. }
  unfold _calculate_vsu_fit_score, location_bonus.
  destruct is_same_shelf, is_same_rack; lia.
Qed.

Lemma fitting_slot_score_bound_witness :
  0 ≤ wasted_space box_item roomy_slot ∧
  location_bonus true true ≤ _calculate_vsu_fit_score box_item roomy_slot true true ∧
  -1000 ≤ _calculate_vsu_fit_score box_item roomy_slot true true.
Proof.
  apply (fitting_slot_score_bound box_item roomy_slot true true).
  - reflexivity.
  - reflexivity.
  - simpl. lia.
  - simpl. lia.
  - simpl. lia.
Defined.

Lemma shelves_get_None (shelves : list (Z * Shelf)) (shelf_id : Z) :
  shelves_get shelves shelf_id = None →
  ∀ sid shelf, (sid, shelf) ∈ shelves → sid ≠ shelf_id.
Proof.
  induction shelves as [|[sid0 shelf0] shelves IH]; simpl.
  - intros _ sid shelf Hin. by apply elem_of_nil in Hin.
  - case_bool_decide as Heq; [done|]. intros Hnone sid shelf Hin.
    apply elem_of_cons in Hin as [[= -> ->]|Hin]; [done|]. by eapply IH.
Qed.

(** X23: when the origin's shelf id is not a key of [shelves], the current
    rack is null: no candidate gets the same-shelf bonus, and the same-rack
    bonus goes to exactly the candidates on shelves whose own rack id is
    null. *)
Theorem unknown_origin_shelf_bonus (item : Item) (shelf_id : Z)
    (virtual_units : gmap Z VSU) (shelves : list (Z * Shelf)) (c : candidate)
    (Hunknown : shelves_get shelves shelf_id = None)
    (Hc : c ∈ collect_candidates item shelf_id virtual_units shelves) :
  ∃ sid shelf,
    (sid, shelf) ∈ shelves ∧
    cand_vsu_id c ∈ shelf_virtual_units shelf ∧
    sid ≠ shelf_id ∧
    cand_score c =
      wasted_space item (cand_vsu c)
      + (if shelf_rack_id shelf is None then -500 else 0).
Proof.
  apply elem_of_collect_candidates in Hc
    as (sid & shelf & Hs & Hv & _ & _ & _ & _ & Hscore).
  exists sid, shelf. pose proof (shelves_get_None _ _ Hunknown sid shelf Hs) as Hne.
  split_and!; try done.
  rewrite Hscore. unfold current_rack. rewrite Hunknown.
  unfold _calculate_vsu_fit_score, location_bonus.
  rewrite bool_decide_eq_false_2 by done.
  destruct (shelf_rack_id shelf) as [rack|].
  - by rewrite bool_decide_eq_false_2.
  - by rewrite bool_decide_eq_true_2.
Qed.

Lemma unknown_origin_shelf_bonus_witness :
  ∃ sid shelf,
    (sid, shelf) ∈ rackless_shelves ∧
    7 ∈ shelf_virtual_units shelf ∧
    sid ≠ 1 ∧
    137500 = wasted_space box_item roomy_slot
             + (if shelf_rack_id shelf is None then -500 else 0).
Proof.
  apply (unknown_origin_shelf_bonus box_item 1 rackless_virtual_units rackless_shelves
           (137500, 7, "A-01-07"%string, roomy_slot)).
  - reflexivity.
  - vm_compute. constructor.
Defined.

Lemma archive_save_load_round_trip_witness :
  ∃ w',
    load_product_archive 5
      {| product_archive_state := None; archive_storage := saved_archive_disk |}
      = (w', Ok saved_archive) ∧
    archive_items saved_archive = archive_items new_ProductArchive ∧
    product_archive_state w' = Some saved_archive ∧
    archive_storage w' = saved_archive_disk.
Proof.
  apply (archive_save_load_round_trip 1 5 new_ProductArchive saved_archive
           archive_disk saved_archive_disk
           {| product_archive_state := None; archive_storage := saved_archive_disk |}).
  - vm_compute. reflexivity.
  - reflexivity.
Defined.

(** X24: an item that its home slot does not list is moved all the same.
    A successful call for such an item found a list, not null, in the old
    home; it leaves that list as it was (when the new home is another slot),
    lists the item in the new home alone, and clears the old home's flag
    only if its list is empty. *)
Theorem relocate_item_unlisted_item (now : timestamp) (item_id : Z)
    (items : gmap Z Item) (virtual_units : gmap Z VSU) (shelves : list (Z * Shelf))
    (reason : string) (w : World) (out : Outcome)
    (item : Item) (original_vsu_id : Z) (original_vsu : VSU)
    (Hout : relocate_item now item_id items virtual_units shelves reason w = out)
    (Hok : is_Ok (out_result out))
    (Hitem : items !! item_id = Some item)
    (Hhome : vsu_id item = Some original_vsu_id)
    (Horigin : virtual_units !! original_vsu_id = Some original_vsu)
    (Hunlisted : item_id ∉ occupants original_vsu) :
  ∃ new_vsu_id item' destination' original_items,
    vsu_items original_vsu = Some original_items ∧
    out_items out !! item_id = Some item' ∧
    vsu_id item' = Some new_vsu_id ∧
    out_virtual_units out !! new_vsu_id = Some destination' ∧
    vsu_items destination' = Some [item_id] ∧
    (new_vsu_id = original_vsu_id ∧ original_items = []
     ∨ new_vsu_id ≠ original_vsu_id ∧
       ∃ origin',
         out_virtual_units out !! original_vsu_id = Some origin' ∧
         vsu_items origin' = Some original_items ∧
         vsu_occupied origin' =
           (if is_empty_list original_items
            then false else vsu_occupied original_vsu)).
Proof.
  subst out.
  destruct (relocate_item_mutation now item_id items virtual_units shelves reason w)
    as [Hsame | Hmove].
  - destruct Hsame as [(_ & _ & Hno & _)|(_ & _ & _ & Hr)]; [done|].
    rewrite Hr in Hok. done.
  - destruct Hmove as (item0 & o & ov & ol & n & nv & ov' & nv' & item' & Hitem0 & Hhome0 &
      Horigin0 & Hol & _ & Hnv & Hempty & _ & Hvu & Hit & _ & _ & Hoi & Hoo & Hni & _ & _ &
      Hid & _).
    assert (item0 = item) by congruence. subst item0.
    assert (o = original_vsu_id) by congruence. subst o.
    assert (ov = original_vsu) by congruence. subst ov.
    unfold occupants in Hunlisted, Hoo. rewrite Hol in Hunlisted. simpl in Hunlisted.
    rewrite bool_decide_eq_false_2 in Hoi by done.
    exists n, item', nv', ol. rewrite Hit, Hvu, !lookup_insert_eq.
    split_and!; try done.
    destruct (decide (n = original_vsu_id)) as [->|Hne].
    + left. split; [done|]. rewrite Horigin in Hnv. injection Hnv as <-.
      rewrite Hol in Hempty. by destruct ol.
    + right. split; [done|]. exists ov'.
      rewrite lookup_insert_ne, lookup_insert_eq by done.
      split_and!; [done|done|]. by rewrite Hoo, Hoi.
Qed.

Lemma relocate_item_unlisted_item_witness :
  ∃ new_vsu_id item' destination' original_items,
    Some [41] = Some original_items ∧
    out_items unlisted_outcome !! 42 = Some item' ∧
    vsu_id item' = Some new_vsu_id ∧
    out_virtual_units unlisted_outcome !! new_vsu_id = Some destination' ∧
    vsu_items destination' = Some [42] ∧
    (new_vsu_id = 3 ∧ original_items = []
     ∨ new_vsu_id ≠ 3 ∧
       ∃ origin',
         out_virtual_units unlisted_outcome !! 3 = Some origin' ∧
         vsu_items origin' = Some original_items ∧
         vsu_occupied origin' = (if is_empty_list original_items then false else true)).
Proof.
  apply (relocate_item_unlisted_item 5 42 sample_items unlisted_virtual_units
           sample_shelves "obstruction_removal" sample_world unlisted_outcome
           (mk_item 10 10 10 (Some 3)) 3 (mk_vsu "A-01-03" 1 10 10 10 [41] true)).
  - reflexivity.
  - vm_compute. exact I.
  - vm_compute. reflexivity.
  - reflexivity.
  - vm_compute. reflexivity.
  - simpl. intros Hin. apply list_elem_of_singleton in Hin. discriminate Hin.
Defined.

(** X25: the read-only views load lazily, with the loader's recovery.  On
    first use (no aggregate in memory), with a history file that exists but
    does not load and a disk that can be written, [get_relocation_stats]
    reports no relocation and the time of the query as [last_updated],
    [get_relocation_history] returns the empty list, and either call has
    overwritten the file with an empty aggregate. *)
Theorem views_reset_corrupt_file (now : timestamp) (w : World)
    (Hfirst : relocation_history_state w = None)
    (Hcorrupt : corrupt (file (history_storage w)))
    (Hwritable : writable (history_storage w) = true) :
  ∃ w' history,
    get_relocation_stats now w =
      (w', Ok {| stats_total_relocations := 0; stats_last_updated := MTime now |}) ∧
    get_relocation_history now w = (w', Ok []) ∧
    relocation_history_state w' = Some history ∧
    relocations history = ∅ ∧
    file (history_storage w') = FileDocument (history_document history) ∧
    doc_entries (history_document history) = [].
Proof.
  assert (Hload : ∃ w0, history_storage w0 = history_storage w ∧
            load_relocation_history now w = install_fresh_history now w0).
  { unfold load_relocation_history.
    destruct (file (history_storage w)) as [| |d] eqn:Hf; [done|by exists w|].
    destruct (try_load_history_corrupt w d Hcorrupt) as (w0 & e & -> & Hst). eauto. }
  destruct Hload as (w0 & Hst & Hload).
  unfold get_relocation_stats, get_relocation_history, ensure_history_loaded.
  rewrite Hfirst, Hload.
  unfold install_fresh_history, save_relocation_history. rewrite Hst, Hwritable.
  eexists _, _. simpl. split_and!; done.
Qed.

Lemma views_reset_corrupt_file_witness :
  ∃ w' history,
    get_relocation_stats 5 broken_history_world =
      (w', Ok {| stats_total_relocations := 0; stats_last_updated := MTime 5 |}) ∧
    get_relocation_history 5 broken_history_world = (w', Ok []) ∧
    relocation_history_state w' = Some history ∧
    relocations history = ∅ ∧
    file (history_storage w') = FileDocument (history_document history) ∧
    doc_entries (history_document history) = [].
Proof.
  apply (views_reset_corrupt_file 5 broken_history_world).
  - reflexivity.
  - left. exists (Some 1, None). split; [constructor | right; reflexivity].
  - reflexivity.
Defined.

(** A slot with a null occupant list is a candidate like an empty one, and
    the move gives it the list holding the item alone. *)
Example null_destination_list_is_replaced :
  (vsu_items <$>
     out_virtual_units
       (relocate_item 5 42 sample_items null_destination_virtual_units sample_shelves
          "obstruction_removal" loaded_world) !! 7) = Some (Some [42]).
Proof. vm_compute. reflexivity. Qed.

(** X26: a null occupant list on the item's home.  Once the history is in
    memory, when the item exists and its home VSU is stored but has a null
    occupant list, the call does not succeed: it raises the 503-class error
    when the search finds no slot, and otherwise [TypeError], from the
    membership test on the null list, which comes after the search and
    before any change: the inventory is as it was and the history is as the
    lazy load left it. *)
Theorem relocate_item_null_origin_list (now : timestamp) (item_id : Z)
    (items : gmap Z Item) (virtual_units : gmap Z VSU) (shelves : list (Z * Shelf))
    (reason : string) (w w1 : World) (history : RelocationHistory) (out : Outcome)
    (item : Item) (original_vsu_id : Z) (original_vsu : VSU)
    (Hload : ensure_history_loaded now w = (w1, Ok history))
    (Hout : relocate_item now item_id items virtual_units shelves reason w = out)
    (Hitem : items !! item_id = Some item)
    (Hhome : vsu_id item = Some original_vsu_id)
    (Horigin : virtual_units !! original_vsu_id = Some original_vsu)
    (Hnull : vsu_items original_vsu = None) :
  out_result out =
    (if is_empty_list
          (collect_candidates item (vsu_shelf_id original_vsu) virtual_units shelves)
     then Raise (HTTPException 503)
     else Raise TypeError) ∧
  out_items out = items ∧
  out_virtual_units out = virtual_units ∧
  out_world out = w1.
Proof.
  subst out. unfold relocate_item. rewrite Hload, Hitem, Hhome, Horigin.
  pose proof (find_empty_vsu_for_relocate_None item (vsu_shelf_id original_vsu) items
                virtual_units shelves) as Hnone.
  destruct (find_empty_vsu_for_relocate _ _ _ _ _) as [[[n code] nv]|] eqn:Hfind.
  - rewrite Hnull. simpl. split_and!; try done.
    destruct (collect_candidates _ _ _ _) as [|c l]; [|done].
    by pose proof (proj2 Hnone eq_refl).
  - rewrite (proj1 Hnone eq_refl). simpl. done.
Qed.

Lemma relocate_item_null_origin_list_witness :
  out_result null_list_outcome = Raise TypeError ∧
  out_items null_list_outcome = sample_items ∧
  out_virtual_units null_list_outcome = null_list_virtual_units ∧
  out_world null_list_outcome = loaded_world.
Proof.
  apply (relocate_item_null_origin_list 5 42 sample_items null_list_virtual_units
           sample_shelves "obstruction_removal" loaded_world loaded_world
           new_RelocationHistory null_list_outcome (mk_item 10 10 10 (Some 3)) 3
           {| vsu_code := "A-01-03"; vsu_shelf_id := 1; vsu_dimensions := dims 10 10 10;
              vsu_position := origin_pos; vsu_items := None; vsu_occupied := true |}).
  - reflexivity.
  - reflexivity.
  - vm_compute. reflexivity.
  - reflexivity.
  - vm_compute. reflexivity.
  - reflexivity.
Defined.
